(** * Goedkoopschappen: the scraping, caching and aggregation pipeline

    A shallow embedding of [src/app.py], [src/ah_scraper.py],
    [src/jumbo_scraper.py] and [src/plus_scraper.py].

    Conventions of the embedding.
    - Python [str] values are [string]s (byte strings; the source's
      non-ASCII literal, the euro sign, is its UTF-8 byte sequence).
      Character classes ([\d], [\s], [str.lower], [str.isdigit]) are the
      ASCII ones: on text of ASCII characters they are Python's.
    - Python [float] values are exact rationals, kept in lowest terms
      ([Qred]); [float('inf')] is a separate constructor.  Where the
      source cuts a float down to an integer, the float is rounded to the
      nearest double first ([to_double]); elsewhere the rounding of binary
      floating point, and NaN everywhere, are outside the embedding.
    - Exceptions are an explicit result type [res].
    - Files of the cache directory are a finite map from file name to
      file content; the clock and the random jitter draw are inputs.  A
      file is written when the file system accepts its name
      ([Cache.writable]).  The functions [scrape_ah_products],
      [scrape_jumbo_products] and [scrape_plus_products] of the scraper
      modules take a search term that is a [str] and whose cache file the
      look-up before the [try] finds or misses without an exception; the
      module [Calls] has the whole calls, with the exceptions of that
      look-up. *)

From Stdlib Require Import QArith Ascii String DecimalString Sorted Permutation.
From Stdlib Require DecimalPos DecimalN.
From stdpp Require Import gmap strings list sorting.

Local Open Scope string_scope.

(** ** Python strings *)

Module PyStr.

Definition code (c : ascii) : N := N_of_ascii c.

Definition is_digit (c : ascii) : bool :=
  ((48 <=? code c) && (code c <=? 57))%N.

Definition is_lower_az (c : ascii) : bool :=
  ((97 <=? code c) && (code c <=? 122))%N.

Definition is_upper_az (c : ascii) : bool :=
  ((65 <=? code c) && (code c <=? 90))%N.

(** [\s] and the characters removed by [str.strip()]: tab, line feed,
    vertical tab, form feed, carriage return, the four separators
    0x1c-0x1f and the space. *)
Definition is_space (c : ascii) : bool :=
  ((9 <=? code c) && (code c <=? 13) || (28 <=? code c) && (code c <=? 32))%N.

(** [\w] on ASCII. *)
Definition is_word (c : ascii) : bool :=
  is_digit c || is_lower_az c || is_upper_az c || (code c =? 95)%N.

Definition lower_char (c : ascii) : ascii :=
  if is_upper_az c then ascii_of_N (code c + 32) else c.

(** [s.lower()] on text whose cased letters are the ASCII letters.
    Python also changes the cased letters beyond ASCII (the bytes of an
    upper-case E with grave accent become those of the lower-case one);
    the embedding leaves every byte above 127 as it is, so that it agrees
    with Python on the texts of [is_ascii] and may differ on others. *)
Fixpoint lower (s : string) : string :=
  match s with
  | EmptyString => EmptyString
  | String c s' => String (lower_char c) (lower s')
  end.

Fixpoint lstrip (s : string) : string :=
  match s with
  | EmptyString => EmptyString
  | String c s' => if is_space c then lstrip s' else s
  end.

Fixpoint rev_onto (s acc : string) : string :=
  match s with
  | EmptyString => acc
  | String c s' => rev_onto s' (String c acc)
  end.

Definition rev (s : string) : string := rev_onto s EmptyString.

Definition rstrip (s : string) : string := rev (lstrip (rev s)).

(** [s.strip()] *)
Definition strip (s : string) : string := rstrip (lstrip s).

(** [s.rstrip('.')] *)
Fixpoint lstrip_char (x : ascii) (s : string) : string :=
  match s with
  | EmptyString => EmptyString
  | String c s' => if Ascii.eqb c x then lstrip_char x s' else s
  end.

Definition rstrip_char (x : ascii) (s : string) : string :=
  rev (lstrip_char x (rev s)).

(** [sub in s] *)
Fixpoint contains (sub s : string) : bool :=
  String.prefix sub s ||
  match s with
  | EmptyString => false
  | String _ s' => contains sub s'
  end.

(** [s.replace(old, new)] for a non-empty [old]: occurrences are replaced
    from left to right and do not overlap.  [skip] counts the characters
    of an occurrence that are still to be dropped. *)
Fixpoint replace_from (old new : string) (skip : nat) (s : string) : string :=
  match s with
  | EmptyString => EmptyString
  | String c s' =>
      match skip with
      | S k => replace_from old new k s'
      | O =>
          if String.prefix old s
          then new ++ replace_from old new (String.length old - 1) s'
          else String c (replace_from old new 0 s')
      end
  end.

Definition replace (old new s : string) : string := replace_from old new 0 s.

Fixpoint all_chars (p : ascii -> bool) (s : string) : bool :=
  match s with
  | EmptyString => true
  | String c s' => p c && all_chars p s'
  end.

Fixpoint any_char (p : ascii -> bool) (s : string) : bool :=
  match s with
  | EmptyString => false
  | String c s' => p c || any_char p s'
  end.

(** [''.join(c for c in s if p(c))] *)
Fixpoint filter_chars (p : ascii -> bool) (s : string) : string :=
  match s with
  | EmptyString => EmptyString
  | String c s' => if p c then String c (filter_chars p s') else filter_chars p s'
  end.

(** [s.isdigit()]: false on the empty string. *)
Definition isdigit (s : string) : bool :=
  match s with
  | EmptyString => false
  | _ => all_chars is_digit s
  end.

(** [s.endswith(t)] *)
Definition endswith (s t : string) : bool := String.prefix (rev t) (rev s).

(** The first [n] characters of [s]. *)
Fixpoint take (n : nat) (s : string) : string :=
  match n, s with
  | S k, String c s' => String c (take k s')
  | _, _ => EmptyString
  end.

(** Truthiness of a string. *)
Definition truthy (s : string) : bool :=
  match s with EmptyString => false | _ => true end.

(** [s.isascii()] *)
Definition is_ascii (s : string) : bool := all_chars (fun c => (code c <? 128)%N) s.

End PyStr.

(** ** Numbers *)

Module PyNum.
Import PyStr.

Definition digit_val (c : ascii) : N := (code c - 48)%N.

Fixpoint digits_val_from (acc : N) (s : string) : N :=
  match s with
  | EmptyString => acc
  | String c s' => digits_val_from (10 * acc + digit_val c)%N s'
  end.

(** The value of a string of decimal digits. *)
Definition digits_val (s : string) : N := digits_val_from 0 s.

(** [int(s)] on the strings the source passes to it: text that a [\d+]
    group matched, or text filtered down to digits and dots.  On those,
    [int] succeeds exactly when [s] is a non-empty run of digits, and
    raises [ValueError] otherwise. *)
Definition py_int (s : string) : option Z :=
  if isdigit s then Some (Z.of_N (digits_val s)) else None.

(** [str(n)] for a natural number. *)
Definition str_of_N (n : N) : string := NilEmpty.string_of_uint (N.to_uint n).

(** [f"{n:02d}"] for a natural number. *)
Definition str_of_N_02d (n : N) : string :=
  if (n <? 10)%N then String "0" (str_of_N n) else str_of_N n.

(** Splits [s] at its first ['.'] (which is dropped). *)
Fixpoint split_dot (s : string) : string * option string :=
  match s with
  | EmptyString => (EmptyString, None)
  | String c s' =>
      if Ascii.eqb c "." then (EmptyString, Some s')
      else let '(a, b) := split_dot s' in (String c a, b)
  end.

Definition all_digits (s : string) : bool := all_chars is_digit s.

(** The rational [ip.fp] for digit strings [ip] and [fp]. *)
Definition decimal_val (ip fp : string) : Q :=
  Qred (Z.of_N (digits_val (ip ++ fp)) # Z.to_pos (10 ^ Z.of_nat (String.length fp))).

Definition unsigned_decimal (s : string) : option Q :=
  match split_dot s with
  | (ip, None) => if isdigit ip then Some (decimal_val ip EmptyString) else None
  | (ip, Some fp) =>
      if all_digits ip && all_digits fp && (truthy ip || truthy fp)
      then Some (decimal_val ip fp) else None
  end.

(** [float(s)] for decimal literals: surrounding white space, an optional
    sign, digits with an optional decimal point.  Every other text raises
    [ValueError] in the embedding; the exponent notation, digit-group
    underscores and the words [inf] and [nan], which Python's [float]
    also reads, are outside it. *)
Definition py_float (s : string) : option Q :=
  match strip s with
  | String "-" s' => Qopp <$> unsigned_decimal s'
  | String "+" s' => unsigned_decimal s'
  | s' => unsigned_decimal s'
  end.

(** A Python float: finite, or [float('inf')]. *)
Inductive pyfloat :=
| Fin (q : Q)
| PInf.

(** [x < y] on floats. *)
Definition flt (x y : pyfloat) : bool :=
  match x, y with
  | Fin a, Fin b => negb (Qle_bool b a)
  | Fin _, PInf => true
  | PInf, _ => false
  end.

Definition qlt (a b : Q) : bool := negb (Qle_bool b a).

(** [int(x)] of a float: the fraction is cut off. *)
Definition trunc (q : Q) : Z := (Qnum q ÷ Z.pos (Qden q))%Z.

(** The digits after the decimal point of [r/d], for [r < d]. *)
Fixpoint frac_digits (fuel : nat) (r d : N) : string :=
  match fuel with
  | O => EmptyString
  | S fuel' =>
      if (r =? 0)%N then EmptyString
      else String (ascii_of_N (48 + (10 * r) / d))
                  (frac_digits fuel' ((10 * r) mod d) d)
  end.

(** [str(x)] of a float whose decimal expansion ends and that Python
    prints without an exponent: the expansion, with at least one digit
    after the point. *)
Definition str_of_float (q : Q) : string :=
  let n := Z.abs_N (Qnum (Qred q)) in
  let d := Npos (Qden (Qred q)) in
  let frac := frac_digits (S (N.to_nat (N.size d))) (n mod d) d in
  (if (Qnum q <? 0)%Z then "-" else "") ++
  str_of_N (n / d) ++ "." ++ (if truthy frac then frac else "0").

(** Float multiplication and division, results in lowest terms. *)
Definition qmul (a b : Q) : Q := Qred (a * b).
Definition qdiv (a b : Q) : Q := Qred (a / b).

(** *** Rounding to a double

    Where the source cuts a float down to an integer, the rounding of
    binary floating point shows in the result: [int(float('2.01') * 1000)]
    is 2009.  There the embedding rounds as IEEE 754 binary64 does. *)

(** [q * 2^k] *)
Definition scale2 (q : Q) (k : Z) : Q :=
  if (0 <=? k)%Z then q * inject_Z (2 ^ k) else q / inject_Z (2 ^ (- k)).

(** For [0 < q], the [k] with [2^k <= q < 2^(k+1)]. *)
Definition floor_log2 (q : Q) : Z :=
  let k := (Z.log2 (Qnum q) - Z.log2 (Z.pos (Qden q)))%Z in
  if Qle_bool 1 (scale2 q (- k)) then k else (k - 1)%Z.

(** The integer nearest to [q], and the even one of two that are equally
    near. *)
Definition round_half_even (q : Q) : Z :=
  let f := (Qnum q / Z.pos (Qden q))%Z in
  match Qcompare (q - inject_Z f) (1 # 2) with
  | Lt => f
  | Gt => (f + 1)%Z
  | Eq => if Z.even f then f else (f + 1)%Z
  end.

(** The double nearest to [q] (round to nearest, ties to even): a
    multiple of [2^e] with at most 53 bits, where [e] is at least -1074.
    A number beyond the largest double, about 1.8e308, becomes [inf] in
    Python; such numbers are outside the embedding. *)
Definition to_double (q : Q) : Q :=
  if Qeq_bool q 0 then 0
  else
    let a := if Qle_bool 0 q then q else Qopp q in
    let e := Z.max (floor_log2 a - 52) (-1074) in
    let m := round_half_even (scale2 a (- e)) in
    let r := Qred (scale2 (inject_Z m) e) in
    if Qle_bool 0 q then r else Qopp r.

(** [int(float(s))] and [int(float(s) * y)] for the exact value [q] of
    the text [s] and a double [y]: the text is rounded to a double, and
    so is the product. *)
Definition int_of_float (q : Q) : Z := trunc (to_double q).

Definition int_of_float_times (q y : Q) : Z := trunc (to_double (to_double q * y)).

End PyNum.

(** ** Regular expressions

    The fragment of Python's [re] that the source uses: ordered
    alternatives, greedy repetition of a character class, capture groups,
    [^], [$] and [\b], matched by backtracking.  A match is searched from
    the leftmost start position. *)

Module Re.
Import PyStr.

Inductive re :=
| Eps
| Chr (p : ascii -> bool)          (* one character of a class *)
| Lit (l : string)                 (* literal text *)
| Seq (a b : re)
| Alt (a b : re)                   (* a|b, a tried first *)
| Star (p : ascii -> bool)         (* p*, greedy *)
| Upto (n : nat) (p : ascii -> bool) (* p{0,n}, greedy *)
| Grp (i : nat) (a : re)           (* capture group number i *)
| Bol                              (* ^ *)
| Eol                              (* $ *)
| WordB.                           (* \b *)

(** [p+] *)
Definition Rep1 (p : ascii -> bool) : re := Seq (Chr p) (Star p).
Definition Opt (a : re) : re := Alt a Eps.
Definition seqs (l : list re) : re := foldr Seq Eps l.
Definition alts (l : list re) : re := foldr Alt (Chr (fun _ => false)) l.

(** Character classes. *)
Definition one_of (cls : string) (c : ascii) : bool := any_char (Ascii.eqb c) cls.
Definition none_of (p : ascii -> bool) (c : ascii) : bool := negb (p c).

Definition captures := list (nat * string).

Fixpoint group (i : nat) (caps : captures) : option string :=
  match caps with
  | [] => None
  | (j, t) :: caps' => if Nat.eqb i j then Some t else group i caps'
  end.

Fixpoint lit (l : string) (prev : option ascii) (s : string)
  : option (option ascii * string) :=
  match l, s with
  | EmptyString, _ => Some (prev, s)
  | String a l', String c s' => if Ascii.eqb a c then lit l' (Some c) s' else None
  | String _ _, EmptyString => None
  end.

Definition at_word_boundary (prev : option ascii) (s : string) : bool :=
  xorb (match prev with Some c => is_word c | None => false end)
       (match s with String c _ => is_word c | EmptyString => false end).

(** [$] matches at the end and before a final line feed. *)
Definition at_eol (s : string) : bool :=
  match s with
  | EmptyString => true
  | String c EmptyString => (code c =? 10)%N
  | _ => false
  end.

Section Matcher.
Context {R : Type}.

(** A continuation receives the character before the position, the
    rest of the text and the groups captured so far. *)
Definition cont := option ascii -> string -> captures -> option R.

Fixpoint star (p : ascii -> bool) (k : cont)
    (prev : option ascii) (s : string) (caps : captures) : option R :=
  match s with
  | String c s' =>
      if p c then
        match star p k (Some c) s' caps with
        | Some r => Some r
        | None => k prev s caps
        end
      else k prev s caps
  | EmptyString => k prev s caps
  end.

Fixpoint upto (n : nat) (p : ascii -> bool) (k : cont)
    (prev : option ascii) (s : string) (caps : captures) : option R :=
  match n, s with
  | S n', String c s' =>
      if p c then
        match upto n' p k (Some c) s' caps with
        | Some r => Some r
        | None => k prev s caps
        end
      else k prev s caps
  | _, _ => k prev s caps
  end.

Fixpoint run (r : re) (k : cont)
    (prev : option ascii) (s : string) (caps : captures) : option R :=
  match r with
  | Eps => k prev s caps
  | Chr p =>
      match s with
      | String c s' => if p c then k (Some c) s' caps else None
      | EmptyString => None
      end
  | Lit l =>
      match lit l prev s with
      | Some (prev', s') => k prev' s' caps
      | None => None
      end
  | Seq a b => run a (run b k) prev s caps
  | Alt a b =>
      match run a k prev s caps with
      | Some x => Some x
      | None => run b k prev s caps
      end
  | Star p => star p k prev s caps
  | Upto n p => upto n p k prev s caps
  | Grp i a =>
      run a (fun prev' s' caps' =>
               k prev' s' ((i, take (String.length s - String.length s') s) :: caps'))
          prev s caps
  | Bol => match prev with None => k prev s caps | Some _ => None end
  | Eol => if at_eol s then k prev s caps else None
  | WordB => if at_word_boundary prev s then k prev s caps else None
  end.
End Matcher.

(** A match at the current position: the groups and the unmatched rest. *)
Definition match_here (r : re) (prev : option ascii) (s : string)
  : option (captures * string) :=
  run r (fun _ s' caps => Some (caps, s')) prev s [].

Fixpoint search_from (r : re) (prev : option ascii) (s : string) : option captures :=
  match match_here r prev s with
  | Some (caps, _) => Some caps
  | None =>
      match s with
      | String c s' => search_from r (Some c) s'
      | EmptyString => None
      end
  end.

(** [re.search(r, s)]: the groups of the leftmost match. *)
Definition search (r : re) (s : string) : option captures := search_from r None s.

(** [match.group(i)] of a group that took part in the match. *)
Definition grp (i : nat) (caps : captures) : string := default EmptyString (group i caps).

(** [re.sub(r, '', s)] for a pattern anchored with [^]: only a match at
    the start of [s] is removed. *)
Definition sub_anchored (r : re) (s : string) : string :=
  match match_here r None s with
  | Some (_, rest) => rest
  | None => s
  end.

End Re.

(** ** Exceptions

    The exceptions that [except Exception] catches.  [KeyboardInterrupt]
    and the cancellation of a task, which it does not catch, are outside
    the embedding. *)

Inductive exn :=
| KeyError
| ValueError
| TypeError
| AttributeError
| ZeroDivisionError
| OtherError (what : string).   (* e.g. a failure of the fetch collaborator *)

Inductive res (A : Type) :=
| Ok (a : A)
| Raise (e : exn).
Arguments Ok {A} a.
Arguments Raise {A} e.

Definition res_bind {A B} (f : A -> res B) (x : res A) : res B :=
  match x with
  | Ok a => f a
  | Raise e => Raise e
  end.

#[global] Instance res_ret : MRet res := fun A a => Ok a.
#[global] Instance res_mbind : MBind res := fun A B f x => res_bind f x.
#[global] Instance res_fmap : FMap res := fun A B f x =>
  match x with
  | Ok a => Ok (f a)
  | Raise e => Raise e
  end.

(** An element of a result that a caller reads with [x[...]] or after a
    check for [None]. *)
Definition or_raise {A} (e : exn) (o : option A) : res A :=
  match o with
  | Some a => Ok a
  | None => Raise e
  end.

Import PyStr PyNum.

(** ** Products

    The scrapers return products as dicts.  The record has the keys that
    the orchestrators and the aggregator read or write; the keys that are
    only carried along for display (image, link, brand, properties and the
    like) are left out. *)

(** A dict entry: the key is absent, holds [None], or holds a value. *)
Inductive field (A : Type) :=
| Absent
| Null
| Has (a : A).
Arguments Absent {A}.
Arguments Null {A}.
Arguments Has {A} a.

(** The ['store'] key: each scraper writes its own literal. *)
Inductive store_id := AH | Jumbo | Plus.

Definition store_str (s : store_id) : string :=
  match s with
  | AH => "ah"
  | Jumbo => "jumbo"
  | Plus => "plus"
  end.

(** A price is a float (all three scrapers) or text. *)
Inductive price_val :=
| PFloat (q : Q)
| PStr (s : string).

Record product := {
  store : store_id;
  name : option string;             (* product.get('name') *)
  price : field price_val;
  unit_size : field string;
  price_per_unit_value : option Q;  (* None: the key is absent or holds None *)
  price_per_unit_unit : option string;
  price_per_unit : option pyfloat   (* the key that search_products adds *)
}.

#[global] Instance store_id_eq_dec : EqDecision store_id.
Proof. solve_decision. Defined.

(** ** Sorting *)

Module PySort.

(** [list.sort(key=...)] once the keys are computed: a stable sort that
    compares keys with [<] only. *)
Section Sort.
Context {A K : Type} (lt : K -> K -> bool) (key : A -> K).

Fixpoint insert_sorted (x : A) (l : list A) : list A :=
  match l with
  | [] => [x]
  | y :: l' =>
      if lt (key y) (key x) then y :: insert_sorted x l'
      else x :: l
  end.

Definition py_sort (l : list A) : list A := foldr insert_sorted [] l.
End Sort.

(** All keys of a list, or the first exception. *)
Fixpoint keys_of {A K} (key : A -> res K) (l : list A) : res (list (K * A)) :=
  match l with
  | [] => Ok []
  | x :: l' =>
      k ← key x;
      ks ← keys_of key l';
      Ok ((k, x) :: ks)
  end.

(** [list.sort(key=key)]: the keys are computed first, and an exception
    of a key leaves the sort. *)
Definition sort_by_key {A} (key : A -> res Q) (l : list A) : res (list A) :=
  ks ← keys_of key l;
  Ok ((py_sort qlt fst ks).*2).

End PySort.

(** ** The freshness cache

    [get_cache_file], [should_update_cache], [save_to_cache] and
    [load_from_cache] are the same in the three scrapers up to the prefix
    of the file name.  Times are microseconds, the resolution of
    [datetime] and [timedelta]. *)

Module Cache.

Definition hours (h : Z) : Z := h * 3600 * 1000000.

Definition CACHE_DURATION : Z := hours 12.
Definition CACHE_DURATION_VARIANCE : Z := hours 4.

(** What [cache_data.get('timestamp', '2000-01-01')] and
    [datetime.fromisoformat] make of the entry. *)
Inductive timestamp_field :=
| TsDefault                 (* no 'timestamp' key: the default is used *)
| TsInvalid                 (* a value that fromisoformat rejects *)
| TsAt (t : Z).             (* a timestamp *)

(** The content of a cache file. *)
Inductive cache_file :=
| Unreadable                (* open or json.load raises *)
| CacheData (ts : timestamp_field) (products : list product).

(** [datetime.fromisoformat('2000-01-01')] on the time scale of [now]. *)
Definition default_time : Z := 946684800 * 1000000.

(** [CACHE_DIR / f"{prefix}_{search_term.lower().replace(' ', '_')}_cache.json"] *)
Definition get_cache_file (prefix search_term : string) : string :=
  prefix ++ "_" ++ replace " " "_" (lower search_term) ++ "_cache.json".

(** The reading of the clock and of the random generator during a call:
    [datetime.now()] in [should_update_cache], the duration
    [timedelta(seconds=variance)] of the draw
    [random.uniform(-CACHE_DURATION_VARIANCE.total_seconds(),
    CACHE_DURATION_VARIANCE.total_seconds())], and [datetime.now()] in
    [save_to_cache]. *)
Record env := {
  now : Z;
  jitter : Z;
  save_time : Z
}.

(** [should_update_cache]; [file] is [None] when the file does not exist. *)
Definition should_update_cache (file : option cache_file) (now jitter : Z) : bool :=
  match file with
  | None => true
  | Some Unreadable => true
  | Some (CacheData TsInvalid _) => true
  | Some (CacheData TsDefault _) =>
      (CACHE_DURATION + jitter <? now - default_time)%Z
  | Some (CacheData (TsAt cache_time) _) =>
      (CACHE_DURATION + jitter <? now - cache_time)%Z
  end.

(** A name under which [open(cache_file, 'w')] creates a file in the
    cache directory of a POSIX file system: the name holds no ['/'] (the
    scrapers create no directory below [CACHE_DIR], so that a path through
    one gives [FileNotFoundError]) and no NUL character ([ValueError]),
    and has at most 255 bytes ([OSError]). *)
Definition valid_file_name (file : string) : bool :=
  negb (any_char (fun c => Ascii.eqb c "/" || Ascii.eqb c "000") file) &&
  Nat.leb (String.length file) 255.

(** [open(cache_file, 'w')] succeeds: the file is there already, or its
    name is valid for a new file.  Failures of the device and of
    permissions (a full disk, a file or a directory that may not be
    written) are outside the embedding. *)
Definition writable (file : string) (fs : gmap string cache_file) : bool :=
  match fs !! file with
  | Some _ => true
  | None => valid_file_name file
  end.

(** [save_to_cache]: when [open] raises, the [except] of the function logs
    the error and nothing is written. *)
Definition save_to_cache (prefix search_term : string) (products : list product)
    (time : Z) (fs : gmap string cache_file) : gmap string cache_file :=
  let cache_file := get_cache_file prefix search_term in
  if writable cache_file fs
  then <[cache_file := CacheData (TsAt time) products]> fs
  else fs.

(** [load_from_cache]: [None] when reading fails. *)
Definition load_from_cache (prefix search_term : string)
    (fs : gmap string cache_file) : option (list product) :=
  match fs !! get_cache_file prefix search_term with
  | Some (CacheData _ products) => Some products
  | _ => None
  end.

(** The cache check that opens [scrape_ah_products] and
    [scrape_jumbo_products]: the cached list, when the entry is fresh and
    loads. *)
Definition cached_products (prefix search_term : string) (e : env)
    (fs : gmap string cache_file) : option (list product) :=
  if should_update_cache (fs !! get_cache_file prefix search_term) (now e) (jitter e)
  then None
  else load_from_cache prefix search_term fs.

End Cache.

(** ** Albert Heijn: [src/ah_scraper.py] *)

Module AhScraper.
Import Re PySort Cache.

(** What the selectors of the loop find in one product card. *)
Record card := {
  title : option string;                        (* product-title-line-clamp *)
  price_amount : option (option string * option string);
      (* price-amount, and in it the texts of the integer and of the
         fractional part *)
  unit_size_text : option string;               (* product-unit-size *)
  image_src : option string;                    (* product-image, attribute src *)
  link_href : option string                     (* a[href^="/producten/product"] *)
}.

(** [r'(\d+)\s*([gk]|kg|gram|stuk)(?:[^a-z]|$)'] *)
Definition re_unit : re :=
  seqs [Grp 1 (Rep1 is_digit); Star is_space;
        Grp 2 (alts [Chr (one_of "gk"); Lit "kg"; Lit "gram"; Lit "stuk"]);
        Alt (Chr (none_of is_lower_az)) Eol].

(** "Convert unit size to standard format if possible". *)
Definition convert_unit_size (unit_size : string) : string :=
  match search re_unit (lower unit_size) with
  | Some m =>
      let num := grp 1 m in
      let unit := lower (grp 2 m) in
      if String.eqb unit "g" || String.eqb unit "gram" then num ++ "g"
      else if String.eqb unit "k" || String.eqb unit "kg" then
        str_of_N (digits_val num * 1000) ++ "g"
      else if String.eqb unit "stuk" then num ++ " stuk"
      else unit_size
  | None => unit_size
  end.

(** The body of the loop over the cards: [None] when the card is left
    out, by [continue] or by the [except] of the loop body. *)
Definition card_product (c : card) : option product :=
  name ← strip <$> title c;
  price_element ← price_amount c;
  integer_part ← price_element.1;
  fractional_part ← price_element.2;
  price ← py_float (integer_part ++ "." ++ fractional_part);
  let unit_size :=
    match strip <$> unit_size_text c with
    | None => Null
    | Some u => Has (if truthy u then convert_unit_size u else u)
    end in
  image ← image_src c;
  if negb (truthy image) then None else
  link ← link_href c;
  Some {| store := AH; name := Some name; price := Has (PFloat price);
          unit_size := unit_size;
          price_per_unit_value := None; price_per_unit_unit := None;
          price_per_unit := None |}.

(** [lambda x: x['price']] *)
Definition price_key (p : product) : res Q :=
  match price p with
  | Has (PFloat q) => Ok q
  | Absent => Raise KeyError
  | _ => Raise TypeError
  end.

(** [scrape_ah_products], once [get_cache_file] and [cache_file.exists()]
    have not raised for the search term (the whole call is
    [Calls.scrape_ah_products]).  [fetch] is what
    [StealthyFetcher.async_fetch] and [page.css] give: the product cards,
    or an exception. *)
Definition scrape_ah_products (e : env) (fetch : res (list card))
    (search_term : string) (fs : gmap string cache_file)
  : res (list product) * gmap string cache_file :=
  match cached_products "ah" search_term e fs with
  | Some cached => (Ok cached, fs)
  | None =>
      match fetch ≫= (fun cards => sort_by_key price_key (omap card_product cards)) with
      | Raise x => (Raise x, fs)
      | Ok [] => (Ok [], fs)
      | Ok products =>
          (Ok products, save_to_cache "ah" search_term products (save_time e) fs)
      end
  end.

End AhScraper.

(** ** What the crawler extracts

    The [extracted_content] of a crawl result of the Jumbo and Plus
    scrapers: nothing, text that [json.loads] rejects, or a list of raw
    products. *)

Inductive extracted (A : Type) :=
| NoContent
| BadJson
| Items (l : list A).
Arguments NoContent {A}.
Arguments BadJson {A}.
Arguments Items {A} l.

(** ** Jumbo: [src/jumbo_scraper.py] *)

Module JumboScraper.
Import Re PySort Cache.

(** The keys of a raw product that the loop reads; [None] is an absent
    key. *)
Record raw_product := {
  raw_name : option string;
  raw_image : option string;
  raw_link : option string;
  raw_price : option string;
  raw_unit_price : option string;
  raw_unit_size : option string
}.

(** [r'€\s*(\d+)[,\.]?(\d{0,2})'] *)
Definition re_price : re :=
  seqs [Lit "€"; Star is_space; Grp 1 (Rep1 is_digit);
        Opt (Chr (one_of ",.")); Grp 2 (Upto 2 is_digit)].

(** [r'€\s*(\d+)[,\.]?(\d{0,2})\s+per\s+(\w+)'] *)
Definition re_unit_price : re :=
  seqs [Lit "€"; Star is_space; Grp 1 (Rep1 is_digit);
        Opt (Chr (one_of ",.")); Grp 2 (Upto 2 is_digit);
        Rep1 is_space; Lit "per"; Rep1 is_space; Grp 3 (Rep1 is_word)].

(** [float(f"{m.group(1)}.{m.group(2) or '00'}")] *)
Definition euros_cents (m : captures) : option Q :=
  py_float (grp 1 m ++ "." ++ (if truthy (grp 2 m) then grp 2 m else "00")).

(** [(\d+(?:[.,]\d+)?)] *)
Definition re_decimal : re :=
  Grp 1 (Seq (Rep1 is_digit) (Opt (Seq (Chr (one_of ".,")) (Rep1 is_digit)))).

(** The four patterns of [extract_unit_size]: piece counts, slice
    counts, kilogram amounts and gram amounts. *)
Definition re_stuks : re :=
  seqs [Grp 1 (Rep1 is_digit); Star is_space; Lit "stuk"; Opt (Lit "s"); WordB].

Definition re_plakken : re :=
  seqs [Grp 1 (Rep1 is_digit); Star is_space; Lit "plak"; Opt (Lit "k");
        Opt (Lit "en"); WordB].

Definition re_kilo : re :=
  seqs [re_decimal; Star is_space; Lit "k"; Alt (Lit "ilo") (Lit "g"); WordB].

Definition re_gram : re :=
  seqs [re_decimal; Star is_space; Lit "g"; Opt (Lit "ram"); WordB].

(** The list [patterns]: the text of each pattern, which the function
    inspects, and the expression it stands for.  The name is lower case
    when it is searched, so that [re.IGNORECASE] changes nothing. *)
Definition patterns : list (string * re) :=
  [ ("(\d+)\s*stuks?\b", re_stuks);
    ("(\d+)\s*plakk?(?:en)?\b", re_plakken);
    ("(\d+(?:[.,]\d+)?)\s*k(?:ilo|g)\b", re_kilo);
    ("(\d+(?:[.,]\d+)?)\s*(?:g(?:ram)?)\b", re_gram) ].

(** The loop over [patterns]; [None] stands for the end of the loop
    without a [return]. *)
Fixpoint try_patterns (ps : list (string * re)) (name : string) : option (res string) :=
  match ps with
  | [] => None
  | (pattern, r) :: ps' =>
      match search r name with
      | Some m =>
          let value := grp 1 m in
          if contains "stuk" pattern then Some (Ok (value ++ " stuks"))
          else if contains "plak" pattern then Some (Ok (value ++ " plakken"))
          else if contains "k" pattern && (contains "kg" pattern || contains "kilo" pattern)
          then Some (grams ← or_raise ValueError (py_float (replace "," "." value));
                     Ok (str_of_float (qmul grams 1000) ++ "g"))
          else if contains "g" pattern then Some (Ok (value ++ "g"))
          else try_patterns ps' name
      | None => try_patterns ps' name
      end
  end.

(** [extract_unit_size] *)
Definition extract_unit_size (name : string) : res string :=
  if negb (truthy name) then Ok ""
  else
    let name := lower name in
    if endswith name "half" then Ok "400g"
    else if contains " heel" name || contains "-heel" name then Ok "800g"
    else if contains "half" name then Ok "400g"
    else default (Ok "") (try_patterns patterns name).

(** The body of the loop over [raw_products]: [None] when the product is
    left out, by [continue] or by the [except] of the loop body. *)
Definition format_product (p : raw_product) : option product :=
  price_text ← raw_price p;
  price_match ← search re_price price_text;
  price ← euros_cents price_match;
  let unit_price := default "" (raw_unit_price p) in
  per_unit ←
    (match (if truthy unit_price then search re_unit_price unit_price else None) with
     | Some m => v ← euros_cents m; Some (Some v, Some (grp 3 m))
     | None => Some (None, None)
     end);
  name ← raw_name p;
  unit_size ←
    (let u := default "" (raw_unit_size p) in
     if truthy u then Some u
     else match extract_unit_size name with
          | Ok u' => Some u'
          | Raise _ => None
          end);
  let unit_size :=
    match per_unit.2 with
    | Some unit =>
        if truthy unit_size then unit_size
        else if String.eqb unit "stuk" then "1 stuk"
        else if String.eqb unit "kilo" then "800g"
        else unit_size
    | None => unit_size
    end in
  image ← raw_image p;
  link ← raw_link p;
  Some {| store := Jumbo; name := Some name; price := Has (PFloat price);
          unit_size := Has unit_size;
          price_per_unit_value := per_unit.1;
          price_per_unit_unit := per_unit.2;
          price_per_unit := None |}.

(** [lambda x: x['price']] *)
Definition price_key (p : product) : res Q :=
  match price p with
  | Has (PFloat q) => Ok q
  | Absent => Raise KeyError
  | _ => Raise TypeError
  end.

(** [json.loads(result.extracted_content)] and the processing of its
    items; [None] is the branch "No content was extracted". *)
Definition formatted_products (content : extracted raw_product)
  : option (res (list product)) :=
  match content with
  | NoContent => None
  | BadJson => Some (Raise ValueError)
  | Items raw_products => Some (sort_by_key price_key (omap format_product raw_products))
  end.

(** [scrape_jumbo_products], once [get_cache_file] and
    [cache_file.exists()] have not raised for the search term (the whole
    call is [Calls.scrape_jumbo_products]).  [crawl] is what [crawler.arun]
    gives: the extracted content of the result, or an exception. *)
Definition scrape_jumbo_products (e : env) (crawl : res (extracted raw_product))
    (search_term : string) (fs : gmap string cache_file)
  : res (list product) * gmap string cache_file :=
  match cached_products "jumbo" search_term e fs with
  | Some cached => (Ok cached, fs)
  | None =>
      match crawl with
      | Raise x => (Raise x, fs)
      | Ok content =>
          match formatted_products content with
          | None => (Ok [], fs)
          | Some (Raise x) => (Raise x, fs)
          | Some (Ok []) => (Ok [], fs)
          | Some (Ok products) =>
              (Ok products,
               save_to_cache "jumbo" search_term products (save_time e) fs)
          end
      end
  end.

End JumboScraper.

(** ** Plus: [src/plus_scraper.py] *)

Module PlusScraper.
Import Re Cache.

(** The keys of a raw product that the loop reads. *)
Record raw_product := {
  raw_name : field string;
  raw_image : field string;
  raw_price_integer : field string;     (* '_price_integer' *)
  raw_price_decimal : field string;     (* '_price_decimal' *)
  raw_price : field price_val;          (* a 'price' key of the extraction *)
  raw_unit_size : field string
}.

(** [product.get(key, '')]: [None] is Python's [None]. *)
Definition get_or_empty (f : field string) : option string :=
  match f with
  | Absent => Some ""
  | Null => None
  | Has s => Some s
  end.

(** The body of the [try] of [parse_price]; iterating over [None] raises
    [TypeError]. *)
Definition parse_price_try (price_integer price_decimal : option string) : res Q :=
  i ← or_raise TypeError price_integer;
  let integer_str :=
    rstrip_char "." (filter_chars (fun c => is_digit c || Ascii.eqb c ".") i) in
  integer_val ←
    (if truthy integer_str then or_raise ValueError (py_int integer_str) else Ok 0%Z);
  d ← or_raise TypeError price_decimal;
  let decimal_str := filter_chars is_digit d in
  decimal_val ←
    (if truthy decimal_str then or_raise ValueError (py_int decimal_str) else Ok 0%Z);
  or_raise ValueError
    (py_float (str_of_N (Z.to_N integer_val) ++ "." ++ str_of_N_02d (Z.to_N decimal_val))).

(** [parse_price] *)
Definition parse_price (price_integer price_decimal : option string) : Q :=
  match parse_price_try price_integer price_decimal with
  | Ok price => price
  | Raise _ => 0
  end.

(** [(\d+(?:[.,]\d+)?)] *)
Definition re_decimal (i : nat) : re :=
  Grp i (Seq (Rep1 is_digit) (Opt (Seq (Chr (one_of ".,")) (Rep1 is_digit)))).

(** [r'^per\s+'] *)
Definition re_per_prefix : re := seqs [Bol; Lit "per"; Rep1 is_space].

(** [r'(\d+(?:[.,]\d+)?)\s*([gk]|kg|gram)'] *)
Definition re_per : re :=
  seqs [re_decimal 1; Star is_space;
        Grp 2 (alts [Chr (one_of "gk"); Lit "kg"; Lit "gram"])].

(** The pattern of [stuk_match]: digits, white space, an optional [x]
    with white space, [stuk]. *)
Definition re_x_stuk : re :=
  seqs [Grp 1 (Rep1 is_digit); Star is_space;
        Opt (Seq (Lit "x") (Star is_space)); Lit "stuk"].

(** The pattern of [plak_match]: digits, white space, an optional [x]
    with white space, [plak], an optional [ken]. *)
Definition re_x_plak : re :=
  seqs [Grp 1 (Rep1 is_digit); Star is_space;
        Opt (Seq (Lit "x") (Star is_space)); Lit "plak"; Opt (Lit "ken")].

(** [r'(\d+(?:[.,]\d+)?)\s*([gk]|kg|gram)(?:[^a-z]|$)'] *)
Definition re_weight : re :=
  seqs [re_decimal 1; Star is_space;
        Grp 2 (alts [Chr (one_of "gk"); Lit "kg"; Lit "gram"]);
        Alt (Chr (none_of is_lower_az)) Eol].

(** [r'^(\d+)$'] *)
Definition re_numeric : re := seqs [Bol; Grp 1 (Rep1 is_digit); Eol].

(** [f"{int(float(num) * 1000)}g"] *)
Definition kilos_to_grams (num : string) : res string :=
  kg ← or_raise ValueError (py_float num);
  Ok (str_of_N (Z.to_N (int_of_float_times kg 1000)) ++ "g").

(** [extract_unit_size] *)
Definition extract_unit_size (value : string) : res string :=
  if negb (truthy value) then Ok ""
  else
    let value := sub_anchored re_per_prefix (strip (lower value)) in
    match search re_per value with
    | Some m =>
        let num := replace "," "." (grp 1 m) in
        let unit := lower (grp 2 m) in
        if String.eqb unit "k" || String.eqb unit "kg" then kilos_to_grams num
        else Ok (num ++ "g")
    | None =>
    match search re_x_stuk value with
    | Some m => Ok (grp 1 m ++ " stuk")
    | None =>
    match search re_x_plak value with
    | Some m => Ok (grp 1 m ++ " plakken")
    | None =>
    match
      (match search re_weight value with
       | Some m =>
           let num := replace "," "." (grp 1 m) in
           let unit := lower (grp 2 m) in
           if String.eqb unit "g" || String.eqb unit "gram" then
             Some (n ← or_raise ValueError (py_float num);
                   Ok (str_of_N (Z.to_N (int_of_float n)) ++ "g"))
           else if String.eqb unit "k" || String.eqb unit "kg" then
             Some (kilos_to_grams num)
           else None
       | None => None
       end)
    with
    | Some r => r
    | None =>
        if contains "half" value || contains "-half" value || contains " half" value
        then Ok "400g"
        else match search re_numeric value with
             | Some m => Ok (grp 1 m ++ "g")
             | None => Ok value
             end
    end end end end.

(** [r'(\d+)\s*stuk'] *)
Definition re_stuk : re := seqs [Grp 1 (Rep1 is_digit); Star is_space; Lit "stuk"].

(** [r'per\s*(\d+(?:[.,]\d+)?)\s*g'] *)
Definition re_per_gram : re :=
  seqs [Lit "per"; Star is_space; re_decimal 1; Star is_space; Lit "g"].

(** [r'per\s*(\d+(?:[.,]\d+)?)\s*kg'] *)
Definition re_per_kg : re :=
  seqs [Lit "per"; Star is_space; re_decimal 1; Star is_space; Lit "kg"].

(** The three attempts of [calculate_price_per_unit]; [None] when the
    pattern is not found or the quantity is not positive. *)
Definition per_piece (price : Q) (unit_size : string) : res (option (Q * string)) :=
  match search re_stuk unit_size with
  | Some m =>
      pieces ← or_raise ValueError (py_int (grp 1 m));
      Ok (if (0 <? pieces)%Z then Some (qdiv price (inject_Z pieces), "stuk") else None)
  | None => Ok None
  end.

Definition per_gram (price : Q) (unit_size : string) : res (option (Q * string)) :=
  match search re_per_gram unit_size with
  | Some m =>
      grams ← or_raise ValueError (py_float (replace "," "." (grp 1 m)));
      Ok (if qlt 0 grams then Some (qdiv (qmul price 1000) grams, "kilo") else None)
  | None => Ok None
  end.

Definition per_kg (price : Q) (unit_size : string) : res (option (Q * string)) :=
  match search re_per_kg unit_size with
  | Some m =>
      kgs ← or_raise ValueError (py_float (replace "," "." (grp 1 m)));
      Ok (if qlt 0 kgs then Some (qdiv price kgs, "kilo") else None)
  | None => Ok None
  end.

(** [calculate_price_per_unit(price, unit_size)]: [None] is the result
    [(None, None)]. *)
Definition calculate_price_per_unit (price : Q) (unit_size : option string)
  : res (option (Q * string)) :=
  match unit_size with
  | None => Ok None
  | Some u =>
      if negb (truthy u) then Ok None
      else
        let unit_size := lower u in
        a ← per_piece price unit_size;
        match a with
        | Some r => Ok (Some r)
        | None =>
            b ← per_gram price unit_size;
            match b with
            | Some r => Ok (Some r)
            | None => per_kg price unit_size
            end
        end
  end.

(** [r'(\d+)g'] *)
Definition re_grams : re := seqs [Grp 1 (Rep1 is_digit); Lit "g"].

(** [r'/(\d+)_M/'] *)
Definition re_product_id : re := seqs [Lit "/"; Grp 1 (Rep1 is_digit); Lit "_M/"].

(** The part "Handle unit size and price per unit" of the loop body.
    Formatting the value [None] with [:.2f] raises [TypeError]. *)
Definition unit_price_fields (price : Q) (unit_size : string)
  : res (option (Q * string)) :=
  grams ←
    (if contains "g" unit_size then
       match search re_grams unit_size with
       | Some m => or_raise ValueError (py_float (grp 1 m))
       | None => Ok 0%Q
       end
     else Ok 0%Q);
  if qlt 0 grams then
    r ← calculate_price_per_unit price (Some unit_size);
    match r with
    | Some vu => Ok (Some vu)
    | None => Raise TypeError
    end
  else Ok None.

(** The body of the loop over the extracted products.  An exception
    leaves the loop. *)
Definition clean_product (p : raw_product) : res product :=
  let price := parse_price (get_or_empty (raw_price_integer p))
                           (get_or_empty (raw_price_decimal p)) in
  let unit_size := default "" (get_or_empty (raw_unit_size p)) in
  per_unit ← (if truthy unit_size then unit_price_fields price unit_size else Ok None);
  let image_url := default "" (get_or_empty (raw_image p)) in
  let product_id := if truthy image_url then search re_product_id image_url else None in
  _ ← (match product_id, get_or_empty (raw_name p) with
       | Some _, None => Raise AttributeError
       | _, _ => Ok tt
       end);
  Ok {| store := Plus;
        name := match raw_name p with Has n => Some n | _ => None end;
        price := if qlt 0 price then Has (PFloat price) else raw_price p;
        unit_size := raw_unit_size p;
        price_per_unit_value := fst <$> per_unit;
        price_per_unit_unit := snd <$> per_unit;
        price_per_unit := None |}.

(** The loop over the extracted products. *)
Fixpoint clean_products (ps : list raw_product) : res (list product) :=
  match ps with
  | [] => Ok []
  | p :: ps' =>
      c ← clean_product p;
      cs ← clean_products ps';
      Ok (c :: cs)
  end.

(** The body of the [try] of [scrape_plus_products]: the returned list
    and, when the cache is written, the list that is saved. *)
Definition scrape_try (crawl : res (extracted raw_product))
  : res (list product * option (list product)) :=
  content ← crawl;
  match content with
  | NoContent => Ok ([], None)
  | BadJson => Raise ValueError
  | Items [] => Ok ([], None)
  | Items products =>
      cleaned_products ← clean_products products;
      Ok (cleaned_products, Some cleaned_products)
  end.

(** [scrape_plus_products], once [get_cache_file] and
    [cache_file.exists()], which stand before the [try], have not raised
    for the search term (the whole call is [Calls.scrape_plus_products]). *)
Definition scrape_plus_products (e : env) (crawl : res (extracted raw_product))
    (search_term : string) (fs : gmap string cache_file)
  : res (list product) * gmap string cache_file :=
  match cached_products "plus" search_term e fs with
  | Some (c :: cached) => (Ok (c :: cached), fs)
  | _ =>
      match scrape_try crawl with
      | Ok (products, Some saved) =>
          (Ok products, save_to_cache "plus" search_term saved (save_time e) fs)
      | Ok (products, None) => (Ok products, fs)
      | Raise _ => (Ok [], fs)
      end
  end.

End PlusScraper.

(** ** The calls of the scrapers, from their first statement

    Each scraper opens, before its [try], with the look-up of the cache
    file: [get_cache_file(search_term)], which runs
    [CACHE_DIR.mkdir(exist_ok=True)] and then [search_term.lower()], and
    [cache_file.exists()], the first statement of [should_update_cache].
    An exception of one of the three leaves the call, that of the Plus
    scraper included.  The functions of the scraper modules are the calls
    from that point on; the functions of this module are the whole calls,
    for the value that [data.get('search_term')] hands over.  The later
    calls of [get_cache_file], in [load_from_cache] and [save_to_cache],
    repeat a call that did not raise, and the [BrowserConfig] that the
    Jumbo and the Plus scraper build from constants before their [try] is
    taken to be built without an exception. *)

Module Calls.

(** The file system calls of the look-up whose outcome the files of the
    cache directory do not settle: the exception, if any, that
    [CACHE_DIR.mkdir(exist_ok=True)] raises, and the one that
    [cache_file.exists()] raises for a file name.  [exists] answers
    [False] for a file that is not there and raises what [os.stat] raises
    otherwise, [OSError] for a name of more than 255 bytes. *)
Record probes := {
  mkdir_raises : option exn;
  exists_raises : string -> option exn
}.

(** The statements before the [try]: the search term as a [str], or the
    exception.  The search term [None] stands for JSON's null and for
    every other value without a method [lower]. *)
Definition look_up (o : probes) (prefix : string) (search_term : option string)
  : res string :=
  match mkdir_raises o with
  | Some x => Raise x
  | None =>
      term ← or_raise AttributeError search_term;
      match exists_raises o (Cache.get_cache_file prefix term) with
      | Some x => Raise x
      | None => Ok term
      end
  end.

Definition scrape_ah_products (o : probes) (e : Cache.env)
    (fetch : res (list AhScraper.card)) (search_term : option string)
    (fs : gmap string Cache.cache_file)
  : res (list product) * gmap string Cache.cache_file :=
  match look_up o "ah" search_term with
  | Ok term => AhScraper.scrape_ah_products e fetch term fs
  | Raise x => (Raise x, fs)
  end.

Definition scrape_jumbo_products (o : probes) (e : Cache.env)
    (crawl : res (extracted JumboScraper.raw_product)) (search_term : option string)
    (fs : gmap string Cache.cache_file)
  : res (list product) * gmap string Cache.cache_file :=
  match look_up o "jumbo" search_term with
  | Ok term => JumboScraper.scrape_jumbo_products e crawl term fs
  | Raise x => (Raise x, fs)
  end.

Definition scrape_plus_products (o : probes) (e : Cache.env)
    (crawl : res (extracted PlusScraper.raw_product)) (search_term : option string)
    (fs : gmap string Cache.cache_file)
  : res (list product) * gmap string Cache.cache_file :=
  match look_up o "plus" search_term with
  | Ok term => PlusScraper.scrape_plus_products e crawl term fs
  | Raise x => (Raise x, fs)
  end.

End Calls.

(** ** The aggregator: [src/app.py] *)

Module App.
Import Re PySort.

(** [str(x)] of a dict entry read with [.get]. *)
Definition py_str_opt (o : option string) : string :=
  match o with
  | Some s => s
  | None => "None"
  end.

(** [r'(\d+)\s*stuk'] *)
Definition re_stuk : re := seqs [Grp 1 (Rep1 is_digit); Star is_space; Lit "stuk"].

(** [r'(\d+)\s*plak'] *)
Definition re_plak : re := seqs [Grp 1 (Rep1 is_digit); Star is_space; Lit "plak"].

(** [(\d+(?:[.,]\d+)?)] *)
Definition re_decimal : re :=
  Grp 1 (Seq (Rep1 is_digit) (Opt (Seq (Chr (one_of ".,")) (Rep1 is_digit)))).

(** [r'(\d+(?:[.,]\d+)?)\s*k(?:ilo|g)'] *)
Definition re_kilo : re :=
  seqs [re_decimal; Star is_space; Lit "k"; Alt (Lit "ilo") (Lit "g")].

(** [r'(\d+(?:[.,]\d+)?)\s*g(?:ram)?'] *)
Definition re_gram : re :=
  seqs [re_decimal; Star is_space; Lit "g"; Opt (Lit "ram")].

(** [float(str(product['price']).replace('€', '').replace(',', '.'))].
    For a float, [str] and [float] undo each other and the text has
    neither a euro sign nor a comma. *)
Definition price_number (p : product) : res Q :=
  match price p with
  | Absent => Raise KeyError
  | Null => or_raise ValueError (py_float (replace "," "." (replace "€" "" "None")))
  | Has (PFloat q) => Ok q
  | Has (PStr s) => or_raise ValueError (py_float (replace "," "." (replace "€" "" s)))
  end.

(** [str(product.get('unit_size', '')).lower().strip()] *)
Definition unit_text (p : product) : string :=
  strip (lower (match unit_size p with
                | Absent => ""
                | Null => "None"
                | Has s => s
                end)).

(** [price / n if n > 0 else price] for [n = int(match.group(1))]. *)
Definition per_count (price : Q) (digits : string) : res Q :=
  n ← or_raise ValueError (py_int digits);
  Ok (if (0 <? n)%Z then qdiv price (inject_Z n) else price).

(** The body of the [try] of [calculate_price_per_unit]. *)
Definition calculate_price_per_unit_try (p : product) : res pyfloat :=
  match price_per_unit_value p with
  | Some v => Ok (Fin v)
  | None =>
      price ← price_number p;
      let unit_size := unit_text p in
      if contains "stuk" unit_size then
        match search re_stuk unit_size with
        | Some m => Fin <$> per_count price (grp 1 m)
        | None => Ok (Fin price)
        end
      else if contains "plak" unit_size then
        match search re_plak unit_size with
        | Some m => Fin <$> per_count price (grp 1 m)
        | None => Ok (Fin price)
        end
      else
        grams ←
          (if contains "kg" unit_size || contains "kilo" unit_size then
             match search re_kilo unit_size with
             | Some m =>
                 kg ← or_raise ValueError (py_float (replace "," "." (grp 1 m)));
                 Ok (qmul kg 1000)
             | None => Ok 0%Q
             end
           else if contains "g" unit_size || contains "gram" unit_size then
             match search re_gram unit_size with
             | Some m => or_raise ValueError (py_float (replace "," "." (grp 1 m)))
             | None => Ok 0%Q
             end
           else if isdigit (replace " " "" unit_size) then
             or_raise ValueError (py_float unit_size)
           else Ok 0%Q);
        if qlt 0 grams
        then Ok (Fin (qmul (qdiv price grams) 1000))
        else Ok (Fin price)
  end.

(** [calculate_price_per_unit]: [ValueError], [TypeError] and
    [ZeroDivisionError] become [float('inf')]; other exceptions leave the
    function. *)
Definition calculate_price_per_unit (p : product) : res pyfloat :=
  match calculate_price_per_unit_try p with
  | Raise ValueError | Raise TypeError | Raise ZeroDivisionError => Ok PInf
  | r => r
  end.

(** What [asyncio.gather(..., return_exceptions=True)] holds for one
    scraper: the exception it raised, or the list it returned. *)
Inductive source_result :=
| SrcRaised (e : exn)
| SrcList (l : list product).

(** [f"{product.get('store')}_{product.get('name')}"] *)
Definition product_key (p : product) : string :=
  store_str (store p) ++ "_" ++ py_str_opt (name p).

(** One turn of the inner loop: [seen_products] and [products]. *)
Definition add_product (st : gset string * list product) (p : product)
  : gset string * list product :=
  let '(seen, products) := st in
  if decide (product_key p ∈ seen) then st
  else ({[product_key p]} ∪ seen, (products ++ [p])%list).

(** One turn of the loop over [results]. *)
Definition add_result (st : gset string * list product) (r : source_result)
  : gset string * list product :=
  match r with
  | SrcRaised _ => st
  | SrcList l => foldl add_product st l
  end.

(** The combined [products] list after the loop over [results]. *)
Definition merge_results (results : list source_result) : list product :=
  (foldl add_result (∅, []) results).2.

(** The body of the loop that sets ['price_per_unit']. *)
Definition set_price_per_unit (p : product) : product :=
  let v :=
    match price_per_unit_value p with
    | Some v => Fin v
    | None =>
        match calculate_price_per_unit p with
        | Ok v => v
        | Raise _ => PInf
        end
    end in
  {| store := store p; name := name p; price := price p;
     unit_size := unit_size p;
     price_per_unit_value := price_per_unit_value p;
     price_per_unit_unit := price_per_unit_unit p;
     price_per_unit := Some v |}.

(** [lambda x: x.get('price_per_unit', float('inf'))] *)
Definition key_price_per_unit (p : product) : pyfloat :=
  default PInf (price_per_unit p).

(** [lambda x: float(str(x.get('price', '0')).replace('€', '').replace(',', '.'))] *)
Definition key_price (p : product) : res Q :=
  match price p with
  | Absent => or_raise ValueError (py_float (replace "," "." (replace "€" "" "0")))
  | _ => match price_number p with
         | Ok q => Ok q
         | Raise _ => Raise ValueError
         end
  end.

(** The JSON body that the route returns. *)
Inductive response :=
| RespProducts (products : list product) (count : nat) (message : option string)
| RespError (status : nat).

Definition no_products_message : string :=
  "No products found. Please try a different search term.".

(** [search_products], from the gathered results on. *)
Definition search_products (sort_by : string) (results : list source_result)
  : response :=
  let products := set_price_per_unit <$> merge_results results in
  let sorted :=
    if String.eqb sort_by "price_per_unit" then
      Ok (py_sort flt key_price_per_unit products)
    else if String.eqb sort_by "price" then
      sort_by_key key_price products
    else Ok products in
  match sorted with
  | Raise _ => RespError 500
  | Ok [] => RespProducts [] 0 (Some no_products_message)
  | Ok products => RespProducts products (length products) None
  end.

(** The tasks of [search_products] in the order they are created. *)
Definition gather (stores : list string) (ah jumbo plus : source_result)
  : list source_result :=
  ((if bool_decide ("ah" ∈ stores) then [ah] else []) ++
   (if bool_decide ("jumbo" ∈ stores) then [jumbo] else []) ++
   (if bool_decide ("plus" ∈ stores) then [plus] else []))%list.

End App.

(** * The vocabulary of the properties *)

Section Vocabulary.
Import Re PySort Cache App.

(** [x] may stand before [y] in a list sorted by [key]: the key of [y]
    is not below that of [x]. *)
Definition key_le {A K} (lt : K -> K -> bool) (key : A -> K) (x y : A) : Prop :=
  lt (key y) (key x) = false.

(** The keys of a list that [sort_by_key] sorted: each key is the key of
    its element, and the keys do not decrease. *)
Definition sorted_by {A} (key : A -> res Q) (l : list A) : Prop :=
  exists qs, Forall2 (fun x q => key x = Ok q) l qs /\ StronglySorted Qle qs.

(** The list holds float prices that do not decrease. *)
Definition price_sorted (l : list product) : Prop :=
  exists qs, Forall2 (fun p q => price p = Has (PFloat q)) l qs /\
             StronglySorted Qle qs.

(** Every list that the cache directory holds for a store is sorted by
    price: the lists in the files that [get_cache_file] names with the
    prefix of the store. *)
Definition store_cache_price_sorted (prefix : string)
    (fs : gmap string cache_file) : Prop :=
  forall term ts products,
    fs !! get_cache_file prefix term = Some (CacheData ts products) ->
    price_sorted products.

(** The ways in which a call of [scrape_ah_products] ends. *)
Inductive ah_outcome (e : env) (fetch : res (list AhScraper.card))
    (term : string) (fs : gmap string cache_file)
  : res (list product) -> gmap string cache_file -> Prop :=
| ah_hit cached :
    cached_products "ah" term e fs = Some cached ->
    ah_outcome e fetch term fs (Ok cached) fs
| ah_raised x :
    cached_products "ah" term e fs = None ->
    fetch = Raise x ->
    ah_outcome e fetch term fs (Raise x) fs
| ah_empty cards :
    cached_products "ah" term e fs = None ->
    fetch = Ok cards ->
    omap AhScraper.card_product cards = [] ->
    ah_outcome e fetch term fs (Ok []) fs
| ah_fresh cards l :
    cached_products "ah" term e fs = None ->
    fetch = Ok cards ->
    l ≠ [] ->
    l ≡ₚ omap AhScraper.card_product cards ->
    price_sorted l ->
    ah_outcome e fetch term fs (Ok l) (save_to_cache "ah" term l (save_time e) fs).

(** The ways in which a call of [scrape_jumbo_products] ends. *)
Inductive jumbo_outcome (e : env)
    (crawl : res (extracted JumboScraper.raw_product))
    (term : string) (fs : gmap string cache_file)
  : res (list product) -> gmap string cache_file -> Prop :=
| jumbo_hit cached :
    cached_products "jumbo" term e fs = Some cached ->
    jumbo_outcome e crawl term fs (Ok cached) fs
| jumbo_raised x :
    cached_products "jumbo" term e fs = None ->
    crawl = Raise x ->
    jumbo_outcome e crawl term fs (Raise x) fs
| jumbo_bad_json :
    cached_products "jumbo" term e fs = None ->
    crawl = Ok BadJson ->
    jumbo_outcome e crawl term fs (Raise ValueError) fs
| jumbo_no_content :
    cached_products "jumbo" term e fs = None ->
    crawl = Ok NoContent ->
    jumbo_outcome e crawl term fs (Ok []) fs
| jumbo_empty raws :
    cached_products "jumbo" term e fs = None ->
    crawl = Ok (Items raws) ->
    omap JumboScraper.format_product raws = [] ->
    jumbo_outcome e crawl term fs (Ok []) fs
| jumbo_fresh raws l :
    cached_products "jumbo" term e fs = None ->
    crawl = Ok (Items raws) ->
    l ≠ [] ->
    l ≡ₚ omap JumboScraper.format_product raws ->
    price_sorted l ->
    jumbo_outcome e crawl term fs (Ok l)
      (save_to_cache "jumbo" term l (save_time e) fs).

(** The price that the Plus loop reads for a raw product. *)
Definition plus_parsed_price (r : PlusScraper.raw_product) : Q :=
  PlusScraper.parse_price
    (PlusScraper.get_or_empty (PlusScraper.raw_price_integer r))
    (PlusScraper.get_or_empty (PlusScraper.raw_price_decimal r)).

(** What is left of a result when its value is forgotten: the exception,
    or whether there is a value. *)
Definition outcome_shape {A} (r : res (option A)) : res bool :=
  match r with
  | Ok (Some _) => Ok true
  | Ok None => Ok false
  | Raise x => Raise x
  end.

(** The lists of the sources that did not raise, one after the other in
    the order of the sources. *)
Definition successes (results : list source_result) : list product :=
  results ≫= (fun r => match r with SrcList l => l | SrcRaised _ => [] end).

(** The first product of a list with a given key. *)
Fixpoint first_with_key (k : string) (l : list product) : option product :=
  match l with
  | [] => None
  | p :: l' => if decide (product_key p = k) then Some p else first_with_key k l'
  end.

(** The products that the loop adds, given the keys seen so far. *)
Fixpoint added (seen : gset string) (l : list product) : list product :=
  match l with
  | [] => []
  | p :: l' =>
      if decide (product_key p ∈ seen) then added seen l'
      else p :: added ({[product_key p]} ∪ seen) l'
  end.

(** The source raised. *)
Definition raised (r : App.source_result) : bool :=
  match r with
  | App.SrcRaised _ => true
  | App.SrcList _ => false
  end.

(** The number of sources that raised. *)
Definition count_failed (results : list App.source_result) : nat :=
  length (List.filter raised results).

(** [p] may stand before [q] in the order of ['price_per_unit']. *)
Definition price_per_unit_le (p q : product) : Prop :=
  flt (App.key_price_per_unit q) (App.key_price_per_unit p) = false.

(** No digit stands at the start of the text. *)
Definition head_not_digit (s : string) : Prop :=
  match s with
  | String c _ => is_digit c = false
  | EmptyString => True
  end.

(** The character before the position after the text [s]. *)
Fixpoint last_of (prev : option ascii) (s : string) : option ascii :=
  match s with
  | EmptyString => prev
  | String c s' => last_of (Some c) s'
  end.

(** What a pattern can match: the text between two positions and the
    groups it captures.  Every match that the matcher [Re.run] finds is
    one of these. *)
Inductive matches
  : re -> option ascii -> string -> captures ->
    option ascii -> string -> captures -> Prop :=
| M_eps prev s caps : matches Eps prev s caps prev s caps
| M_chr p prev c s caps :
    p c = true -> matches (Chr p) prev (String c s) caps (Some c) s caps
| M_lit l prev s caps :
    matches (Lit l) prev (l +:+ s) caps (last_of prev l) s caps
| M_seq a b prev s caps prev1 s1 caps1 prev2 s2 caps2 :
    matches a prev s caps prev1 s1 caps1 ->
    matches b prev1 s1 caps1 prev2 s2 caps2 ->
    matches (Seq a b) prev s caps prev2 s2 caps2
| M_alt_l a b prev s caps prev' s' caps' :
    matches a prev s caps prev' s' caps' ->
    matches (Alt a b) prev s caps prev' s' caps'
| M_alt_r a b prev s caps prev' s' caps' :
    matches b prev s caps prev' s' caps' ->
    matches (Alt a b) prev s caps prev' s' caps'
| M_star p prev pre s caps :
    all_chars p pre = true ->
    matches (Star p) prev (pre +:+ s) caps (last_of prev pre) s caps
| M_upto n p prev pre s caps :
    all_chars p pre = true -> String.length pre <= n ->
    matches (Upto n p) prev (pre +:+ s) caps (last_of prev pre) s caps
| M_grp i a prev s caps prev' s' caps' :
    matches a prev s caps prev' s' caps' ->
    matches (Grp i a) prev s caps prev' s'
      ((i, take (String.length s - String.length s') s) :: caps')
| M_bol s caps : matches Bol None s caps None s caps
| M_eol prev s caps : at_eol s = true -> matches Eol prev s caps prev s caps
| M_wordb prev s caps :
    at_word_boundary prev s = true -> matches WordB prev s caps prev s caps.

End Vocabulary.

(** * Example data *)

(** A call at which no cache file is fresh. *)
Definition example_env : Cache.env :=
  {| Cache.now := Cache.hours 100; Cache.jitter := 0; Cache.save_time := Cache.hours 100 |}.

(** A file system on which [mkdir] succeeds and which refuses file names
    of more than 255 bytes. *)
Definition example_probes : Calls.probes :=
  {| Calls.mkdir_raises := None;
     Calls.exists_raises := fun file =>
       if Nat.ltb 255 (String.length file)
       then Some (OtherError "OSError: File name too long") else None |}.

(** A search term of 300 characters. *)
Definition long_term : string := string_of_list_ascii (repeat "a"%char 300).

(** A product with a float price and no pre-computed value. *)
Definition example_product (s : store_id) (n : string) (p : Q) (u : field string)
  : product :=
  {| store := s; name := Some n; price := Has (PFloat p); unit_size := u;
     price_per_unit_value := None; price_per_unit_unit := None;
     price_per_unit := None |}.

(** The two products of the end-to-end example. *)
Definition gouda_jumbo : product := example_product Jumbo "Gouda" (7 # 2) (Has "500g").

Definition gouda_plus : product := example_product Plus "Gouda" 3 (Has "1kg").

(** A product without unit size and a product of 500 g. *)
Definition cheap_no_unit : product := example_product AH "Kaasblokjes" 1 Null.

Definition dear_with_unit : product := example_product AH "Goudse kaas" 5 (Has "500g").

(** A card of each source with the price 0.00, and the same card without
    a price. *)
Definition ah_free_card : AhScraper.card :=
  {| AhScraper.title := Some "Gratis tasje";
     AhScraper.price_amount := Some (Some "0", Some "00");
     AhScraper.unit_size_text := Some "1 stuk";
     AhScraper.image_src := Some "https://static.ah.nl/tasje.jpg";
     AhScraper.link_href := Some "/producten/product/wi1/tasje" |}.

Definition ah_card_no_price : AhScraper.card :=
  {| AhScraper.title := Some "Gratis tasje";
     AhScraper.price_amount := None;
     AhScraper.unit_size_text := Some "1 stuk";
     AhScraper.image_src := Some "https://static.ah.nl/tasje.jpg";
     AhScraper.link_href := Some "/producten/product/wi1/tasje" |}.

Definition jumbo_free_product : JumboScraper.raw_product :=
  {| JumboScraper.raw_name := Some "Gratis tasje";
     JumboScraper.raw_image := Some "https://www.jumbo.com/tasje.jpg";
     JumboScraper.raw_link := Some "/producten/tasje";
     JumboScraper.raw_price := Some "€ 0,00";
     JumboScraper.raw_unit_price := None;
     JumboScraper.raw_unit_size := None |}.

Definition jumbo_product_no_price : JumboScraper.raw_product :=
  {| JumboScraper.raw_name := Some "Gratis tasje";
     JumboScraper.raw_image := Some "https://www.jumbo.com/tasje.jpg";
     JumboScraper.raw_link := Some "/producten/tasje";
     JumboScraper.raw_price := Some "";
     JumboScraper.raw_unit_price := None;
     JumboScraper.raw_unit_size := None |}.

Definition plus_free_product : PlusScraper.raw_product :=
  {| PlusScraper.raw_name := Has "Gratis tasje";
     PlusScraper.raw_image := Has "https://www.plus.nl/tasje.jpg";
     PlusScraper.raw_price_integer := Has "0";
     PlusScraper.raw_price_decimal := Has "00";
     PlusScraper.raw_price := Absent;
     PlusScraper.raw_unit_size := Absent |}.

(** A card of the Plus page with a unit size in grams. *)
Definition plus_gram_product : PlusScraper.raw_product :=
  {| PlusScraper.raw_name := Has "Goudse kaas";
     PlusScraper.raw_image := Has "https://www.plus.nl/goudse.jpg";
     PlusScraper.raw_price_integer := Has "4";
     PlusScraper.raw_price_decimal := Has "99";
     PlusScraper.raw_price := Absent;
     PlusScraper.raw_unit_size := Has "500g" |}.

(** The same card without price texts. *)
Definition plus_gram_product_no_price : PlusScraper.raw_product :=
  {| PlusScraper.raw_name := Has "Goudse kaas";
     PlusScraper.raw_image := Has "https://www.plus.nl/goudse.jpg";
     PlusScraper.raw_price_integer := Absent;
     PlusScraper.raw_price_decimal := Absent;
     PlusScraper.raw_price := Absent;
     PlusScraper.raw_unit_size := Has "500g" |}.

Definition plus_product_no_price : PlusScraper.raw_product :=
  {| PlusScraper.raw_name := Has "Gratis tasje";
     PlusScraper.raw_image := Has "https://www.plus.nl/tasje.jpg";
     PlusScraper.raw_price_integer := Absent;
     PlusScraper.raw_price_decimal := Absent;
     PlusScraper.raw_price := Absent;
     PlusScraper.raw_unit_size := Absent |}.

(** Two AH cards, and the products that a fresh scrape makes of them. *)
Definition ah_example_cards : list AhScraper.card :=
  [ {| AhScraper.title := Some "Goudse kaas";
       AhScraper.price_amount := Some (Some "2", Some "50");
       AhScraper.unit_size_text := Some "400 g";
       AhScraper.image_src := Some "https://static.ah.nl/goudse.jpg";
       AhScraper.link_href := Some "/producten/product/wi2/goudse-kaas" |};
    {| AhScraper.title := Some "Kaasblokjes";
       AhScraper.price_amount := Some (Some "1", Some "99");
       AhScraper.unit_size_text := Some "200 g";
       AhScraper.image_src := Some "https://static.ah.nl/blokjes.jpg";
       AhScraper.link_href := Some "/producten/product/wi3/kaasblokjes" |} ].

Definition ah_example_products : list product :=
  [ example_product AH "Kaasblokjes" (199 # 100) (Has "200g");
    example_product AH "Goudse kaas" (5 # 2) (Has "400g") ].

(** Three raw products of a Jumbo page, the second without a price that
    the pattern finds, and the products that a fresh scrape makes of
    them. *)
Definition jumbo_example_raws : list JumboScraper.raw_product :=
  [ {| JumboScraper.raw_name := Some "Jumbo Goudse Kaas Jong 500 g";
       JumboScraper.raw_image := Some "https://www.jumbo.com/goudse.jpg";
       JumboScraper.raw_link := Some "/producten/jumbo-goudse-kaas";
       JumboScraper.raw_price := Some "€ 4,99";
       JumboScraper.raw_unit_price := Some "€ 9,98 per kilo";
       JumboScraper.raw_unit_size := None |};
    {| JumboScraper.raw_name := Some "Jumbo Geraspte Kaas";
       JumboScraper.raw_image := Some "https://www.jumbo.com/geraspt.jpg";
       JumboScraper.raw_link := Some "/producten/jumbo-geraspte-kaas";
       JumboScraper.raw_price := Some "prijs onbekend";
       JumboScraper.raw_unit_price := None;
       JumboScraper.raw_unit_size := None |};
    {| JumboScraper.raw_name := Some "Jumbo Kaasblokjes";
       JumboScraper.raw_image := Some "https://www.jumbo.com/blokjes.jpg";
       JumboScraper.raw_link := Some "/producten/jumbo-kaasblokjes";
       JumboScraper.raw_price := Some "€ 1,89";
       JumboScraper.raw_unit_price := None;
       JumboScraper.raw_unit_size := Some "150 g" |} ].

Definition jumbo_example_products : list product :=
  [ example_product Jumbo "Jumbo Kaasblokjes" (189 # 100) (Has "150 g");
    {| store := Jumbo; name := Some "Jumbo Goudse Kaas Jong 500 g";
       price := Has (PFloat (499 # 100)); unit_size := Has "500g";
       price_per_unit_value := Some (499 # 50)%Q;
       price_per_unit_unit := Some "kilo";
       price_per_unit := None |} ].

(** * Further functions of the source and their vocabulary *)

(** ** Cache file names *)

(** What [get_cache_file] makes of one character of the search term:
    lower case, and an underscore for a space. *)
Definition slug_char (c : ascii) : ascii :=
  if Ascii.eqb (lower_char c) " " then "_"%char else lower_char c.

Fixpoint slug (s : string) : string :=
  match s with
  | EmptyString => EmptyString
  | String c s' => String (slug_char c) (slug s')
  end.

(** Every list stored in the cache directory has a product. *)
Definition cache_nonempty (fs : gmap string Cache.cache_file) : Prop :=
  forall file ts products,
    fs !! file = Some (Cache.CacheData ts products) -> products <> [].

(** ** Plus: the helper parsers of [src/plus_scraper.py] *)

Module PlusFields.

(** [''.join(c for c in price_str if c.isdigit() or c == '.').rstrip('.')] *)
Definition integer_text (price_str : string) : string :=
  rstrip_char "." (filter_chars (fun c => is_digit c || Ascii.eqb c ".") price_str).

(** [''.join(c for c in price_str if c.isdigit())] *)
Definition decimal_text (price_str : string) : string :=
  filter_chars is_digit price_str.

(** [parse_price_integer]; [None] stands for a value that is not a
    string. *)
Definition parse_price_integer (price_str : option string) : Z :=
  match price_str with
  | None => 0
  | Some s =>
      if negb (truthy s) then 0
      else
        let clean_str := integer_text s in
        match (if truthy clean_str then or_raise ValueError (py_int clean_str)
               else Ok 0%Z) with
        | Ok n => n
        | Raise _ => 0
        end
  end.

(** [parse_price_decimal] *)
Definition parse_price_decimal (price_str : option string) : Z :=
  match price_str with
  | None => 0
  | Some s =>
      if negb (truthy s) then 0
      else
        let clean_str := decimal_text s in
        match (if truthy clean_str then or_raise ValueError (py_int clean_str)
               else Ok 0%Z) with
        | Ok n => n
        | Raise _ => 0
        end
  end.

(** [known_brands] of [extract_brand] *)
Definition known_brands : list string :=
  ["PLUS"; "AH"; "Jumbo"; "Milner"; "Beemster"; "Old Amsterdam"; "Leerdammer"].

(** The loop over [known_brands]: the first brand that the name starts
    with. *)
Fixpoint first_brand (brands : list string) (name : string) : option string :=
  match brands with
  | [] => None
  | brand :: brands' =>
      if String.prefix brand name then Some brand else first_brand brands' name
  end.

(** The text up to the first white space. *)
Fixpoint until_space (s : string) : string :=
  match s with
  | EmptyString => EmptyString
  | String c s' => if is_space c then EmptyString else String c (until_space s')
  end.

(** [name.split()[0]]: the first word; [IndexError] when the name has no
    word. *)
Definition first_word (name : string) : res string :=
  match lstrip name with
  | EmptyString => Raise (OtherError "IndexError")
  | w => Ok (until_space w)
  end.

(** [extract_brand] *)
Definition extract_brand (name : string) : res string :=
  if negb (truthy name) then Ok ""
  else match first_brand known_brands name with
       | Some brand => Ok brand
       | None => first_word name
       end.

(** [re.sub(r'c+', rep, s)] for a character class [c]: each run of
    characters of the class is replaced by [rep]; [in_run] tells that the
    character before is of the class. *)
Fixpoint squeeze_from (in_run : bool) (p : ascii -> bool) (rep s : string) : string :=
  match s with
  | EmptyString => EmptyString
  | String c s' =>
      if p c then
        if in_run then squeeze_from true p rep s'
        else rep ++ squeeze_from true p rep s'
      else String c (squeeze_from false p rep s')
  end.

Definition squeeze (p : ascii -> bool) (rep s : string) : string :=
  squeeze_from false p rep s.

(** The class [[a-z0-9\s-]] *)
Definition url_keep (c : ascii) : bool :=
  is_lower_az c || is_digit c || is_space c || Ascii.eqb c "-".

(** The "URL-friendly" form of a product name, before the product type
    is added. *)
Definition url_base (name : string) : string :=
  let url_name := lower (lower name) in
  let url_name := filter_chars url_keep url_name in
  let url_name := squeeze is_space "-" (strip url_name) in
  squeeze (Ascii.eqb "-") "-" url_name.

(** [url_name] of the loop of [scrape_plus_products], for a ['name'] that
    is a text. *)
Definition url_name (name : string) : string :=
  if contains "plakken" (lower name) then url_base name ++ "-tray"
  else url_base name.

(** [cleaned_product['link']] *)
Definition product_link (name product_id : string) : string :=
  "https://www.plus.nl/product/" ++ url_name name ++ "-" ++ product_id.

End PlusFields.

(** ** What a pattern needs and where a text can be cut *)

(** The first character of the text is in the class. *)
Definition head_sat (p : ascii -> bool) (s : string) : bool :=
  match s with
  | String c _ => p c
  | EmptyString => false
  end.

(** [s'] is the text [s] from some position on. *)
Definition is_suffix (s' s : string) : Prop := exists pre, s = pre +:+ s'.

(** A sufficient test that every match of the pattern holds the
    character [x]: it stands in a literal that every alternative goes
    through. *)
Fixpoint requires (x : ascii) (r : Re.re) : bool :=
  match r with
  | Re.Lit l => any_char (Ascii.eqb x) l
  | Re.Seq a b => requires x a || requires x b
  | Re.Alt a b => requires x a && requires x b
  | Re.Grp _ a => requires x a
  | _ => false
  end.

(** ** The grocery list: the routes of [src/app.py]

    The module-level [grocery_list] and [selected_products] are the state
    that the routes read and change.  The item of a request is a text, or
    [None] when the request has none; the product and the comparison
    product of [select_product] are JSON values. *)

Module GroceryList.

#[local] Set Warnings "-register-all".

Inductive json :=
| JNull
| JBool (b : bool)
| JNum (q : Q)
| JStr (s : string)
| JArr (l : list json)
| JObj (o : list (string * json)).

(** Truthiness of a JSON value that [request.json] holds. *)
Definition json_truthy (v : json) : bool :=
  match v with
  | JNull => false
  | JBool b => b
  | JNum q => negb (Qeq_bool q 0)
  | JStr s => truthy s
  | JArr l => match l with [] => false | _ => true end
  | JObj o => match o with [] => false | _ => true end
  end.

(** [d[k] = v] on a dict: an existing key keeps its place. *)
Fixpoint dict_set (k : string) (v : json) (o : list (string * json))
  : list (string * json) :=
  match o with
  | [] => [(k, v)]
  | (k', v') :: o' =>
      if String.eqb k' k then (k, v) :: o' else (k', v') :: dict_set k v o'
  end.

(** [product['comparedWith'] = compared_with]: only a dict takes the
    assignment. *)
Definition set_compared_with (product compared_with : json) : res json :=
  match product with
  | JObj o => Ok (JObj (dict_set "comparedWith" compared_with o))
  | _ => Raise TypeError
  end.

(** [l.remove(x)]: the first occurrence is removed. *)
Fixpoint remove_first (x : string) (l : list string) : list string :=
  match l with
  | [] => []
  | y :: l' => if String.eqb y x then l' else y :: remove_first x l'
  end.

Record state := {
  grocery_list : list string;
  selected_products : gmap string json
}.

Definition initial : state := {| grocery_list := []; selected_products := ∅ |}.

(** What a route answers: the JSON body, or the exception that leaves
    the route. *)
Inductive reply :=
| ReplyList (grocery_list : list string)          (* success, grocery_list *)
| ReplyCleared                                    (* success *)
| ReplySelected (selected : gmap string json) (grocery_list : list string)
| ReplyDeleted (selected : gmap string json)
| ReplyFailed (error : string)                    (* success false, error *)
| ReplyRaised (x : exn).

(** [add_item] *)
Definition add_item (item : option string) (st : state) : state * reply :=
  let st' :=
    match item with
    | Some i =>
        if truthy i && negb (bool_decide (i ∈ grocery_list st))
        then {| grocery_list := grocery_list st ++ [i];
                selected_products := selected_products st |}
        else st
    | None => st
    end in
  (st', ReplyList (grocery_list st')).

(** [remove_item] *)
Definition remove_item (item : option string) (st : state) : state * reply :=
  let st' :=
    match item with
    | Some i =>
        if bool_decide (i ∈ grocery_list st)
        then {| grocery_list := remove_first i (grocery_list st);
                selected_products := delete i (selected_products st) |}
        else st
    | None => st
    end in
  (st', ReplyList (grocery_list st')).

(** [clear_list] *)
Definition clear_list (st : state) : state * reply := (initial, ReplyCleared).

(** [select_product] *)
Definition select_product (item : option string) (product compared_with : json)
    (st : state) : state * reply :=
  match item with
  | Some i =>
      if truthy i && json_truthy product then
        match (if json_truthy compared_with
               then set_compared_with product compared_with
               else Ok product) with
        | Ok product' =>
            let selected := <[i := product']> (selected_products st) in
            ({| grocery_list := grocery_list st; selected_products := selected |},
             ReplySelected selected (grocery_list st))
        | Raise x => (st, ReplyRaised x)
        end
      else (st, ReplyFailed "Invalid data")
  | None => (st, ReplyFailed "Invalid data")
  end.

(** [delete_product] *)
Definition delete_product (item : option string) (st : state) : state * reply :=
  match item with
  | Some i =>
      if truthy i && bool_decide (is_Some (selected_products st !! i)) then
        let selected := delete i (selected_products st) in
        ({| grocery_list := grocery_list st; selected_products := selected |},
         ReplyDeleted selected)
      else (st, ReplyFailed "Product not found")
  | None => (st, ReplyFailed "Product not found")
  end.

(** The requests to the five routes, and the state after a sequence of
    them. *)
Inductive request :=
| AddItem (item : option string)
| RemoveItem (item : option string)
| ClearList
| SelectProduct (item : option string) (product compared_with : json)
| DeleteProduct (item : option string).

Definition handle (st : state) (r : request) : state * reply :=
  match r with
  | AddItem item => add_item item st
  | RemoveItem item => remove_item item st
  | ClearList => clear_list st
  | SelectProduct item product compared_with =>
      select_product item product compared_with st
  | DeleteProduct item => delete_product item st
  end.

Definition run (requests : list request) (st : state) : state :=
  foldl (fun st r => (handle st r).1) st requests.

End GroceryList.

(** The invariant of the grocery list: no item twice, no empty item, and
    only products that count as true are selected. *)
Definition grocery_ok (st : GroceryList.state) : Prop :=
  NoDup (GroceryList.grocery_list st) /\
  ("" ∉ GroceryList.grocery_list st) /\
  ("" ∉ dom (GroceryList.selected_products st)) /\
  map_Forall (fun _ v => GroceryList.json_truthy v = true)
             (GroceryList.selected_products st).

(** A character of the path of a product link: a lower-case letter, a
    digit or a hyphen. *)
Definition url_char (c : ascii) : bool :=
  is_lower_az c || is_digit c || Ascii.eqb c "-".

(** A cache file that cannot be used: it cannot be read, or its
    timestamp is not a date. *)
Definition unusable (file : option Cache.cache_file) : Prop :=
  file = Some Cache.Unreadable \/
  exists products, file = Some (Cache.CacheData Cache.TsInvalid products).

(** The text of a decimal number as the patterns of the source capture
    it: digits, and possibly a point or a comma and digits. *)
Definition decimal_number (g : string) : Prop :=
  exists a, isdigit a = true /\
    (g = a \/
     exists sep b, (sep = "."%char \/ sep = ","%char) /\ isdigit b = true /\
                   g = a +:+ String sep b).

(** The pattern has no capture group. *)
Fixpoint no_groups (r : Re.re) : bool :=
  match r with
  | Re.Grp _ _ => false
  | Re.Seq a b | Re.Alt a b => no_groups a && no_groups b
  | _ => true
  end.

(** The pattern has a capture group with the number [i]. *)
Fixpoint defines (i : nat) (r : Re.re) : bool :=
  match r with
  | Re.Grp j a => Nat.eqb i j || defines i a
  | Re.Seq a b | Re.Alt a b => defines i a || defines i b
  | _ => false
  end.

(** * Properties *)

Local Open Scope list_scope.
#[local] Set Warnings "-clear-no-such-hyp".

(** ** Sorting *)

Section SortFacts.
Import PySort.
Context {A K : Type} (lt : K -> K -> bool) (key : A -> K).

Hypothesis lt_asym : forall a b, lt a b = true -> lt b a = false.
Hypothesis le_trans : forall a b c, lt b a = false -> lt c b = false -> lt c a = false.

Lemma insert_sorted_perm x l : insert_sorted lt key x l ≡ₚ x :: l.
Proof.
  induction l as [|y l IH]; simpl; [done|].
  destruct (lt (key y) (key x)); [|done].
  rewrite IH. apply perm_swap.
Qed.

Lemma py_sort_perm l : py_sort lt key l ≡ₚ l.
Proof.
  induction l as [|x l IH]; simpl; [done|].
  unfold py_sort in IH. by rewrite insert_sorted_perm, IH.
Qed.

Lemma insert_sorted_sorted x l :
  StronglySorted (key_le lt key) l ->
  StronglySorted (key_le lt key) (insert_sorted lt key x l).
Proof.
  induction 1 as [|y l Hs IH Hall]; simpl.
  - repeat constructor.
  - destruct (lt (key y) (key x)) eqn:Hyx.
    + constructor; [exact IH|].
      rewrite insert_sorted_perm. constructor; [|exact Hall].
      unfold key_le. by apply lt_asym.
    + constructor; [by constructor|].
      constructor; [exact Hyx|].
      eapply Forall_impl; [exact Hall|].
      intros z Hz. unfold key_le in *. by eapply le_trans.
Qed.

Lemma py_sort_sorted l : StronglySorted (key_le lt key) (py_sort lt key l).
Proof.
  induction l as [|x l IH]; simpl; [constructor|].
  by apply insert_sorted_sorted.
Qed.
End SortFacts.

Lemma qlt_false a b : qlt b a = false <-> (a <= b)%Q.
Proof.
  unfold qlt. rewrite negb_false_iff. apply Qle_bool_iff.
Qed.

Lemma qlt_true a b : qlt a b = true <-> (a < b)%Q.
Proof.
  unfold qlt. rewrite negb_true_iff. split.
  - intros H. apply Qnot_le_lt. intros Hle.
    apply Qle_bool_iff in Hle. congruence.
  - intros H. destruct (Qle_bool b a) eqn:E; [|done].
    apply Qle_bool_iff in E. exfalso. by eapply Qlt_not_le.
Qed.

Lemma qlt_asym a b : qlt a b = true -> qlt b a = false.
Proof. rewrite qlt_true, qlt_false. apply Qlt_le_weak. Qed.

Lemma qlt_le_trans a b c : qlt b a = false -> qlt c b = false -> qlt c a = false.
Proof. rewrite !qlt_false. apply Qle_trans. Qed.

Lemma flt_asym a b : flt a b = true -> flt b a = false.
Proof.
  destruct a as [a|], b as [b|]; simpl; try done.
  apply qlt_asym.
Qed.

Lemma flt_le_trans a b c : flt b a = false -> flt c b = false -> flt c a = false.
Proof.
  destruct a as [a|], b as [b|], c as [c|]; simpl; try done.
  apply qlt_le_trans.
Qed.

Section SortByKey.
Import PySort.
Context {A : Type} (key : A -> res Q).

Lemma keys_of_spec l ks :
  keys_of key l = Ok ks -> Forall2 (fun x kx => kx.2 = x /\ key x = Ok kx.1) l ks.
Proof.
  revert ks. induction l as [|x l IH]; intros ks; simpl.
  - intros [= <-]. constructor.
  - destruct (key x) as [k|] eqn:Hk; [|done]. simpl.
    destruct (keys_of key l) as [ks'|]; [|done]. simpl.
    intros [= <-]. constructor; [done|]. by apply IH.
Qed.

Lemma keys_of_Ok l :
  Forall (fun x => exists q, key x = Ok q) l -> exists ks, keys_of key l = Ok ks.
Proof.
  induction 1 as [|x l [q Hq] _ [ks IH]]; simpl; [by eexists|].
  rewrite Hq, IH. simpl. by eexists.
Qed.

Lemma sort_by_key_spec l l' :
  sort_by_key key l = Ok l' -> l' ≡ₚ l /\ sorted_by key l'.
Proof.
  unfold sort_by_key. destruct (keys_of key l) as [ks|] eqn:Hks; [|done].
  simpl. intros [= <-]. apply keys_of_spec in Hks.
  assert (Hl : l = ks.*2).
  { clear -Hks. induction Hks as [|x kx l ks [<- _] _ IH]; simpl; [done|by f_equal]. }
  assert (Hk : Forall (fun kx => key kx.2 = Ok kx.1) ks).
  { clear -Hks. induction Hks as [|x kx l ks [<- ?] _ IH]; by constructor. }
  split.
  - rewrite Hl. apply fmap_Permutation, py_sort_perm.
  - exists (py_sort qlt fst ks).*1. split.
    + rewrite <- (py_sort_perm qlt fst ks) in Hk.
      induction Hk as [|kx ks' Hkx _ IH]; simpl; by constructor.
    + pose proof (py_sort_sorted qlt fst qlt_asym qlt_le_trans ks) as Hs.
      induction Hs as [|kx ks' _ IH Hall]; simpl; constructor; [done|].
      apply Forall_fmap. eapply Forall_impl; [exact Hall|].
      intros ky. unfold key_le. simpl. by rewrite qlt_false.
Qed.

Lemma sort_by_key_Ok l :
  Forall (fun x => exists q, key x = Ok q) l -> exists l', sort_by_key key l = Ok l'.
Proof.
  intros [ks Hks]%keys_of_Ok. unfold sort_by_key. rewrite Hks. simpl. by eexists.
Qed.

Lemma sort_by_key_nil l : sort_by_key key l = Ok [] -> l = [].
Proof.
  intros [Hp _]%sort_by_key_spec. by apply Permutation_nil in Hp.
Qed.
End SortByKey.

(** ** The freshness cache and the orchestrators *)

Section Orchestrators.
Import PySort Cache.

Lemma ah_price_key_Ok p q :
  AhScraper.price_key p = Ok q <-> price p = Has (PFloat q).
Proof.
  unfold AhScraper.price_key.
  destruct (price p) as [| |[q'|s]]; split; intros H; by simplify_eq.
Qed.

Lemma jumbo_price_key_Ok p q :
  JumboScraper.price_key p = Ok q <-> price p = Has (PFloat q).
Proof. apply ah_price_key_Ok. Qed.

Lemma sorted_by_price_sorted key l :
  (forall p q, key p = Ok q <-> price p = Has (PFloat q)) ->
  sorted_by key l -> price_sorted l.
Proof.
  intros Hkey (qs & Hqs & Hs). exists qs. split; [|done].
  eapply Forall2_impl; [exact Hqs|]. intros p q. apply Hkey.
Qed.

Lemma cached_products_Some prefix term e fs l :
  cached_products prefix term e fs = Some l ->
  exists ts, fs !! get_cache_file prefix term = Some (CacheData ts l).
Proof.
  unfold cached_products, load_from_cache.
  destruct (should_update_cache _ _ _); [done|].
  destruct (fs !! _) as [[|ts ps]|]; [done| |done].
  intros [= <-]. by exists ts.
Qed.

Lemma writable_absent file fs : writable file fs = false -> fs !! file = None.
Proof. unfold writable. by destruct (fs !! file). Qed.

Lemma writable_valid file fs : valid_file_name file = true -> writable file fs = true.
Proof. unfold writable. by destruct (fs !! file). Qed.

Lemma writable_present file fs : is_Some (fs !! file) -> writable file fs = true.
Proof. unfold writable. by intros [c ->]. Qed.

Lemma save_to_cache_written prefix term l time fs :
  writable (get_cache_file prefix term) fs = true ->
  save_to_cache prefix term l time fs =
  <[get_cache_file prefix term := CacheData (TsAt time) l]> fs.
Proof. unfold save_to_cache. by intros ->. Qed.

Lemma save_to_cache_failed prefix term l time fs :
  writable (get_cache_file prefix term) fs = false ->
  save_to_cache prefix term l time fs = fs.
Proof. unfold save_to_cache. by intros ->. Qed.

Lemma save_to_cache_lookup prefix term l time fs :
  writable (get_cache_file prefix term) fs = true ->
  save_to_cache prefix term l time fs !! get_cache_file prefix term
  = Some (CacheData (TsAt time) l).
Proof. intros H. by rewrite save_to_cache_written, lookup_insert_eq. Qed.

Lemma save_to_cache_other prefix term l time fs file :
  file <> get_cache_file prefix term ->
  save_to_cache prefix term l time fs !! file = fs !! file.
Proof.
  intros H. unfold save_to_cache.
  destruct (writable _ fs); [by rewrite lookup_insert_ne|done].
Qed.

(** The file of a term after [save_to_cache]: the saved list, or no file
    when the name is refused. *)
Lemma save_to_cache_own prefix term l time fs :
  save_to_cache prefix term l time fs !! get_cache_file prefix term
  = if writable (get_cache_file prefix term) fs
    then Some (CacheData (TsAt time) l) else None.
Proof.
  destruct (writable _ fs) eqn:Hw.
  - by apply save_to_cache_lookup.
  - rewrite save_to_cache_failed by done. by apply writable_absent.
Qed.

Lemma cached_products_after_save prefix term e time l fs :
  should_update_cache
    (save_to_cache prefix term l time fs !! get_cache_file prefix term)
    (now e) (jitter e) = false ->
  cached_products prefix term e (save_to_cache prefix term l time fs) = Some l.
Proof.
  intros H. rewrite save_to_cache_own in H.
  unfold cached_products, load_from_cache. rewrite save_to_cache_own.
  destruct (writable _ fs); [by rewrite H|done].
Qed.

Lemma save_keeps_price_sorted prefix term l time fs :
  price_sorted l -> store_cache_price_sorted prefix fs ->
  store_cache_price_sorted prefix (save_to_cache prefix term l time fs).
Proof.
  intros Hl Hfs term' ts ps.
  destruct (decide (get_cache_file prefix term' = get_cache_file prefix term))
    as [->|Hne].
  - rewrite save_to_cache_own. destruct (writable _ fs) eqn:Hw; [|done].
    by intros [= <- <-].
  - rewrite save_to_cache_other by done. apply Hfs.
Qed.

(** *** Albert Heijn *)

Lemma ah_card_product_price c p :
  AhScraper.card_product c = Some p -> exists q, price p = Has (PFloat q).
Proof.
  unfold AhScraper.card_product. intros H.
  repeat match type of H with
         | context [mbind _ ?o] => destruct o; simpl in H; [|done]
         | context [if ?b then _ else _] => destruct b; simpl in H; [done|]
         end.
  simplify_eq. by eexists.
Qed.

Lemma ah_products_sortable cards :
  Forall (fun p => exists q, AhScraper.price_key p = Ok q)
         (omap AhScraper.card_product cards).
Proof.
  apply Forall_forall. intros p (c & _ & Hc)%list_elem_of_omap.
  destruct (ah_card_product_price _ _ Hc) as [q Hq].
  exists q. by apply ah_price_key_Ok.
Qed.

Lemma scrape_ah_outcome e fetch term fs :
  ah_outcome e fetch term fs
    (AhScraper.scrape_ah_products e fetch term fs).1
    (AhScraper.scrape_ah_products e fetch term fs).2.
Proof.
  unfold AhScraper.scrape_ah_products.
  destruct (cached_products "ah" term e fs) as [cached|] eqn:Hc; simpl.
  { by apply ah_hit. }
  destruct fetch as [cards|x]; simpl; [|by apply ah_raised].
  destruct (sort_by_key_Ok AhScraper.price_key _ (ah_products_sortable cards))
    as [l Hl].
  rewrite Hl. pose proof (sort_by_key_spec _ _ _ Hl) as [Hp Hs].
  destruct l as [|p l]; simpl.
  - eapply ah_empty; [done..|]. by apply Permutation_nil.
  - eapply ah_fresh; [done..|].
    eapply sorted_by_price_sorted; [apply ah_price_key_Ok|done].
Qed.

(** *** Jumbo *)

Lemma jumbo_format_product_price r p :
  JumboScraper.format_product r = Some p -> exists q, price p = Has (PFloat q).
Proof.
  unfold JumboScraper.format_product. intros H.
  destruct (JumboScraper.raw_price r) as [price_text|]; simpl in H; [|done].
  destruct (Re.search _ price_text) as [m|]; simpl in H; [|done].
  destruct (JumboScraper.euros_cents m) as [q|]; simpl in H; [|done].
  exists q.
  repeat match type of H with
         | context [mbind _ ?o] => destruct o; simpl in H; [|done]
         end.
  by simplify_eq.
Qed.

Lemma jumbo_products_sortable raws :
  Forall (fun p => exists q, JumboScraper.price_key p = Ok q)
         (omap JumboScraper.format_product raws).
Proof.
  apply Forall_forall. intros p (r & _ & Hr)%list_elem_of_omap.
  destruct (jumbo_format_product_price _ _ Hr) as [q Hq].
  exists q. by apply jumbo_price_key_Ok.
Qed.

Lemma scrape_jumbo_outcome e crawl term fs :
  jumbo_outcome e crawl term fs
    (JumboScraper.scrape_jumbo_products e crawl term fs).1
    (JumboScraper.scrape_jumbo_products e crawl term fs).2.
Proof.
  unfold JumboScraper.scrape_jumbo_products.
  destruct (cached_products "jumbo" term e fs) as [cached|] eqn:Hc; simpl.
  { by apply jumbo_hit. }
  destruct crawl as [[| |raws]|x]; simpl;
    [by apply jumbo_no_content|by apply jumbo_bad_json| |by apply jumbo_raised].
  destruct (sort_by_key_Ok JumboScraper.price_key _ (jumbo_products_sortable raws))
    as [l Hl].
  rewrite Hl. pose proof (sort_by_key_spec _ _ _ Hl) as [Hp Hs].
  destruct l as [|p l]; simpl.
  - eapply jumbo_empty; [done..|]. by apply Permutation_nil.
  - eapply jumbo_fresh; [done..|].
    eapply sorted_by_price_sorted; [apply jumbo_price_key_Ok|done].
Qed.

(** *** Plus *)

Lemma clean_products_length raws cleaned :
  PlusScraper.clean_products raws = Ok cleaned -> length cleaned = length raws.
Proof.
  revert cleaned. induction raws as [|r raws IH]; intros cleaned; simpl.
  - by intros [= <-].
  - destruct (PlusScraper.clean_product r); [|done]. simpl.
    destruct (PlusScraper.clean_products raws); [|done]. simpl.
    intros [= <-]. simpl. f_equal. by apply IH.
Qed.

Lemma plus_scrape_try_saved crawl products saved :
  PlusScraper.scrape_try crawl = Ok (products, Some saved) ->
  saved = products /\ products ≠ [] /\
  exists raws, crawl = Ok (Items raws) /\
               PlusScraper.clean_products raws = Ok products.
Proof.
  unfold PlusScraper.scrape_try, mbind, res_mbind, res_bind.
  destruct crawl as [[| |[|r raws]]|x]; try done.
  destruct (PlusScraper.clean_products (r :: raws)) as [cleaned|] eqn:Hc;
    [|done].
  intros [= <- <-]. split; [done|]. split; [|by eauto].
  apply clean_products_length in Hc. by destruct cleaned.
Qed.

Lemma plus_scrape_try_unsaved crawl products :
  PlusScraper.scrape_try crawl = Ok (products, None) -> products = [].
Proof.
  unfold PlusScraper.scrape_try, mbind, res_mbind, res_bind.
  destruct crawl as [[| |[|r raws]]|x]; try done; try by intros [= <-].
  by destruct (PlusScraper.clean_products (r :: raws)).
Qed.

(** A call of [scrape_plus_products] returns a list, and either leaves
    the cache as it is or saves the non-empty list that it returns. *)
Lemma scrape_plus_outcome e crawl term fs :
  exists l,
    (PlusScraper.scrape_plus_products e crawl term fs).1 = Ok l /\
    ((PlusScraper.scrape_plus_products e crawl term fs).2 = fs \/
     l ≠ [] /\
     (PlusScraper.scrape_plus_products e crawl term fs).2 =
       save_to_cache "plus" term l (save_time e) fs).
Proof.
  unfold PlusScraper.scrape_plus_products.
  destruct (cached_products "plus" term e fs) as [[|c cached]|];
    try (eexists; split; [done|by left]).
  all: destruct (PlusScraper.scrape_try crawl) as [[products [saved|]]|x] eqn:Ht;
    simpl; try (eexists; split; [done|by left]).
  all: apply plus_scrape_try_saved in Ht as (-> & Hne & _).
  all: eexists; split; [done|by right].
Qed.
End Orchestrators.

Section OrchestratorClaims.
Import Cache.

(** What [save_to_cache] leaves in the file of the term. *)
Lemma save_to_cache_result prefix term l time fs :
  (writable (get_cache_file prefix term) fs = true ->
   save_to_cache prefix term l time fs !! get_cache_file prefix term
     = Some (CacheData (TsAt time) l) /\
   load_from_cache prefix term (save_to_cache prefix term l time fs) = Some l) /\
  (writable (get_cache_file prefix term) fs = false ->
   save_to_cache prefix term l time fs = fs).
Proof.
  split; [|apply save_to_cache_failed].
  intros Hw. unfold load_from_cache. by rewrite save_to_cache_lookup.
Qed.

Lemma ah_fresh_call e fetch term fs l fs' :
  cached_products "ah" term e fs = None ->
  AhScraper.scrape_ah_products e fetch term fs = (Ok l, fs') ->
  price_sorted l /\
  (exists cards, fetch = Ok cards /\ l ≡ₚ omap AhScraper.card_product cards) /\
  (l ≠ [] ->
   fs' = save_to_cache "ah" term l (save_time e) fs /\
   forall e2 fetch2,
     should_update_cache (fs' !! get_cache_file "ah" term) (now e2) (jitter e2)
       = false ->
     AhScraper.scrape_ah_products e2 fetch2 term fs' = (Ok l, fs')).
Proof.
  intros Hc Heq. pose proof (scrape_ah_outcome e fetch term fs) as H.
  rewrite Heq in H. simpl in H.
  inversion H as [cached Hc'|x|cards ? ? Hnil|cards l' ? ? Hne Hp Hs];
    simplify_eq.
  - split; [exists []; split; constructor|].
    split; [exists cards; by rewrite Hnil|done].
  - split; [done|]. split; [by exists cards|]. intros _. split; [done|].
    intros e2 fetch2 Hfresh. unfold AhScraper.scrape_ah_products.
    by rewrite (cached_products_after_save _ _ _ _ _ _ Hfresh).
Qed.

Lemma ah_page_call e cards term fs :
  cached_products "ah" term e fs = None ->
  exists l fs', AhScraper.scrape_ah_products e (Ok cards) term fs = (Ok l, fs').
Proof.
  intros Hc. pose proof (scrape_ah_outcome e (Ok cards) term fs) as H.
  destruct (AhScraper.scrape_ah_products e (Ok cards) term fs) as [r fs'].
  simpl in H. inversion H; simplify_eq; by eauto.
Qed.

Lemma jumbo_fresh_call e crawl term fs l fs' :
  cached_products "jumbo" term e fs = None ->
  JumboScraper.scrape_jumbo_products e crawl term fs = (Ok l, fs') ->
  price_sorted l /\
  (crawl = Ok NoContent /\ l = [] \/
   exists raws, crawl = Ok (Items raws) /\
                l ≡ₚ omap JumboScraper.format_product raws) /\
  (l ≠ [] ->
   fs' = save_to_cache "jumbo" term l (save_time e) fs /\
   forall e2 crawl2,
     should_update_cache (fs' !! get_cache_file "jumbo" term) (now e2) (jitter e2)
       = false ->
     JumboScraper.scrape_jumbo_products e2 crawl2 term fs' = (Ok l, fs')).
Proof.
  intros Hc Heq. pose proof (scrape_jumbo_outcome e crawl term fs) as H.
  rewrite Heq in H. simpl in H.
  inversion H as [cached Hc'|x| | |raws ? ? Hnil|raws l' ? ? Hne Hp Hs];
    simplify_eq.
  - split; [exists []; split; constructor|]. split; [by left|done].
  - split; [exists []; split; constructor|].
    split; [right; exists raws; by rewrite Hnil|done].
  - split; [done|]. split; [right; by exists raws|]. intros _. split; [done|].
    intros e2 crawl2 Hfresh. unfold JumboScraper.scrape_jumbo_products.
    by rewrite (cached_products_after_save _ _ _ _ _ _ Hfresh).
Qed.

Lemma jumbo_page_call e raws term fs :
  cached_products "jumbo" term e fs = None ->
  exists l fs',
    JumboScraper.scrape_jumbo_products e (Ok (Items raws)) term fs = (Ok l, fs').
Proof.
  intros Hc. pose proof (scrape_jumbo_outcome e (Ok (Items raws)) term fs) as H.
  destruct (JumboScraper.scrape_jumbo_products e (Ok (Items raws)) term fs) as [r fs'].
  simpl in H. inversion H; simplify_eq; by eauto.
Qed.
End OrchestratorClaims.

(** C3. For each of the three source orchestrators, a call that returns an
    empty product list writes nothing to the cache: the cache directory
    after the call is the one before it. *)
Theorem C3_empty_scrape_leaves_cache
    (e : Cache.env) (term : string) (fs : gmap string Cache.cache_file) :
  (forall fetch fs',
     AhScraper.scrape_ah_products e fetch term fs = (Ok [], fs') -> fs' = fs) /\
  (forall crawl fs',
     JumboScraper.scrape_jumbo_products e crawl term fs = (Ok [], fs') -> fs' = fs) /\
  (forall crawl fs',
     PlusScraper.scrape_plus_products e crawl term fs = (Ok [], fs') -> fs' = fs).
Proof.
  repeat split.
  - intros fetch fs' Heq. pose proof (scrape_ah_outcome e fetch term fs) as H.
    rewrite Heq in H. simpl in H. by inversion H.
  - intros crawl fs' Heq. pose proof (scrape_jumbo_outcome e crawl term fs) as H.
    rewrite Heq in H. simpl in H. by inversion H.
  - intros crawl fs' Heq.
    destruct (scrape_plus_outcome e crawl term fs) as (l & Hl & Hfs).
    rewrite Heq in Hl, Hfs. simpl in *. simplify_eq.
    by destruct Hfs as [?|[? _]].
Qed.

Lemma C3_empty_scrape_leaves_cache_witness :
  (AhScraper.scrape_ah_products example_env (Ok []) "kaas" ∅).2 = ∅ /\
  (JumboScraper.scrape_jumbo_products example_env (Ok NoContent) "kaas" ∅).2 = ∅ /\
  (PlusScraper.scrape_plus_products example_env (Ok (Items [])) "kaas" ∅).2 = ∅.
Proof.
  pose proof (C3_empty_scrape_leaves_cache example_env "kaas" ∅) as (Ha & Hj & Hp).
  split; [|split].
  - by apply (Ha (Ok []) _).
  - by apply (Hj (Ok NoContent) _).
  - by apply (Hp (Ok (Items [])) _).
Defined.

(** C5. A cache entry with a timestamp is stale whenever its age exceeds
    the base duration plus the variance (12h + 4h) and is not stale
    whenever its age is below the base duration minus the variance
    (12h - 4h), whatever jitter within the variance is drawn; a file that
    is absent, unreadable or has an invalid timestamp is always stale. *)
Theorem C5_staleness_bounds (cache_time now jitter : Z) (products : list product) :
  (- Cache.CACHE_DURATION_VARIANCE <= jitter <= Cache.CACHE_DURATION_VARIANCE)%Z ->
  ((Cache.CACHE_DURATION + Cache.CACHE_DURATION_VARIANCE < now - cache_time)%Z ->
   Cache.should_update_cache
     (Some (Cache.CacheData (Cache.TsAt cache_time) products)) now jitter = true) /\
  ((now - cache_time < Cache.CACHE_DURATION - Cache.CACHE_DURATION_VARIANCE)%Z ->
   Cache.should_update_cache
     (Some (Cache.CacheData (Cache.TsAt cache_time) products)) now jitter = false) /\
  Cache.should_update_cache None now jitter = true /\
  Cache.should_update_cache (Some Cache.Unreadable) now jitter = true /\
  Cache.should_update_cache
    (Some (Cache.CacheData Cache.TsInvalid products)) now jitter = true.
Proof.
  intros [Hlo Hhi]. simpl. repeat split.
  - intros H. apply Z.ltb_lt. lia.
  - intros H. apply Z.ltb_ge. lia.
Qed.

Lemma C5_staleness_bounds_witness :
  Cache.should_update_cache
    (Some (Cache.CacheData (Cache.TsAt 0) [])) (Cache.hours 17) (Cache.hours 3) = true /\
  Cache.should_update_cache
    (Some (Cache.CacheData (Cache.TsAt 0) [])) (Cache.hours 7) (Cache.hours (-3)) = false.
Proof.
  split.
  - apply (C5_staleness_bounds 0 (Cache.hours 17) (Cache.hours 3) []);
      unfold Cache.CACHE_DURATION, Cache.CACHE_DURATION_VARIANCE, Cache.hours; lia.
  - apply (C5_staleness_bounds 0 (Cache.hours 7) (Cache.hours (-3)) []);
      unfold Cache.CACHE_DURATION, Cache.CACHE_DURATION_VARIANCE, Cache.hours; lia.
Defined.

(** C4 as the code has it.  An exception of the cache look-up that stands
    before the [try] leaves each of the three orchestrators: what
    [CACHE_DIR.mkdir] or [cache_file.exists()] raises, and
    [AttributeError] for a search term that is no text.  After a look-up
    that did not raise and that found no fresh entry: when the fetch
    raises, the AH and the Jumbo orchestrator raise the same exception,
    and so does the Jumbo orchestrator when the extracted content is not
    JSON; when every card of the page is left out, both return an empty
    list, and the Jumbo orchestrator also does so when the crawl result
    has no extracted content.  The Plus orchestrator raises nothing from
    inside its [try]: after a look-up that did not raise it returns a
    list, the empty one when the fetch raises. *)
Theorem C4_failure_propagation
    (o : Calls.probes) (e : Cache.env) (search_term : option string) (term : string)
    (fs : gmap string Cache.cache_file) :
  (forall prefix x,
     Calls.mkdir_raises o = Some x -> Calls.look_up o prefix search_term = Raise x) /\
  (forall prefix,
     Calls.mkdir_raises o = None ->
     Calls.look_up o prefix None = Raise AttributeError /\
     (forall x,
        Calls.exists_raises o (Cache.get_cache_file prefix term) = Some x ->
        Calls.look_up o prefix (Some term) = Raise x) /\
     (Calls.exists_raises o (Cache.get_cache_file prefix term) = None ->
      Calls.look_up o prefix (Some term) = Ok term)) /\
  (forall x,
     (Calls.look_up o "ah" search_term = Raise x ->
      forall fetch, Calls.scrape_ah_products o e fetch search_term fs = (Raise x, fs)) /\
     (Calls.look_up o "jumbo" search_term = Raise x ->
      forall crawl, Calls.scrape_jumbo_products o e crawl search_term fs = (Raise x, fs)) /\
     (Calls.look_up o "plus" search_term = Raise x ->
      forall crawl, Calls.scrape_plus_products o e crawl search_term fs = (Raise x, fs))) /\
  (Calls.look_up o "ah" search_term = Ok term ->
   Cache.cached_products "ah" term e fs = None ->
   (forall x,
      Calls.scrape_ah_products o e (Raise x) search_term fs = (Raise x, fs)) /\
   (forall cards,
      omap AhScraper.card_product cards = [] ->
      Calls.scrape_ah_products o e (Ok cards) search_term fs = (Ok [], fs))) /\
  (Calls.look_up o "jumbo" search_term = Ok term ->
   Cache.cached_products "jumbo" term e fs = None ->
   (forall x,
      Calls.scrape_jumbo_products o e (Raise x) search_term fs = (Raise x, fs)) /\
   Calls.scrape_jumbo_products o e (Ok BadJson) search_term fs = (Raise ValueError, fs) /\
   Calls.scrape_jumbo_products o e (Ok NoContent) search_term fs = (Ok [], fs) /\
   (forall raws,
      omap JumboScraper.format_product raws = [] ->
      Calls.scrape_jumbo_products o e (Ok (Items raws)) search_term fs = (Ok [], fs))) /\
  (Calls.look_up o "plus" search_term = Ok term ->
   (forall crawl,
      exists l, (Calls.scrape_plus_products o e crawl search_term fs).1 = Ok l) /\
   (Cache.cached_products "plus" term e fs = None ->
    forall x,
      Calls.scrape_plus_products o e (Raise x) search_term fs = (Ok [], fs))) /\
  (forall crawl x,
     (Calls.scrape_plus_products o e crawl search_term fs).1 = Raise x <->
     Calls.look_up o "plus" search_term = Raise x).
Proof.
  split; [|split; [|split; [|split; [|split; [|split]]]]].
  - intros prefix x Hm. unfold Calls.look_up. by rewrite Hm.
  - intros prefix Hm. unfold Calls.look_up. rewrite Hm. simpl.
    split; [done|]. split; [by intros x ->|by intros ->].
  - intros x. unfold Calls.scrape_ah_products, Calls.scrape_jumbo_products,
      Calls.scrape_plus_products.
    repeat split; by intros ->.
  - intros Hl Hc. unfold Calls.scrape_ah_products. rewrite Hl.
    unfold AhScraper.scrape_ah_products. rewrite Hc. split; [done|].
    intros cards Hnil. simpl. by rewrite Hnil.
  - intros Hl Hc. unfold Calls.scrape_jumbo_products. rewrite Hl.
    unfold JumboScraper.scrape_jumbo_products. rewrite Hc.
    split; [done|]. split; [done|]. split; [done|].
    intros raws Hnil. simpl. by rewrite Hnil.
  - intros Hl. unfold Calls.scrape_plus_products. rewrite Hl. split.
    + intros crawl. destruct (scrape_plus_outcome e crawl term fs) as (l & Hres & _).
      by exists l.
    + intros Hc x. unfold PlusScraper.scrape_plus_products. by rewrite Hc.
  - intros crawl x. unfold Calls.scrape_plus_products.
    destruct (Calls.look_up o "plus" search_term) as [t|y]; simpl.
    + destruct (scrape_plus_outcome e crawl t fs) as (l & -> & _). by split.
    + by split; intros [= ->].
Qed.

Lemma C4_failure_propagation_witness :
  Calls.scrape_ah_products example_probes example_env
    (Raise (OtherError "FetchTimeout")) (Some "kaas") ∅
    = (Raise (OtherError "FetchTimeout"), ∅) /\
  Calls.scrape_jumbo_products example_probes example_env (Ok NoContent) (Some "kaas") ∅
    = (Ok [], ∅) /\
  Calls.scrape_plus_products example_probes example_env
    (Raise (OtherError "FetchTimeout")) (Some "kaas") ∅
    = (Ok [], ∅) /\
  Calls.scrape_plus_products example_probes example_env (Ok (Items [])) None ∅
    = (Raise AttributeError, ∅) /\
  Calls.scrape_plus_products example_probes example_env (Ok (Items [])) (Some long_term) ∅
    = (Raise (OtherError "OSError: File name too long"), ∅).
Proof.
  pose proof (C4_failure_propagation example_probes example_env (Some "kaas") "kaas" ∅)
    as (_ & _ & _ & Ha & Hj & Hp & _).
  pose proof (C4_failure_propagation example_probes example_env None "kaas" ∅)
    as (_ & _ & Hnone & _).
  pose proof (C4_failure_propagation example_probes example_env (Some long_term) "kaas" ∅)
    as (_ & _ & Hlong & _).
  split; [|split; [|split; [|split]]].
  - by apply Ha.
  - by apply Hj.
  - by apply Hp.
  - by apply Hnone.
  - by apply Hlong.
Defined.

(** C4 as stated fails: with no cache file, a fetch that times out makes
    the Plus orchestrator return an empty list, and a crawl result
    without extracted content makes the Jumbo orchestrator return an empty
    list; both are what a page without products gives. *)
Lemma C4_counterexample :
  Calls.scrape_plus_products example_probes example_env
    (Raise (OtherError "FetchTimeout")) (Some "kaas") ∅ = (Ok [], ∅) /\
  Calls.scrape_plus_products example_probes example_env
    (Ok (Items [])) (Some "kaas") ∅ = (Ok [], ∅) /\
  Calls.scrape_jumbo_products example_probes example_env
    (Ok NoContent) (Some "kaas") ∅ = (Ok [], ∅) /\
  Calls.scrape_jumbo_products example_probes example_env
    (Ok (Items [])) (Some "kaas") ∅ = (Ok [], ∅).
Proof. by repeat split. Qed.

(** ** The aggregator *)

Section Merge.
Import App.

Lemma foldl_add_product seen acc l :
  foldl add_product (seen, acc) l =
  (list_to_set (product_key <$> added seen l) ∪ seen, acc ++ added seen l).
Proof.
  revert seen acc. induction l as [|p l IH]; intros seen acc; simpl.
  - f_equal; [set_solver|by rewrite app_nil_r].
  - destruct (decide (product_key p ∈ seen)); [by rewrite IH|].
    rewrite IH. simpl. f_equal; [set_solver|by rewrite <- app_assoc].
Qed.

Lemma foldl_add_result st results :
  foldl add_result st results = foldl add_product st (successes results).
Proof.
  revert st. induction results as [|[x|l] results IH]; intros st; simpl.
  - done.
  - apply IH.
  - unfold successes. simpl. rewrite foldl_app. apply IH.
Qed.

Lemma merge_results_added results :
  merge_results results = added ∅ (successes results).
Proof.
  unfold merge_results. by rewrite foldl_add_result, foldl_add_product.
Qed.

Lemma added_sublist seen l : added seen l `sublist_of` l.
Proof.
  revert seen. induction l as [|p l IH]; intros seen; simpl; [done|].
  destruct (decide _); [by apply sublist_cons|by apply sublist_skip].
Qed.

Lemma added_not_seen seen l p : p ∈ added seen l -> product_key p ∉ seen.
Proof.
  revert seen. induction l as [|q l IH]; intros seen; simpl.
  - by intros ?%elem_of_nil.
  - destruct (decide _) as [|Hq]; [apply IH|].
    intros [->|Hp%IH]%elem_of_cons; [done|set_solver].
Qed.

Lemma added_NoDup seen l : NoDup (product_key <$> added seen l).
Proof.
  revert seen. induction l as [|p l IH]; intros seen; simpl; [constructor|].
  destruct (decide _); [apply IH|]. simpl. constructor; [|apply IH].
  intros (q & Hk & Hq%added_not_seen)%list_elem_of_fmap. set_solver.
Qed.

Lemma first_with_key_added k seen l :
  first_with_key k (added seen l) =
  if decide (k ∈ seen) then None else first_with_key k l.
Proof.
  revert seen. induction l as [|p l IH]; intros seen; simpl.
  - by destruct (decide _).
  - destruct (decide (product_key p ∈ seen)) as [Hp|Hp].
    + rewrite IH. destruct (decide (k ∈ seen)); [done|].
      destruct (decide (product_key p = k)); [congruence|done].
    + simpl. destruct (decide (product_key p = k)) as [<-|Hk].
      * by destruct (decide _).
      * rewrite IH. repeat destruct (decide _); set_solver.
Qed.

Lemma first_with_key_found k l :
  (exists p, p ∈ l /\ product_key p = k) ->
  exists p', first_with_key k l = Some p' /\ product_key p' = k.
Proof.
  intros (p & Hp & Hk). induction l as [|q l IH]; [by apply elem_of_nil in Hp|].
  simpl. destruct (decide (product_key q = k)) as [Hq|Hq]; [by exists q|].
  apply elem_of_cons in Hp as [->|Hp]; [done|by apply IH].
Qed.

Lemma first_with_key_elem k l p : first_with_key k l = Some p -> p ∈ l.
Proof.
  induction l as [|q l IH]; [done|]. simpl.
  destruct (decide (product_key q = k)).
  - intros [= ->]. by left.
  - intros H. right. by apply IH.
Qed.

Lemma product_key_inj p q :
  product_key p = product_key q ->
  store p = store q /\ py_str_opt (name p) = py_str_opt (name q).
Proof.
  unfold product_key.
  destruct (store p), (store q); simpl; intros H; by simplify_eq.
Qed.
End Merge.

(** C6. The aggregator goes through the lists of the sources in the order
    of the sources and keeps, for each key made of store and name, the
    first product with that key: the merged list is a sublist of the
    concatenation (so the order is kept), no key occurs twice in it, and
    for each key it holds the product that comes first in the
    concatenation.  Two products have the same key exactly when they have
    the same store and the same name text.  Two products with the same
    store and name give one entry, the earlier one; two products with the
    same name and different stores give two entries, and so do two
    products of one store with different names, whether they come from
    two lists or from one. *)
Theorem C6_merge_keeps_first_occurrence (results : list App.source_result) :
  App.merge_results results `sublist_of` successes results /\
  NoDup (App.product_key <$> App.merge_results results) /\
  (forall k,
     first_with_key k (App.merge_results results) =
     first_with_key k (successes results)) /\
  (forall p, p ∈ successes results ->
     exists p', p' ∈ App.merge_results results /\
                store p' = store p /\
                App.py_str_opt (name p') = App.py_str_opt (name p)) /\
  (forall l1 l2, successes [App.SrcList l1; App.SrcList l2] = (l1 ++ l2)%list) /\
  (forall p q,
     App.product_key p = App.product_key q <->
     store p = store q /\ App.py_str_opt (name p) = App.py_str_opt (name q)) /\
  (forall p q,
     store p = store q -> name p = name q ->
     App.merge_results [App.SrcList [p]; App.SrcList [q]] = [p]) /\
  (forall p q,
     store p ≠ store q -> name p = name q ->
     App.merge_results [App.SrcList [p]; App.SrcList [q]] = [p; q]) /\
  (forall p q,
     store p = store q ->
     App.py_str_opt (name p) ≠ App.py_str_opt (name q) ->
     App.merge_results [App.SrcList [p]; App.SrcList [q]] = [p; q] /\
     App.merge_results [App.SrcList [p; q]] = [p; q]).
Proof.
  assert (Hkey : forall p q,
    App.product_key p = App.product_key q <->
    store p = store q /\ App.py_str_opt (name p) = App.py_str_opt (name q)).
  { intros p q. split; [apply product_key_inj|].
    intros [Hs Hn]. unfold App.product_key. by rewrite Hs, Hn. }
  rewrite merge_results_added.
  split; [apply added_sublist|]. split; [apply added_NoDup|].
  split; [intros k; by rewrite first_with_key_added|].
  split; [|split; [|split; [done|split; [|split]]]].
  - intros p Hp.
    destruct (first_with_key_found (App.product_key p) (successes results))
      as (p' & Hfirst & Hk); [by exists p|].
    exists p'. split; [|by apply Hkey].
    apply (first_with_key_elem (App.product_key p)).
    by rewrite first_with_key_added.
  - intros l1 l2. unfold successes. simpl. by rewrite app_nil_r.
  - intros p q Hs Hn. rewrite merge_results_added. simpl.
    assert (App.product_key q = App.product_key p) as ->.
    { unfold App.product_key. by rewrite Hs, Hn. }
    rewrite decide_False by set_solver. rewrite decide_True by set_solver. done.
  - intros p q Hs Hn. rewrite merge_results_added. simpl.
    rewrite decide_False by set_solver.
    rewrite decide_False; [done|].
    intros Hin. apply Hs. symmetry.
    apply product_key_inj. set_solver.
  - intros p q Hs Hn.
    assert (Hq : App.product_key q ∉ ({[App.product_key p]} ∪ ∅ : gset string)).
    { intros Hin. apply Hn. symmetry. apply product_key_inj. set_solver. }
    split; rewrite merge_results_added; simpl.
    all: rewrite decide_False by set_solver; by rewrite decide_False.
Qed.

Lemma C6_merge_keeps_first_occurrence_witness :
  App.merge_results [App.SrcList [gouda_jumbo]; App.SrcList [gouda_jumbo]] = [gouda_jumbo] /\
  App.merge_results [App.SrcList [gouda_jumbo]; App.SrcList [gouda_plus]]
    = [gouda_jumbo; gouda_plus] /\
  App.merge_results [App.SrcList [cheap_no_unit]; App.SrcList [dear_with_unit]]
    = [cheap_no_unit; dear_with_unit] /\
  App.merge_results [App.SrcList [cheap_no_unit; dear_with_unit]]
    = [cheap_no_unit; dear_with_unit].
Proof.
  pose proof (C6_merge_keeps_first_occurrence [])
    as (_ & _ & _ & _ & _ & _ & Hsame & Hdiff & Hnames).
  split; [by apply Hsame|]. split; [by apply Hdiff|].
  apply Hnames; [reflexivity|discriminate].
Defined.

Section Search.
Import App.

Lemma merge_results_same results1 results2 :
  successes results1 = successes results2 ->
  merge_results results1 = merge_results results2.
Proof. intros H. by rewrite !merge_results_added, H. Qed.

Lemma search_products_same sort_by results1 results2 :
  successes results1 = successes results2 ->
  search_products sort_by results1 = search_products sort_by results2.
Proof.
  intros H. unfold search_products. by rewrite (merge_results_same _ _ H).
Qed.

Lemma search_products_default results :
  exists products,
    search_products "price_per_unit" results =
      RespProducts products (length products)
        (match products with [] => Some no_products_message | _ => None end) /\
    products ≡ₚ set_price_per_unit <$> merge_results results /\
    StronglySorted price_per_unit_le products.
Proof.
  unfold search_products. simpl.
  set (ps := set_price_per_unit <$> merge_results results).
  exists (PySort.py_sort flt key_price_per_unit ps). split; [|split].
  - by destruct (PySort.py_sort flt key_price_per_unit ps).
  - apply py_sort_perm.
  - apply (py_sort_sorted flt key_price_per_unit flt_asym flt_le_trans).
Qed.

Lemma search_products_price results sorted :
  PySort.sort_by_key key_price (set_price_per_unit <$> merge_results results)
    = Ok sorted ->
  search_products "price" results =
    RespProducts sorted (length sorted)
      (match sorted with [] => Some no_products_message | _ => None end) /\
  sorted ≡ₚ set_price_per_unit <$> merge_results results /\
  sorted_by key_price sorted.
Proof.
  intros Hs. unfold search_products. simpl. rewrite Hs.
  split; [by destruct sorted|]. by apply sort_by_key_spec.
Qed.
End Search.

(** C1 as the code has it.  With three sources of which one raised, the
    response is the one of the two other sources alone: their merged and
    deduplicated products, each with its ['price_per_unit'], sorted (by
    that value under the default order, by price under the order
    ["price"] when every price can be read), and the count.  The response
    carries no report of failed sources: it is also the response for the
    case that the third source returned an empty list. *)
Theorem C1_failure_isolation
    (sort_by : string) (x : exn) (l1 l2 : list product) :
  App.gather ["ah"; "jumbo"; "plus"] (App.SrcRaised x) (App.SrcList l1) (App.SrcList l2)
    = [App.SrcRaised x; App.SrcList l1; App.SrcList l2] /\
  (let two := App.search_products sort_by [App.SrcList l1; App.SrcList l2] in
   App.search_products sort_by [App.SrcRaised x; App.SrcList l1; App.SrcList l2] = two /\
   App.search_products sort_by [App.SrcList l1; App.SrcRaised x; App.SrcList l2] = two /\
   App.search_products sort_by [App.SrcList l1; App.SrcList l2; App.SrcRaised x] = two /\
   App.search_products sort_by [App.SrcList []; App.SrcList l1; App.SrcList l2] = two /\
   App.search_products sort_by [App.SrcList l1; App.SrcList []; App.SrcList l2] = two /\
   App.search_products sort_by [App.SrcList l1; App.SrcList l2; App.SrcList []] = two) /\
  (exists products,
     App.search_products "price_per_unit"
       [App.SrcRaised x; App.SrcList l1; App.SrcList l2] =
       App.RespProducts products (length products)
         (match products with [] => Some App.no_products_message | _ => None end) /\
     products ≡ₚ App.set_price_per_unit <$>
                   App.merge_results [App.SrcList l1; App.SrcList l2] /\
     StronglySorted price_per_unit_le products) /\
  (forall sorted,
     PySort.sort_by_key App.key_price
       (App.set_price_per_unit <$> App.merge_results [App.SrcList l1; App.SrcList l2])
       = Ok sorted ->
     App.search_products "price"
       [App.SrcRaised x; App.SrcList l1; App.SrcList l2] =
       App.RespProducts sorted (length sorted)
         (match sorted with [] => Some App.no_products_message | _ => None end) /\
     sorted_by App.key_price sorted).
Proof.
  assert (Hsame : forall s,
    App.search_products s [App.SrcRaised x; App.SrcList l1; App.SrcList l2] =
    App.search_products s [App.SrcList l1; App.SrcList l2]).
  { intros s. by apply search_products_same. }
  split; [done|]. split; [|split].
  - repeat split; apply search_products_same; unfold successes; simpl;
      by rewrite ?app_nil_r.
  - rewrite Hsame. apply search_products_default.
  - intros sorted Hs. rewrite Hsame.
    by destruct (search_products_price _ _ Hs) as (? & _ & ?).
Qed.

(** C1 as stated fails: the response for a search in which the AH scraper
    raised [FetchTimeout] is the response for a search in which it
    returned an empty list, so that no reading of the response gives the
    number of failed sources. *)
Lemma C1_counterexample :
  let failed := [App.SrcRaised (OtherError "FetchTimeout");
                 App.SrcList [gouda_jumbo]; App.SrcList [gouda_plus]] in
  let empty := [App.SrcList []; App.SrcList [gouda_jumbo]; App.SrcList [gouda_plus]] in
  count_failed failed = 1 /\
  count_failed empty = 0 /\
  App.search_products "price_per_unit" failed =
    App.search_products "price_per_unit" empty /\
  ~ exists report : App.response -> nat,
      forall results,
        report (App.search_products "price_per_unit" results) = count_failed results.
Proof.
  intros failed empty.
  assert (Heq : App.search_products "price_per_unit" failed =
                App.search_products "price_per_unit" empty).
  { by apply search_products_same. }
  split; [done|]. split; [done|]. split; [exact Heq|].
  intros [report Hr].
  pose proof (Hr failed) as H1. pose proof (Hr empty) as H0.
  rewrite Heq, H0 in H1. discriminate H1.
Qed.

Lemma C1_failure_isolation_witness :
  App.search_products "price_per_unit"
    [App.SrcRaised (OtherError "FetchTimeout");
     App.SrcList [gouda_jumbo]; App.SrcList [gouda_plus]] =
  App.RespProducts
    [App.set_price_per_unit gouda_plus; App.set_price_per_unit gouda_jumbo] 2 None.
Proof.
  pose proof (C1_failure_isolation "price_per_unit" (OtherError "FetchTimeout")
                [gouda_jumbo] [gouda_plus]) as (_ & (H & _) & _).
  rewrite H. reflexivity.
Defined.

(** ** Texts without a digit *)

Section NoDigit.
Import Re.

Lemma no_digit_head s : any_char is_digit s = false -> head_not_digit s.
Proof. destruct s; simpl; [done|]. by intros [? _]%orb_false_elim. Qed.

(** A pattern that cannot match where no digit stands is not found in a
    text without a digit. *)
Lemma search_from_no_digit r :
  (forall prev s, head_not_digit s -> match_here r prev s = None) ->
  forall s prev, any_char is_digit s = false -> search_from r prev s = None.
Proof.
  intros Hr s. induction s as [|c s IH]; intros prev Hs; simpl.
  - by rewrite Hr.
  - rewrite Hr by by apply no_digit_head.
    simpl in Hs. apply orb_false_elim in Hs as [_ Hs]. by apply IH.
Qed.

Ltac needs_digit :=
  intros prev [|c s]; simpl; [done|]; intros Hc;
  unfold match_here; simpl; by rewrite Hc.

Lemma app_re_stuk_needs_digit :
  forall prev s, head_not_digit s -> match_here App.re_stuk prev s = None.
Proof. needs_digit. Qed.

Lemma app_re_plak_needs_digit :
  forall prev s, head_not_digit s -> match_here App.re_plak prev s = None.
Proof. needs_digit. Qed.

Lemma app_re_kilo_needs_digit :
  forall prev s, head_not_digit s -> match_here App.re_kilo prev s = None.
Proof. needs_digit. Qed.

Lemma app_re_gram_needs_digit :
  forall prev s, head_not_digit s -> match_here App.re_gram prev s = None.
Proof. needs_digit. Qed.

Lemma no_digit_replace_from old skip s :
  any_char is_digit s = false ->
  any_char is_digit (replace_from old "" skip s) = false.
Proof.
  revert skip. induction s as [|c s IH]; intros skip Hs; [done|].
  simpl in Hs. apply orb_false_elim in Hs as [Hc Hs].
  destruct skip as [|k]; cbn [replace_from]; [|by apply IH].
  destruct (String.prefix old (String c s)).
  - cbn [String.append]. by apply IH.
  - cbn [any_char]. rewrite Hc. by apply IH.
Qed.

Lemma no_digit_replace old s :
  any_char is_digit s = false -> any_char is_digit (replace old "" s) = false.
Proof. apply no_digit_replace_from. Qed.

Lemma no_digit_isdigit s : any_char is_digit s = false -> isdigit s = false.
Proof.
  destruct s as [|c s]; simpl; [done|].
  by intros [-> _]%orb_false_elim.
Qed.
End NoDigit.




(** ** Unit sizes and the price per unit *)

(** A name in which the kilogram pattern of the Jumbo scraper is found
    (and no earlier rule applies) gets the number of kilograms with the
    unit "g": the test ['kg' in pattern or 'kilo' in pattern] fails on the
    text of the pattern. *)
Lemma jumbo_kilograms_read_as_grams name m :
  truthy name = true ->
  endswith (lower name) "half" = false ->
  contains " heel" (lower name) || contains "-heel" (lower name) = false ->
  contains "half" (lower name) = false ->
  Re.search JumboScraper.re_stuks (lower name) = None ->
  Re.search JumboScraper.re_plakken (lower name) = None ->
  Re.search JumboScraper.re_kilo (lower name) = Some m ->
  JumboScraper.extract_unit_size name = Ok (Re.grp 1 m +:+ "g").
Proof.
  intros Hn H1 H2 H3 Hs Hp Hk. unfold JumboScraper.extract_unit_size.
  rewrite Hn, H1, H2, H3. simpl.
  by rewrite Hs, Hp, Hk.
Qed.

(** C7. The code at the forms of the same mass in grams and in kilograms.
    The AH conversion reads only the digits before the unit, so that
    "0.4kg" becomes 4000 g; the Jumbo function never takes its kilogram
    branch, so that a kilogram amount keeps its number and gets the unit
    "g": "0.4kg" becomes "0.4g" and "1 kg" becomes "1g"; the Plus function
    gives "400g" for both forms. *)
Theorem C7_gram_and_kilogram_forms :
  AhScraper.convert_unit_size "400g" = "400g" /\
  AhScraper.convert_unit_size "0.4kg" = "4000g" /\
  JumboScraper.extract_unit_size "400g" = Ok "400g" /\
  JumboScraper.extract_unit_size "0.4kg" = Ok "0.4g" /\
  JumboScraper.extract_unit_size "1000 g" = Ok "1000g" /\
  JumboScraper.extract_unit_size "1 kg" = Ok "1g" /\
  PlusScraper.extract_unit_size "400g" = Ok "400g" /\
  PlusScraper.extract_unit_size "0.4kg" = Ok "400g" /\
  (forall name m,
     truthy name = true ->
     endswith (lower name) "half" = false ->
     contains " heel" (lower name) || contains "-heel" (lower name) = false ->
     contains "half" (lower name) = false ->
     Re.search JumboScraper.re_stuks (lower name) = None ->
     Re.search JumboScraper.re_plakken (lower name) = None ->
     Re.search JumboScraper.re_kilo (lower name) = Some m ->
     JumboScraper.extract_unit_size name = Ok (Re.grp 1 m +:+ "g")).
Proof.
  do 8 (split; [by vm_compute|]).
  exact jumbo_kilograms_read_as_grams.
Qed.

(** C8 as the code has it.  For a product with the float price [x] and
    without a pre-computed value, [calculate_price_per_unit] of [app.py]
    gives the bare number [x / 500 * 1000] for the unit size "500g" and
    [x / 2] for "2 stuk" (10.00 and 2.50 for the price 5.00), and the price
    [x] itself when the unit size is absent or [None]; the function of the
    same name of [plus_scraper.py] gives [x / 2] with the kind "stuk" for
    "2 stuk" and the pair of [None]s for an absent or empty unit size. *)
Theorem C8_price_per_unit_equations (p : product) (x : Q) :
  price_per_unit_value p = None ->
  price p = Has (PFloat x) ->
  (unit_size p = Has "500g" ->
   App.calculate_price_per_unit p = Ok (Fin (qmul (qdiv x 500) 1000))) /\
  (unit_size p = Has "2 stuk" ->
   App.calculate_price_per_unit p = Ok (Fin (qdiv x 2))) /\
  (unit_size p = Absent \/ unit_size p = Null ->
   App.calculate_price_per_unit p = Ok (Fin x)) /\
  qmul (qdiv 5 500) 1000 = 10%Q /\
  qdiv 5 2 = (5 # 2)%Q /\
  PlusScraper.calculate_price_per_unit x (Some "2 stuk") = Ok (Some (qdiv x 2, "stuk")) /\
  PlusScraper.calculate_price_per_unit x None = Ok None /\
  PlusScraper.calculate_price_per_unit x (Some "") = Ok None.
Proof.
  intros Hv Hp.
  assert (Hcalc : forall u, unit_size p = u ->
    App.calculate_price_per_unit p =
    App.calculate_price_per_unit (example_product AH "" x u)).
  { intros u Hu. unfold App.calculate_price_per_unit,
      App.calculate_price_per_unit_try, App.price_number, App.unit_text.
    by rewrite Hv, Hp, Hu. }
  repeat split.
  - intros Hu. by rewrite (Hcalc _ Hu).
  - intros Hu. by rewrite (Hcalc _ Hu).
  - intros [Hu|Hu]; by rewrite (Hcalc _ Hu).
Qed.

Lemma C8_price_per_unit_equations_witness :
  App.calculate_price_per_unit dear_with_unit = Ok (Fin 10) /\
  App.calculate_price_per_unit (example_product AH "Eieren" 5 (Has "2 stuk"))
    = Ok (Fin (5 # 2)) /\
  App.calculate_price_per_unit (example_product AH "Kaas" 5 Absent) = Ok (Fin 5).
Proof.
  split; [|split].
  - apply (C8_price_per_unit_equations dear_with_unit 5); reflexivity.
  - apply (C8_price_per_unit_equations (example_product AH "Eieren" 5 (Has "2 stuk")) 5);
      reflexivity.
  - apply (C8_price_per_unit_equations (example_product AH "Kaas" 5 Absent) 5);
      try reflexivity. by left.
Defined.

(** C8 as stated fails: for the price 5.00 and an absent unit size,
    [calculate_price_per_unit] of [app.py] yields the value 5.00 and not an
    absent result. *)
Lemma C8_counterexample :
  App.calculate_price_per_unit (example_product AH "Kaas" 5 Absent) = Ok (Fin 5) /\
  App.calculate_price_per_unit (example_product AH "Kaas" 5 Null) = Ok (Fin 5).
Proof. by vm_compute. Qed.

(** The Plus scraper calls its [calculate_price_per_unit] with unit sizes
    of the form "500g", for which the function finds no quantity; the
    scraper then fails on the missing value. *)
Lemma plus_calculate_price_per_unit_grams :
  PlusScraper.calculate_price_per_unit 5 (Some "500g") = Ok None /\
  PlusScraper.unit_price_fields 5 "500g" = Raise TypeError /\
  PlusScraper.calculate_price_per_unit 5 (Some "per 500 g") = Ok (Some (10%Q, "kilo")).
Proof. by vm_compute. Qed.

(** ** The matcher and its matches *)

Section Matching.
Import Re.

Lemma lit_sound l prev s prev' s' :
  lit l prev s = Some (prev', s') -> s = l +:+ s' /\ prev' = last_of prev l.
Proof.
  revert prev s. induction l as [|a l IH]; intros prev s; simpl.
  - by intros [= <- <-].
  - destruct s as [|c s]; [done|].
    destruct (Ascii.eqb a c) eqn:E; [|done].
    apply Ascii.eqb_eq in E as <-.
    intros [-> ->]%IH. done.
Qed.

Lemma star_sound {R} p (k : cont (R:=R)) prev s caps x :
  star p k prev s caps = Some x ->
  exists pre post,
    s = pre +:+ post /\ all_chars p pre = true /\
    k (last_of prev pre) post caps = Some x.
Proof.
  revert prev. induction s as [|c s IH]; intros prev; simpl.
  - intros H. by exists "", "".
  - destruct (p c) eqn:Hc; [|intros H; by exists "", (String c s)].
    destruct (star p k (Some c) s caps) as [y|] eqn:Hs.
    + intros [= <-]. destruct (IH _ Hs) as (pre & post & -> & Hp & Hk).
      exists (String c pre), post. simpl. by rewrite Hc.
    + intros H. by exists "", (String c s).
Qed.

Lemma upto_sound {R} n p (k : cont (R:=R)) prev s caps x :
  upto n p k prev s caps = Some x ->
  exists pre post,
    s = pre +:+ post /\ all_chars p pre = true /\ String.length pre <= n /\
    k (last_of prev pre) post caps = Some x.
Proof.
  revert prev s. induction n as [|n IH]; intros prev s; simpl.
  - intros H. exists "", s. by destruct s.
  - destruct s as [|c s]; [intros H; by exists "", ""; simpl; repeat split; try lia|].
    destruct (p c) eqn:Hc;
      [|intros H; exists "", (String c s); simpl; repeat split; (done || lia)].
    destruct (upto n p k (Some c) s caps) as [y|] eqn:Hs.
    + intros [= <-]. destruct (IH _ _ Hs) as (pre & post & -> & Hp & Hl & Hk).
      exists (String c pre), post. simpl. rewrite Hc. repeat split; (done || lia).
    + intros H. exists "", (String c s); simpl; repeat split; (done || lia).
Qed.

Lemma run_sound {R} r : forall (k : cont (R:=R)) prev s caps x,
  run r k prev s caps = Some x ->
  exists prev' s' caps',
    matches r prev s caps prev' s' caps' /\ k prev' s' caps' = Some x.
Proof.
  induction r as [|p|l|a IHa b IHb|a IHa b IHb|p|n p|i a IHa| | |];
    intros k prev s caps x; simpl.
  - intros H. eauto 12 using matches.
  - destruct s as [|c s]; [done|]. destruct (p c) eqn:Hc; [|done].
    intros H. eauto 12 using matches.
  - destruct (lit l prev s) as [[prev' s']|] eqn:Hl; [|done].
    apply lit_sound in Hl as [-> ->]. intros H. eauto 12 using matches.
  - intros (prev1 & s1 & caps1 & Ha & Hb)%IHa.
    apply IHb in Hb as (prev2 & s2 & caps2 & Hb & Hk). eauto 12 using matches.
  - destruct (run a k prev s caps) as [y|] eqn:Ha.
    + intros [= <-]. apply IHa in Ha as (? & ? & ? & ? & ?). eauto 12 using matches.
    + intros (? & ? & ? & ? & ?)%IHb. eauto 12 using matches.
  - intros (pre & post & -> & Hp & Hk)%star_sound. eauto 12 using matches.
  - intros (pre & post & -> & Hp & Hl & Hk)%upto_sound. eauto 12 using matches.
  - intros (prev' & s' & caps' & Ha & Hk)%IHa. eauto 12 using matches.
  - destruct prev; [done|]. intros H. eauto 12 using matches.
  - destruct (at_eol s) eqn:E; [|done]. intros H. eauto 12 using matches.
  - destruct (at_word_boundary prev s) eqn:E; [|done]. intros H. eauto 12 using matches.
Qed.

Lemma append_cons c x y : String c x +:+ y = String c (x +:+ y).
Proof. reflexivity. Qed.

Lemma append_nil y : "" +:+ y = y.
Proof. reflexivity. Qed.

Lemma append_length x y : String.length (x +:+ y) = String.length x + String.length y.
Proof.
  induction x as [|c x IH]; [done|].
  rewrite append_cons. simpl. by rewrite IH.
Qed.

Lemma take_append x y : take (String.length (x +:+ y) - String.length y) (x +:+ y) = x.
Proof.
  rewrite append_length. replace (_ + _ - _) with (String.length x) by lia.
  induction x as [|c x IH]; [by destruct y|].
  rewrite append_cons. simpl. by rewrite IH.
Qed.

Lemma search_from_sound r s prev m :
  search_from r prev s = Some m ->
  exists prev0 s0 prev' s', matches r prev0 s0 [] prev' s' m.
Proof.
  revert prev. induction s as [|c s IH]; intros prev; simpl.
  - destruct (match_here r prev "") as [[caps rest]|] eqn:H; [|done].
    intros [= <-]. apply run_sound in H as (prev' & s' & caps' & Hm & [= <- <-]).
    eauto.
  - destruct (match_here r prev (String c s)) as [[caps rest]|] eqn:H.
    + intros [= <-]. apply run_sound in H as (prev' & s' & caps' & Hm & [= <- <-]).
      eauto.
    + apply IH.
Qed.

Lemma is_digit_not_space c : is_digit c = true -> is_space c = false.
Proof.
  unfold is_digit, is_space.
  intros [H1 H2]%andb_true_iff. apply N.leb_le in H1, H2.
  apply orb_false_iff. split; apply andb_false_iff.
  - right. apply N.leb_gt. lia.
  - right. apply N.leb_gt. lia.
Qed.

Lemma last_of_append prev x y : last_of prev (x +:+ y) = last_of (last_of prev x) y.
Proof.
  revert prev. induction x as [|c x IH]; intros prev; [done|].
  rewrite append_cons. simpl. apply IH.
Qed.

Lemma last_of_digits prev y :
  truthy y = true -> all_chars is_digit y = true ->
  exists c, last_of prev y = Some c /\ is_digit c = true.
Proof.
  revert prev. induction y as [|c y IH]; intros prev; simpl; [done|].
  intros _ [Hc Hy]%andb_true_iff. destruct y as [|c' y].
  - by exists c.
  - by apply IH.
Qed.

Lemma rev_onto_head prev s acc c :
  truthy s = true -> last_of prev s = Some c -> exists t, rev_onto s acc = String c t.
Proof.
  revert prev acc. induction s as [|a s IH]; intros prev acc; simpl; [done|].
  intros _. destruct s as [|a' s].
  - simpl. intros [= ->]. by eexists.
  - intros H. by eapply IH.
Qed.

Lemma rev_onto_rev_onto s acc t : rev_onto (rev_onto s acc) t = rev_onto acc (s +:+ t).
Proof.
  revert acc t. induction s as [|c s IH]; intros acc t; [done|].
  rewrite append_cons. simpl. by rewrite IH.
Qed.

Lemma append_empty s : s +:+ "" = s.
Proof. induction s as [|c s IH]; [done|]. rewrite append_cons. by f_equal. Qed.

Lemma rev_rev s : rev (rev s) = s.
Proof. unfold rev. rewrite rev_onto_rev_onto. simpl. apply append_empty. Qed.

(** Text that starts and ends with a digit is not changed by [strip]. *)
Lemma strip_digits c s d :
  is_digit c = true -> last_of None (String c s) = Some d -> is_digit d = true ->
  strip (String c s) = String c s.
Proof.
  intros Hc Hl Hd. unfold strip, rstrip.
  assert (lstrip (String c s) = String c s) as ->.
  { simpl. by rewrite (is_digit_not_space _ Hc). }
  destruct (rev_onto_head None (String c s) "" d eq_refl Hl) as [t Ht].
  fold (rev (String c s)) in Ht.
  assert (lstrip (rev (String c s)) = rev (String c s)) as ->.
  { rewrite Ht. simpl. by rewrite (is_digit_not_space _ Hd). }
  apply rev_rev.
Qed.

Lemma split_dot_digits a b :
  all_chars is_digit a = true -> split_dot (a +:+ "." +:+ b) = (a, Some b).
Proof.
  induction a as [|c a IH]; [done|]. simpl all_chars.
  intros [Hc Ha]%andb_true_iff. rewrite append_cons. simpl. rewrite IH by done.
  destruct (Ascii.eqb c ".") eqn:E; [|done].
  apply Ascii.eqb_eq in E as ->. done.
Qed.

(** [float] reads the digits [a], a point and the digits [b]. *)
Lemma py_float_digits a b :
  isdigit a = true -> truthy b = true -> all_chars is_digit b = true ->
  py_float (a +:+ "." +:+ b) = Some (decimal_val a b).
Proof.
  intros Ha Hb Hdb. destruct a as [|c a]; [done|]. simpl in Ha.
  apply andb_true_iff in Ha as [Hc Ha].
  assert (Hlast : exists d, last_of None (String c a +:+ "." +:+ b) = Some d /\
                            is_digit d = true).
  { rewrite last_of_append, last_of_append. by apply last_of_digits. }
  destruct Hlast as (d & Hl & Hd).
  assert (Hu : unsigned_decimal (String c a +:+ "." +:+ b)
               = Some (decimal_val (String c a) b)).
  { unfold unsigned_decimal. rewrite split_dot_digits by (simpl; by rewrite Hc, Ha).
    unfold all_digits. simpl. by rewrite Hc, Ha, Hdb. }
  unfold py_float. rewrite append_cons in *. rewrite (strip_digits c _ d Hc Hl Hd).
  rewrite <- Hu. clear -Hc.
  destruct c as [[] [] [] [] [] [] [] []]; try done.
Qed.

Lemma take_append_cons c x y :
  take (String.length (String c (x +:+ y)) - String.length y) (String c (x +:+ y))
  = String c x.
Proof. apply (take_append (String c x) y). Qed.

Ltac inv_matches :=
  repeat match goal with
  | H : matches ?r _ _ _ _ _ _ |- _ =>
      lazymatch r with
      | Seq _ _ => idtac
      | Alt _ _ => idtac
      | Grp _ _ => idtac
      | Chr _ => idtac
      | Lit _ => idtac
      | Star _ => idtac
      | Upto _ _ => idtac
      | Eps => idtac
      end;
      inversion H; subst; clear H
  end.

Lemma jumbo_re_price_groups prev s prev' s' m :
  matches JumboScraper.re_price prev s [] prev' s' m ->
  exists g1 g2, m = [(2, g2); (1, g1)] /\
                isdigit g1 = true /\ all_chars is_digit g2 = true.
Proof.
  unfold JumboScraper.re_price, seqs, Rep1, Opt. simpl. intros H.
  inv_matches; rewrite take_append_cons, take_append;
    do 2 eexists; (split; [reflexivity|]); simpl; split; try done;
    by apply andb_true_iff.
Qed.

Lemma jumbo_re_unit_price_groups prev s prev' s' m :
  matches JumboScraper.re_unit_price prev s [] prev' s' m ->
  exists g1 g2 g3, m = [(3, g3); (2, g2); (1, g1)] /\
                   isdigit g1 = true /\ all_chars is_digit g2 = true.
Proof.
  unfold JumboScraper.re_unit_price, seqs, Rep1, Opt. simpl. intros H.
  inv_matches.
  all: repeat match goal with
       | |- context [take (String.length (String ?c (?x +:+ ?y)) - String.length ?y) _] =>
           rewrite (take_append_cons c x y)
       | |- context [take (String.length (?x +:+ ?y) - String.length ?y) _] =>
           rewrite (take_append x y)
       end.
  all: do 3 eexists; (split; [reflexivity|]); simpl; split; try done;
    by apply andb_true_iff.
Qed.

Lemma euros_cents_digits g1 g2 (m : captures) :
  group 1 m = Some g1 -> group 2 m = Some g2 ->
  isdigit g1 = true -> all_chars is_digit g2 = true ->
  exists q, JumboScraper.euros_cents m = Some q.
Proof.
  intros H1 H2 Hd1 Hd2. unfold JumboScraper.euros_cents, grp. rewrite H1, H2. simpl.
  eexists. apply py_float_digits; [done|by destruct g2|by destruct g2].
Qed.

(** The price that the Jumbo pattern finds is always read as a number. *)
Lemma jumbo_price_readable text m :
  search JumboScraper.re_price text = Some m ->
  exists q, JumboScraper.euros_cents m = Some q.
Proof.
  intros (? & ? & ? & ? & H)%search_from_sound.
  apply jumbo_re_price_groups in H as (g1 & g2 & -> & ? & ?).
  by eapply euros_cents_digits.
Qed.

Lemma jumbo_unit_price_readable text m :
  search JumboScraper.re_unit_price text = Some m ->
  exists q, JumboScraper.euros_cents m = Some q.
Proof.
  intros (? & ? & ? & ? & H)%search_from_sound.
  apply jumbo_re_unit_price_groups in H as (g1 & g2 & g3 & -> & ? & ?).
  by eapply euros_cents_digits.
Qed.
End Matching.

(** ** Cards and prices *)

Section Cards.

(** [extract_unit_size] of the Jumbo scraper does not raise: the
    branch that converts text to a float is never taken. *)
Lemma jumbo_extract_unit_size_Ok name :
  exists u, JumboScraper.extract_unit_size name = Ok u.
Proof.
  unfold JumboScraper.extract_unit_size.
  destruct (negb (truthy name)); [by eexists|].
  destruct (endswith _ _); [by eexists|].
  destruct (_ || _); [by eexists|].
  destruct (contains "half" _); [by eexists|].
  unfold JumboScraper.patterns, JumboScraper.try_patterns.
  repeat (destruct (Re.search _ _); [by vm_compute; eexists|]).
  by eexists.
Qed.

Lemma ah_card_kept c p :
  AhScraper.card_product c = Some p ->
  exists i f q,
    AhScraper.price_amount c = Some (Some i, Some f) /\
    py_float (i +:+ "." +:+ f) = Some q /\
    price p = Has (PFloat q).
Proof.
  unfold AhScraper.card_product.
  destruct (AhScraper.title c) as [name|]; [|done].
  destruct (AhScraper.price_amount c) as [[[i|] [f|]]|]; try done. simpl.
  destruct (py_float (i +:+ "." +:+ f)) as [q|] eqn:Hq; [|done]. simpl.
  destruct (AhScraper.image_src c) as [image|]; [|done]. simpl.
  destruct (negb (truthy image)); [done|].
  destruct (AhScraper.link_href c) as [link|]; [|done]. simpl.
  intros [= <-]. by exists i, f, q.
Qed.

Lemma ah_card_left_out c :
  AhScraper.card_product c = None <->
  AhScraper.title c = None \/
  (forall i f, AhScraper.price_amount c = Some (Some i, Some f) ->
               py_float (i +:+ "." +:+ f) = None) \/
  AhScraper.image_src c = None \/
  AhScraper.image_src c = Some "" \/
  AhScraper.link_href c = None.
Proof.
  unfold AhScraper.card_product.
  destruct (AhScraper.title c) as [name|]; [|by split; [left|]].
  destruct (AhScraper.price_amount c) as [[[i|] [f|]]|]; simpl;
    try (split; [by intros _; right; left|done]).
  destruct (py_float (i +:+ "." +:+ f)) as [q|] eqn:Hq; simpl;
    [|split; [intros _; right; left; by intros ? ? [= <- <-]|done]].
  destruct (AhScraper.image_src c) as [[|a image]|]; simpl;
    [by split; [do 3 right; left|]| |by split; [do 2 right; left|]].
  destruct (AhScraper.link_href c) as [link|]; simpl; [|by split; [do 4 right|]].
  split; [done|].
  intros [?|[H|[?|[?|?]]]]; try done.
  specialize (H i f eq_refl). congruence.
Qed.

Lemma jumbo_product_kept r p :
  JumboScraper.format_product r = Some p ->
  exists text m q,
    JumboScraper.raw_price r = Some text /\
    Re.search JumboScraper.re_price text = Some m /\
    JumboScraper.euros_cents m = Some q /\
    price p = Has (PFloat q).
Proof.
  unfold JumboScraper.format_product. intros H.
  destruct (JumboScraper.raw_price r) as [text|]; simpl in H; [|done].
  destruct (Re.search _ text) as [m|] eqn:Hm; simpl in H; [|done].
  destruct (JumboScraper.euros_cents m) as [q|] eqn:Hq; simpl in H; [|done].
  exists text, m, q. split; [done|]. split; [done|]. split; [done|].
  repeat match type of H with
         | context [mbind _ ?o] => destruct o; simpl in H; [|done]
         end.
  by simplify_eq.
Qed.

Lemma jumbo_product_left_out r :
  JumboScraper.format_product r = None <->
  (forall text, JumboScraper.raw_price r = Some text ->
                Re.search JumboScraper.re_price text = None) \/
  JumboScraper.raw_name r = None \/
  JumboScraper.raw_image r = None \/
  JumboScraper.raw_link r = None.
Proof.
  unfold JumboScraper.format_product.
  destruct (JumboScraper.raw_price r) as [text|]; simpl; [|by split; [left|]].
  destruct (Re.search JumboScraper.re_price text) as [m|] eqn:Hm; simpl;
    [|split; [intros _; left; by intros ? [= <-]|done]].
  destruct (jumbo_price_readable _ _ Hm) as [q ->]. simpl.
  set (unit_price := default "" (JumboScraper.raw_unit_price r)).
  assert (Hpu : exists pu,
    (match (if truthy unit_price
            then Re.search JumboScraper.re_unit_price unit_price else None) with
     | Some m => v ← JumboScraper.euros_cents m; Some (Some v, Some (Re.grp 3 m))
     | None => Some (None, None)
     end) = Some pu).
  { destruct (truthy unit_price); [|by eexists].
    destruct (Re.search JumboScraper.re_unit_price unit_price) as [um|] eqn:Hum;
      [|by eexists].
    destruct (jumbo_unit_price_readable _ _ Hum) as [v ->]. by eexists. }
  destruct Hpu as [pu ->]. simpl.
  destruct (JumboScraper.raw_name r) as [name|]; simpl; [|by split; [right; left|]].
  destruct (jumbo_extract_unit_size_Ok name) as [u ->].
  assert (Hus : exists us,
    (if truthy (default "" (JumboScraper.raw_unit_size r))
     then Some (default "" (JumboScraper.raw_unit_size r)) else Some u) = Some us).
  { destruct (truthy _); by eexists. }
  destruct Hus as [us ->]. simpl.
  destruct (JumboScraper.raw_image r) as [image|]; simpl;
    [|by split; [do 2 right; left|]].
  destruct (JumboScraper.raw_link r) as [link|]; simpl;
    [|by split; [do 3 right|]].
  split; [done|].
  intros [H|[?|[?|?]]]; try done.
  specialize (H text eq_refl). congruence.
Qed.

Lemma plus_clean_product_price r c :
  PlusScraper.clean_product r = Ok c ->
  price c = if qlt 0 (plus_parsed_price r)
            then Has (PFloat (plus_parsed_price r))
            else PlusScraper.raw_price r.
Proof.
  unfold PlusScraper.clean_product, plus_parsed_price.
  unfold mbind, res_mbind, res_bind.
  repeat (case_match; try done). all: by intros [= <-].
Qed.

Lemma plus_clean_products_prices raws cleaned :
  PlusScraper.clean_products raws = Ok cleaned ->
  Forall2 (fun r c =>
             price c = if qlt 0 (plus_parsed_price r)
                       then Has (PFloat (plus_parsed_price r))
                       else PlusScraper.raw_price r)
          raws cleaned.
Proof.
  revert cleaned. induction raws as [|r raws IH]; intros cleaned; simpl.
  - intros [= <-]. constructor.
  - destruct (PlusScraper.clean_product r) as [c|] eqn:Hc; [|done]. simpl.
    destruct (PlusScraper.clean_products raws) as [cs|]; [|done]. simpl.
    intros [= <-]. constructor; [by apply plus_clean_product_price|by apply IH].
Qed.

Lemma plus_missing_price_is_zero r :
  PlusScraper.raw_price_integer r = Absent ->
  PlusScraper.raw_price_decimal r = Absent ->
  plus_parsed_price r = 0%Q.
Proof. unfold plus_parsed_price. by intros -> ->. Qed.

(** The price of a card of the Plus page goes into the values that the
    loop computes, never into the decision whether it raises. *)
Lemma plus_calculate_shape price price' u :
  outcome_shape (PlusScraper.calculate_price_per_unit price u) =
  outcome_shape (PlusScraper.calculate_price_per_unit price' u).
Proof.
  unfold PlusScraper.calculate_price_per_unit.
  destruct u as [u|]; [|done]. destruct (negb (truthy u)); [done|]. cbv zeta.
  unfold PlusScraper.per_piece, PlusScraper.per_gram, PlusScraper.per_kg,
    or_raise, mbind, res_mbind, res_bind.
  repeat case_match; simplify_eq; done.
Qed.

Lemma plus_unit_price_fields_shape price price' u :
  outcome_shape (PlusScraper.unit_price_fields price u) =
  outcome_shape (PlusScraper.unit_price_fields price' u).
Proof.
  unfold PlusScraper.unit_price_fields, mbind, res_mbind, res_bind.
  destruct (if contains "g" u then _ else _) as [grams|x]; [|done].
  destruct (qlt 0 grams); [|done].
  pose proof (plus_calculate_shape price price' (Some u)) as H.
  destruct (PlusScraper.calculate_price_per_unit price (Some u)) as [[?|]|?],
           (PlusScraper.calculate_price_per_unit price' (Some u)) as [[?|]|?];
    simpl in *; by simplify_eq.
Qed.

Lemma plus_clean_product_raises r r' x :
  PlusScraper.raw_name r = PlusScraper.raw_name r' ->
  PlusScraper.raw_image r = PlusScraper.raw_image r' ->
  PlusScraper.raw_unit_size r = PlusScraper.raw_unit_size r' ->
  PlusScraper.clean_product r = Raise x <-> PlusScraper.clean_product r' = Raise x.
Proof.
  intros Hn Hi Hu. unfold PlusScraper.clean_product. rewrite Hn, Hi, Hu.
  set (p := PlusScraper.parse_price _ _). set (p' := PlusScraper.parse_price _ _).
  set (u := default "" (PlusScraper.get_or_empty (PlusScraper.raw_unit_size r'))).
  unfold mbind, res_mbind, res_bind.
  assert (Hshape : outcome_shape
                     (if truthy u then PlusScraper.unit_price_fields p u else Ok None) =
                   outcome_shape
                     (if truthy u then PlusScraper.unit_price_fields p' u else Ok None)).
  { destruct (truthy u); [apply plus_unit_price_fields_shape|done]. }
  destruct (if truthy u then PlusScraper.unit_price_fields p u else Ok None) as [[?|]|?],
           (if truthy u then PlusScraper.unit_price_fields p' u else Ok None) as [[?|]|?];
    simpl in Hshape; simplify_eq; try done.
  all: destruct (if truthy _ then Re.search PlusScraper.re_product_id _ else None);
    try done.
  all: by destruct (PlusScraper.get_or_empty (PlusScraper.raw_name r')).
Qed.

Lemma plus_clean_products_Ok raws :
  (exists cleaned, PlusScraper.clean_products raws = Ok cleaned) <->
  Forall (fun r => exists c, PlusScraper.clean_product r = Ok c) raws.
Proof.
  induction raws as [|r raws IH]; simpl.
  - split; [constructor|by eexists].
  - unfold mbind, res_mbind, res_bind. split.
    + intros [cleaned H].
      destruct (PlusScraper.clean_product r) as [c|] eqn:Hc; [|done].
      destruct (PlusScraper.clean_products raws) as [cs|] eqn:Hcs; [|done].
      constructor; [by eexists|]. apply IH. by eexists.
    + intros H. apply Forall_cons in H as [[c Hc] [cs Hcs]%IH].
      rewrite Hc, Hcs. by eexists.
Qed.

Lemma plus_page_call e term fs raws :
  (forall c cached, Cache.cached_products "plus" term e fs <> Some (c :: cached)) ->
  (forall cleaned,
     PlusScraper.clean_products raws = Ok cleaned ->
     (PlusScraper.scrape_plus_products e (Ok (Items raws)) term fs).1 = Ok cleaned) /\
  (forall x,
     PlusScraper.clean_products raws = Raise x ->
     PlusScraper.scrape_plus_products e (Ok (Items raws)) term fs = (Ok [], fs)).
Proof.
  intros Hc. unfold PlusScraper.scrape_plus_products, PlusScraper.scrape_try.
  unfold mbind, res_mbind, res_bind.
  split.
  - intros cleaned Hl.
    destruct (Cache.cached_products "plus" term e fs) as [[|c cached]|];
      [|by destruct (Hc c cached)|].
    all: destruct raws as [|r raws]; [by simplify_eq/=|by rewrite Hl].
  - intros x Hx.
    destruct (Cache.cached_products "plus" term e fs) as [[|c cached]|];
      [|by destruct (Hc c cached)|].
    all: destruct raws as [|r raws]; [done|by rewrite Hx].
Qed.
End Cards.

(** C9 as the code has it.  The AH and the Jumbo extractor leave out a
    card exactly when a required part is missing: for AH the title, a
    price text that reads as a number, the image or the link; for Jumbo a
    price text in which the price pattern is found, the name, the image or
    the link.  A card they keep has the number read from its price text
    as price, whatever the number is, zero and negative numbers included.
    The Plus extractor leaves out no single card.  Its loop finishes
    exactly when no card raises, and then every card is kept; the price is
    set only when the parsed price is positive, and a card without price
    texts is parsed to the price zero, so that a zero price and a missing
    price are treated alike.  When a card makes the loop raise, the
    scraper returns the empty list and writes nothing; whether a card
    raises does not depend on its price texts. *)
Theorem C9_cards_with_zero_price :
  (forall c,
     AhScraper.card_product c = None <->
     AhScraper.title c = None \/
     (forall i f, AhScraper.price_amount c = Some (Some i, Some f) ->
                  py_float (i +:+ "." +:+ f) = None) \/
     AhScraper.image_src c = None \/
     AhScraper.image_src c = Some "" \/
     AhScraper.link_href c = None) /\
  (forall c p,
     AhScraper.card_product c = Some p ->
     exists i f q,
       AhScraper.price_amount c = Some (Some i, Some f) /\
       py_float (i +:+ "." +:+ f) = Some q /\
       price p = Has (PFloat q)) /\
  (forall r,
     JumboScraper.format_product r = None <->
     (forall text, JumboScraper.raw_price r = Some text ->
                   Re.search JumboScraper.re_price text = None) \/
     JumboScraper.raw_name r = None \/
     JumboScraper.raw_image r = None \/
     JumboScraper.raw_link r = None) /\
  (forall r p,
     JumboScraper.format_product r = Some p ->
     exists text m q,
       JumboScraper.raw_price r = Some text /\
       Re.search JumboScraper.re_price text = Some m /\
       JumboScraper.euros_cents m = Some q /\
       price p = Has (PFloat q)) /\
  (forall raws,
     (exists cleaned, PlusScraper.clean_products raws = Ok cleaned) <->
     Forall (fun r => exists c, PlusScraper.clean_product r = Ok c) raws) /\
  (forall raws cleaned,
     PlusScraper.clean_products raws = Ok cleaned ->
     length cleaned = length raws /\
     Forall2 (fun r c =>
                price c = if qlt 0 (plus_parsed_price r)
                          then Has (PFloat (plus_parsed_price r))
                          else PlusScraper.raw_price r)
             raws cleaned) /\
  (forall e term fs raws,
     (forall c cached, Cache.cached_products "plus" term e fs <> Some (c :: cached)) ->
     (forall cleaned,
        PlusScraper.clean_products raws = Ok cleaned ->
        (PlusScraper.scrape_plus_products e (Ok (Items raws)) term fs).1 = Ok cleaned) /\
     (forall x,
        PlusScraper.clean_products raws = Raise x ->
        PlusScraper.scrape_plus_products e (Ok (Items raws)) term fs = (Ok [], fs))) /\
  (forall r r' x,
     PlusScraper.raw_name r = PlusScraper.raw_name r' ->
     PlusScraper.raw_image r = PlusScraper.raw_image r' ->
     PlusScraper.raw_unit_size r = PlusScraper.raw_unit_size r' ->
     PlusScraper.clean_product r = Raise x <-> PlusScraper.clean_product r' = Raise x) /\
  (forall r,
     PlusScraper.raw_price_integer r = Absent ->
     PlusScraper.raw_price_decimal r = Absent ->
     plus_parsed_price r = 0%Q).
Proof.
  split; [exact ah_card_left_out|].
  split; [exact ah_card_kept|].
  split; [exact jumbo_product_left_out|].
  split; [exact jumbo_product_kept|].
  split; [exact plus_clean_products_Ok|].
  split; [|split; [exact plus_page_call|
           split; [exact plus_clean_product_raises|exact plus_missing_price_is_zero]]].
  intros raws cleaned H. split.
  - by apply clean_products_length.
  - by apply plus_clean_products_prices.
Qed.

Lemma C9_cards_with_zero_price_witness :
  AhScraper.card_product ah_card_no_price = None /\
  (exists p, AhScraper.card_product ah_free_card = Some p /\ price p = Has (PFloat 0)) /\
  JumboScraper.format_product jumbo_product_no_price = None /\
  (exists p, JumboScraper.format_product jumbo_free_product = Some p /\
             price p = Has (PFloat 0)) /\
  plus_parsed_price plus_product_no_price = 0%Q /\
  (exists c1 c2,
     (PlusScraper.scrape_plus_products example_env
        (Ok (Items [plus_free_product; plus_product_no_price])) "kaas" ∅).1
     = Ok [c1; c2] /\ price c1 = Absent /\ price c2 = Absent) /\
  PlusScraper.scrape_plus_products example_env
    (Ok (Items [plus_free_product; plus_gram_product])) "kaas" ∅ = (Ok [], ∅) /\
  PlusScraper.clean_product plus_gram_product_no_price = Raise TypeError.
Proof.
  pose proof C9_cards_with_zero_price
    as (Ha0 & Ha1 & Hj0 & Hj1 & _ & _ & Hcall & Halike & Hp).
  split; [|split; [|split; [|split; [|split; [|split; [|split]]]]]].
  - apply Ha0. right. left. intros i f H. discriminate H.
  - destruct (Ha1 ah_free_card _ eq_refl) as (i & f & q & Hif & Hq & Hprice).
    eexists. split; [reflexivity|]. injection Hif as <- <-.
    vm_compute in Hq. injection Hq as <-. exact Hprice.
  - apply Hj0. left. intros text H. injection H as <-. reflexivity.
  - destruct (Hj1 jumbo_free_product _ eq_refl) as (text & m & q & Ht & Hm & Hq & Hprice).
    eexists. split; [reflexivity|]. injection Ht as <-.
    vm_compute in Hm. injection Hm as <-. vm_compute in Hq. injection Hq as <-.
    exact Hprice.
  - by apply Hp.
  - destruct (Hcall example_env "kaas" ∅ [plus_free_product; plus_product_no_price])
      as [Hok _]; [discriminate|].
    eexists _, _. split; [apply Hok; reflexivity|]. split; reflexivity.
  - destruct (Hcall example_env "kaas" ∅ [plus_free_product; plus_gram_product])
      as [_ Hraise]; [discriminate|].
    apply (Hraise TypeError). reflexivity.
  - apply (Halike plus_gram_product plus_gram_product_no_price TypeError);
      reflexivity.
Defined.

(** C9 as stated fails: each extractor keeps the card with the price
    0.00.  The AH and the Jumbo extractor leave out the card without a
    price; the Plus extractor keeps that one as well. *)
Lemma C9_counterexample :
  (exists p, AhScraper.card_product ah_free_card = Some p /\ price p = Has (PFloat 0)) /\
  AhScraper.card_product ah_card_no_price = None /\
  (exists p, JumboScraper.format_product jumbo_free_product = Some p /\
             price p = Has (PFloat 0)) /\
  JumboScraper.format_product jumbo_product_no_price = None /\
  (exists c1 c2,
     PlusScraper.clean_products [plus_free_product; plus_product_no_price]
       = Ok [c1; c2] /\
     price c1 = Absent /\ price c2 = Absent).
Proof.
  split; [by eexists|]. split; [done|]. split; [by eexists|]. split; [done|].
  by do 2 eexists.
Qed.

(** ** Examples of the helpers *)

Example lower_example : lower "Per 500 G" = "per 500 g".
Proof. reflexivity. Qed.

Example strip_example : strip "  2 stuk " = "2 stuk".
Proof. reflexivity. Qed.

Example replace_example : replace "," "." (replace "€" "" "€3,50") = "3.50".
Proof. reflexivity. Qed.

Example py_float_example :
  py_float "3.50" = Some (7 # 2)%Q /\ py_float "5 00" = None /\
  py_float "0.00" = Some 0%Q /\ py_float "-1.5" = Some (-3 # 2)%Q.
Proof. by vm_compute. Qed.

Example str_of_float_example :
  str_of_float 400 = "400.0" /\ str_of_float (12345 # 10) = "1234.5".
Proof. by vm_compute. Qed.

Example search_example :
  Re.search App.re_kilo "ca. 1,5 kilo" = Some [(1, "1,5")] /\
  Re.search JumboScraper.re_unit_price "€ 2,19 per stuk"
    = Some [(3, "stuk"); (2, "19"); (1, "2")] /\
  Re.search AhScraper.re_unit "6 stuks" = None.
Proof. by vm_compute. Qed.

(** The rounding shows where a float is cut down to an integer: 2.01 is
    a double below 2.01, and so is its product with 1000 below 2010. *)
Example kilos_to_grams_example :
  PlusScraper.kilos_to_grams "2.01" = Ok "2009g" /\
  PlusScraper.kilos_to_grams "0.4" = Ok "400g" /\
  PlusScraper.extract_unit_size "Per 2,01 kg" = Ok "2009g" /\
  to_double (1 # 10) = (3602879701896397 # 36028797018963968)%Q.
Proof. by vm_compute. Qed.

Example parse_price_example :
  PlusScraper.parse_price (Some "3") (Some "49") = (349 # 100)%Q /\
  PlusScraper.parse_price (Some "1.5") (Some "00") = 0%Q /\
  PlusScraper.parse_price None (Some "00") = 0%Q.
Proof. by vm_compute. Qed.

(** The end-to-end example: the kilogram of Gouda for 3.00 comes before
    the 500 g for 3.50. *)
Example search_products_example :
  App.search_products "price_per_unit"
    [App.SrcList [gouda_jumbo]; App.SrcList [gouda_plus]] =
  App.RespProducts
    [App.set_price_per_unit gouda_plus; App.set_price_per_unit gouda_jumbo] 2 None /\
  price_per_unit (App.set_price_per_unit gouda_plus) = Some (Fin 3) /\
  price_per_unit (App.set_price_per_unit gouda_jumbo) = Some (Fin 7).
Proof. by vm_compute. Qed.

(** * Further properties *)

(** ** Cache file names and entries *)

Section CacheFiles.
Import Cache.

Lemma prefix_one_char c d s : String.prefix (String c "") (String d s) = Ascii.eqb c d.
Proof.
  simpl. destruct (ascii_dec c d) as [->|Hne].
  - rewrite Ascii.eqb_refl. by destruct s.
  - symmetry. by apply Ascii.eqb_neq.
Qed.

(** Replacing one character by another goes through the text character
    by character. *)
Lemma replace_space_lower s : replace " " "_" (lower s) = slug s.
Proof.
  unfold replace. induction s as [|c s IH]; [done|].
  cbn [lower replace_from slug]. rewrite prefix_one_char.
  unfold slug_char. rewrite (Ascii.eqb_sym " " (lower_char c)).
  destruct (Ascii.eqb (lower_char c) " "); simpl; by rewrite <- IH.
Qed.

Lemma get_cache_file_slug prefix term :
  get_cache_file prefix term = prefix +:+ "_" +:+ slug term +:+ "_cache.json".
Proof. unfold get_cache_file. by rewrite replace_space_lower. Qed.

Lemma append_inv_head x y z : x +:+ y = x +:+ z -> y = z.
Proof.
  induction x as [|c x IH]; [done|]. rewrite !append_cons. intros [= H]. by apply IH.
Qed.

Lemma append_inv_tail x y z :
  String.length x = String.length y -> x +:+ z = y +:+ z -> x = y.
Proof.
  revert y. induction x as [|c x IH]; intros [|d y]; try done.
  simpl String.length. rewrite !append_cons. intros [= Hl] [= -> H].
  f_equal. by apply IH.
Qed.

Lemma slug_length s : String.length (slug s) = String.length s.
Proof. induction s as [|c s IH]; simpl; [done|]. by rewrite IH. Qed.

Lemma get_cache_file_inj prefix t t' :
  get_cache_file prefix t = get_cache_file prefix t' <-> slug t = slug t'.
Proof.
  rewrite !get_cache_file_slug. split; [|by intros ->].
  intros H%append_inv_head%append_inv_head.
  apply append_inv_tail in H; [done|].
  apply (f_equal String.length) in H. rewrite !append_length in H. lia.
Qed.

Lemma lower_char_idem c : lower_char (lower_char c) = lower_char c.
Proof. by destruct c as [[] [] [] [] [] [] [] []]. Qed.

Lemma slug_lower s : slug (lower s) = slug s.
Proof.
  induction s as [|c s IH]; simpl; [done|].
  unfold slug_char at 1. by rewrite lower_char_idem, IH.
Qed.

Lemma slug_char_idem c : slug_char (slug_char c) = slug_char c.
Proof. by destruct c as [[] [] [] [] [] [] [] []]. Qed.

Lemma slug_idem s : slug (slug s) = slug s.
Proof. induction s as [|c s IH]; simpl; [done|]. by rewrite slug_char_idem, IH. Qed.

(** A slash of the search term stands in the file name. *)
Lemma any_char_append p x y : any_char p (x +:+ y) = any_char p x || any_char p y.
Proof.
  induction x as [|c x IH]; [done|].
  rewrite append_cons. simpl. by rewrite IH, orb_assoc.
Qed.

Lemma contains_one_char c s :
  contains (String c "") s = any_char (Ascii.eqb c) s.
Proof.
  induction s as [|d s IH]; [done|].
  cbn [contains any_char]. by rewrite prefix_one_char, IH.
Qed.

Lemma slug_keeps_slash s :
  any_char (Ascii.eqb "/") s = true -> any_char (Ascii.eqb "/") (slug s) = true.
Proof.
  induction s as [|c s IH]; [done|]. cbn [any_char slug].
  intros [Hc|Hs]%orb_true_iff; apply orb_true_iff; [left|right; by apply IH].
  apply Ascii.eqb_eq in Hc as <-. reflexivity.
Qed.

Lemma any_char_weaken (p q : ascii -> bool) s :
  (forall c, p c = true -> q c = true) -> any_char p s = true -> any_char q s = true.
Proof.
  intros Hpq. induction s as [|c s IH]; [done|]. simpl.
  intros [Hc|Hs]%orb_true_iff; apply orb_true_iff; [left; by apply Hpq|right; by apply IH].
Qed.

Lemma slash_not_valid prefix t :
  contains "/" t = true -> valid_file_name (get_cache_file prefix t) = false.
Proof.
  rewrite contains_one_char. intros Ht%slug_keeps_slash.
  unfold valid_file_name. apply andb_false_iff. left. apply negb_false_iff.
  rewrite get_cache_file_slug, !any_char_append.
  apply orb_true_iff. right. apply orb_true_iff. right. apply orb_true_iff. left.
  eapply any_char_weaken; [|exact Ht].
  intros c Hc. rewrite Ascii.eqb_sym in Hc. by rewrite Hc.
Qed.

Lemma slug_replace_space s : slug (replace " " "_" s) = slug s.
Proof.
  unfold replace. induction s as [|c s IH]; [done|].
  cbn [replace_from]. rewrite prefix_one_char.
  destruct (Ascii.eqb " " c) eqn:E.
  - apply Ascii.eqb_eq in E as <-.
    change (String.length " " - 1) with 0.
    rewrite append_cons, append_nil. simpl. by rewrite IH.
  - simpl. by rewrite IH.
Qed.
End CacheFiles.

(** X1. Search terms that are equal up to the case of the ASCII letters
    and up to spaces written as underscores share a cache file of a
    scraper; for terms of ASCII characters these are the only terms that
    share one.  When the file of a term can be written, the products saved
    under the term are loaded under every term that shares the file; when
    it cannot (a term with a slash, for one), saving changes nothing and
    nothing is loaded.  Saving under a term leaves what is loaded under an
    ASCII term with another file as it was.  In particular a term, its
    lower-case form and its form with underscores for spaces share one
    entry. *)
Theorem X1_cache_entry_shared_by_slug
    (prefix : string) (t : string) (products : list product) (time : Z)
    (fs : gmap string Cache.cache_file) :
  (forall t',
     slug t = slug t' ->
     Cache.get_cache_file prefix t = Cache.get_cache_file prefix t') /\
  (forall t',
     is_ascii t = true -> is_ascii t' = true ->
     Cache.get_cache_file prefix t = Cache.get_cache_file prefix t' ->
     slug t = slug t') /\
  (forall t',
     slug t = slug t' ->
     Cache.writable (Cache.get_cache_file prefix t) fs = true ->
     Cache.load_from_cache prefix t' (Cache.save_to_cache prefix t products time fs)
     = Some products) /\
  (Cache.writable (Cache.get_cache_file prefix t) fs = false ->
   Cache.save_to_cache prefix t products time fs = fs /\
   forall t',
     slug t = slug t' ->
     Cache.load_from_cache prefix t' (Cache.save_to_cache prefix t products time fs)
     = None) /\
  (forall t',
     is_ascii t = true -> is_ascii t' = true ->
     slug t <> slug t' ->
     Cache.load_from_cache prefix t' (Cache.save_to_cache prefix t products time fs)
     = Cache.load_from_cache prefix t' fs) /\
  (contains "/" t = true ->
   fs !! Cache.get_cache_file prefix t = None ->
   Cache.writable (Cache.get_cache_file prefix t) fs = false) /\
  slug (lower t) = slug t /\
  slug (replace " " "_" t) = slug t.
Proof.
  split; [intros t' H; by apply get_cache_file_inj|].
  split; [intros t' _ _ H; by apply (get_cache_file_inj prefix)|].
  split; [|split; [|split; [|split;
    [|split; [apply slug_lower|apply slug_replace_space]]]]].
  - intros t' H Hw. apply (get_cache_file_inj prefix) in H.
    unfold Cache.load_from_cache. by rewrite <- H, save_to_cache_lookup.
  - intros Hw. split; [by apply save_to_cache_failed|].
    intros t' H. apply (get_cache_file_inj prefix) in H.
    unfold Cache.load_from_cache.
    by rewrite <- H, save_to_cache_failed, writable_absent.
  - intros t' _ _ H. unfold Cache.load_from_cache.
    rewrite save_to_cache_other; [done|]. by intros ?%get_cache_file_inj.
  - intros Ht Hfs. unfold Cache.writable. rewrite Hfs.
    by apply slash_not_valid.
Qed.

Lemma X1_cache_entry_shared_by_slug_witness :
  Cache.load_from_cache "ah" "Jonge Kaas"
    (Cache.save_to_cache "ah" "jonge_kaas" ah_example_products 0 ∅)
  = Some ah_example_products /\
  Cache.save_to_cache "ah" "kaas/ham" ah_example_products 0 ∅ = ∅.
Proof.
  pose proof (X1_cache_entry_shared_by_slug "ah" "jonge_kaas" ah_example_products 0 ∅)
    as (_ & _ & H & _).
  pose proof (X1_cache_entry_shared_by_slug "ah" "kaas/ham" ah_example_products 0 ∅)
    as (_ & _ & _ & H' & _).
  split; [by apply H|by apply H'].
Defined.

Section CacheFrame.
Import Cache.

Lemma scrape_ah_frame e fetch term fs file :
  file <> get_cache_file "ah" term ->
  (AhScraper.scrape_ah_products e fetch term fs).2 !! file = fs !! file.
Proof.
  intros Hf. destruct (scrape_ah_outcome e fetch term fs); try done.
  by apply save_to_cache_other.
Qed.

Lemma scrape_jumbo_frame e crawl term fs file :
  file <> get_cache_file "jumbo" term ->
  (JumboScraper.scrape_jumbo_products e crawl term fs).2 !! file = fs !! file.
Proof.
  intros Hf. destruct (scrape_jumbo_outcome e crawl term fs); try done.
  by apply save_to_cache_other.
Qed.

Lemma scrape_plus_frame e crawl term fs file :
  file <> get_cache_file "plus" term ->
  (PlusScraper.scrape_plus_products e crawl term fs).2 !! file = fs !! file.
Proof.
  intros Hf. destruct (scrape_plus_outcome e crawl term fs) as (l & _ & [->|[_ ->]]);
    [done|by apply save_to_cache_other].
Qed.

Lemma get_cache_file_store s s' t t' :
  s <> s' -> get_cache_file (store_str s) t <> get_cache_file (store_str s') t'.
Proof.
  intros Hs. unfold get_cache_file.
  destruct s, s'; try done; simpl; rewrite !append_cons; by intros [=].
Qed.

Lemma cached_products_frame prefix term e fs fs' :
  fs' !! get_cache_file prefix term = fs !! get_cache_file prefix term ->
  cached_products prefix term e fs' = cached_products prefix term e fs.
Proof. intros H. unfold cached_products, load_from_cache. by rewrite H. Qed.
End CacheFrame.

(** X2. A call of a scraper changes at most its own cache file of the
    search term: every other file of the cache directory is after the call
    what it was before.  The file names of two different stores never
    coincide, so that a call of one scraper leaves what the two other
    scrapers find in the cache, for every search term and at every time,
    as it was. *)
Theorem X2_scrape_writes_only_its_file
    (e : Cache.env) (term : string) (fs : gmap string Cache.cache_file) :
  (forall fetch file,
     file <> Cache.get_cache_file "ah" term ->
     (AhScraper.scrape_ah_products e fetch term fs).2 !! file = fs !! file) /\
  (forall crawl file,
     file <> Cache.get_cache_file "jumbo" term ->
     (JumboScraper.scrape_jumbo_products e crawl term fs).2 !! file = fs !! file) /\
  (forall crawl file,
     file <> Cache.get_cache_file "plus" term ->
     (PlusScraper.scrape_plus_products e crawl term fs).2 !! file = fs !! file) /\
  (forall s s' t t',
     s <> s' ->
     Cache.get_cache_file (store_str s) t <> Cache.get_cache_file (store_str s') t') /\
  (forall fetch s t' e',
     s <> AH ->
     Cache.cached_products (store_str s) t' e'
       (AhScraper.scrape_ah_products e fetch term fs).2
     = Cache.cached_products (store_str s) t' e' fs) /\
  (forall crawl s t' e',
     s <> Jumbo ->
     Cache.cached_products (store_str s) t' e'
       (JumboScraper.scrape_jumbo_products e crawl term fs).2
     = Cache.cached_products (store_str s) t' e' fs) /\
  (forall crawl s t' e',
     s <> Plus ->
     Cache.cached_products (store_str s) t' e'
       (PlusScraper.scrape_plus_products e crawl term fs).2
     = Cache.cached_products (store_str s) t' e' fs).
Proof.
  split; [intros; by apply scrape_ah_frame|].
  split; [intros; by apply scrape_jumbo_frame|].
  split; [intros; by apply scrape_plus_frame|].
  split; [intros; by apply get_cache_file_store|].
  split; [|split].
  - intros fetch s t' e' Hs. apply cached_products_frame, scrape_ah_frame.
    by apply (get_cache_file_store s AH).
  - intros crawl s t' e' Hs. apply cached_products_frame, scrape_jumbo_frame.
    by apply (get_cache_file_store s Jumbo).
  - intros crawl s t' e' Hs. apply cached_products_frame, scrape_plus_frame.
    by apply (get_cache_file_store s Plus).
Qed.

Lemma X2_scrape_writes_only_its_file_witness :
  Cache.cached_products "jumbo" "kaas" example_env
    (AhScraper.scrape_ah_products example_env (Ok ah_example_cards) "kaas" ∅).2
  = Cache.cached_products "jumbo" "kaas" example_env ∅.
Proof.
  pose proof (X2_scrape_writes_only_its_file example_env "kaas" ∅)
    as (_ & _ & _ & _ & H & _).
  by apply (H (Ok ah_example_cards) Jumbo).
Defined.

(** ** Price-sorted lists in the cache *)

Section CacheSorted.
Import Cache.

Lemma ah_any_call e fetch term fs l fs' :
  store_cache_price_sorted "ah" fs ->
  AhScraper.scrape_ah_products e fetch term fs = (Ok l, fs') ->
  price_sorted l /\ store_cache_price_sorted "ah" fs'.
Proof.
  intros Hfs Heq. pose proof (scrape_ah_outcome e fetch term fs) as H.
  rewrite Heq in H. simpl in H.
  inversion H as [cached Hc'|x|cards ? ? Hnil|cards l' ? ? Hne Hp Hs];
    simplify_eq.
  - split; [|done]. apply cached_products_Some in Hc' as [ts Hts].
    by eapply Hfs.
  - split; [|done]. exists []. split; constructor.
  - split; [done|]. by apply save_keeps_price_sorted.
Qed.

Lemma jumbo_any_call e crawl term fs l fs' :
  store_cache_price_sorted "jumbo" fs ->
  JumboScraper.scrape_jumbo_products e crawl term fs = (Ok l, fs') ->
  price_sorted l /\ store_cache_price_sorted "jumbo" fs'.
Proof.
  intros Hfs Heq. pose proof (scrape_jumbo_outcome e crawl term fs) as H.
  rewrite Heq in H. simpl in H.
  inversion H as [cached Hc'|x| | |raws ? ? Hnil|raws l' ? ? Hne Hp Hs];
    simplify_eq.
  - split; [|done]. apply cached_products_Some in Hc' as [ts Hts].
    by eapply Hfs.
  - split; [|done]. exists []. split; constructor.
  - split; [|done]. exists []. split; constructor.
  - split; [done|]. by apply save_keeps_price_sorted.
Qed.

(** A call that changes at most a file of another store keeps the lists
    of a store sorted. *)
Lemma store_cache_price_sorted_frame s s' t fs fs' :
  s <> s' ->
  (forall file, file <> get_cache_file (store_str s') t -> fs' !! file = fs !! file) ->
  store_cache_price_sorted (store_str s) fs ->
  store_cache_price_sorted (store_str s) fs'.
Proof.
  intros Hs Hframe Hfs term ts ps. rewrite Hframe; [apply Hfs|].
  by apply get_cache_file_store.
Qed.
End CacheSorted.

(** C10. A scrape of the AH or of the Jumbo scraper that does not answer
    from the cache returns, for every page, a list: the products that the
    loop kept, rearranged so that the float prices do not decrease.  When
    the list is not empty it is the list handed to [save_to_cache]: if the
    cache file of the term can be written, the file then holds that list
    and loads as it, and if it cannot (a term with a slash, for one), the
    cache is left as it was.  A later call that finds the entry fresh
    returns the same list.  With a cache directory in which the lists of
    the store are price-sorted, every call of the scraper returns a
    price-sorted list and keeps the lists of the store so, and so does
    every call of another scraper. *)
Theorem C10_fresh_scrape_price_sorted
    (e : Cache.env) (term : string) (fs : gmap string Cache.cache_file) :
  (forall fetch l fs',
     Cache.cached_products "ah" term e fs = None ->
     AhScraper.scrape_ah_products e fetch term fs = (Ok l, fs') ->
     price_sorted l /\
     (exists cards, fetch = Ok cards /\ l ≡ₚ omap AhScraper.card_product cards) /\
     (l ≠ [] ->
      fs' = Cache.save_to_cache "ah" term l (Cache.save_time e) fs /\
      (Cache.writable (Cache.get_cache_file "ah" term) fs = true ->
       fs' !! Cache.get_cache_file "ah" term
         = Some (Cache.CacheData (Cache.TsAt (Cache.save_time e)) l) /\
       Cache.load_from_cache "ah" term fs' = Some l) /\
      (Cache.writable (Cache.get_cache_file "ah" term) fs = false -> fs' = fs) /\
      forall e2 fetch2,
        Cache.should_update_cache (fs' !! Cache.get_cache_file "ah" term)
          (Cache.now e2) (Cache.jitter e2) = false ->
        AhScraper.scrape_ah_products e2 fetch2 term fs' = (Ok l, fs'))) /\
  (forall cards,
     Cache.cached_products "ah" term e fs = None ->
     exists l fs', AhScraper.scrape_ah_products e (Ok cards) term fs = (Ok l, fs')) /\
  (forall crawl l fs',
     Cache.cached_products "jumbo" term e fs = None ->
     JumboScraper.scrape_jumbo_products e crawl term fs = (Ok l, fs') ->
     price_sorted l /\
     (crawl = Ok NoContent /\ l = [] \/
      exists raws, crawl = Ok (Items raws) /\
                   l ≡ₚ omap JumboScraper.format_product raws) /\
     (l ≠ [] ->
      fs' = Cache.save_to_cache "jumbo" term l (Cache.save_time e) fs /\
      (Cache.writable (Cache.get_cache_file "jumbo" term) fs = true ->
       fs' !! Cache.get_cache_file "jumbo" term
         = Some (Cache.CacheData (Cache.TsAt (Cache.save_time e)) l) /\
       Cache.load_from_cache "jumbo" term fs' = Some l) /\
      (Cache.writable (Cache.get_cache_file "jumbo" term) fs = false -> fs' = fs) /\
      forall e2 crawl2,
        Cache.should_update_cache (fs' !! Cache.get_cache_file "jumbo" term)
          (Cache.now e2) (Cache.jitter e2) = false ->
        JumboScraper.scrape_jumbo_products e2 crawl2 term fs' = (Ok l, fs'))) /\
  (forall raws,
     Cache.cached_products "jumbo" term e fs = None ->
     exists l fs',
       JumboScraper.scrape_jumbo_products e (Ok (Items raws)) term fs = (Ok l, fs')) /\
  (forall fetch l fs',
     store_cache_price_sorted "ah" fs ->
     AhScraper.scrape_ah_products e fetch term fs = (Ok l, fs') ->
     price_sorted l /\ store_cache_price_sorted "ah" fs') /\
  (forall crawl l fs',
     store_cache_price_sorted "jumbo" fs ->
     JumboScraper.scrape_jumbo_products e crawl term fs = (Ok l, fs') ->
     price_sorted l /\ store_cache_price_sorted "jumbo" fs') /\
  (forall s, store_cache_price_sorted (store_str s) fs ->
     (forall fetch, s <> AH ->
        store_cache_price_sorted (store_str s)
          (AhScraper.scrape_ah_products e fetch term fs).2) /\
     (forall crawl, s <> Jumbo ->
        store_cache_price_sorted (store_str s)
          (JumboScraper.scrape_jumbo_products e crawl term fs).2) /\
     (forall crawl, s <> Plus ->
        store_cache_price_sorted (store_str s)
          (PlusScraper.scrape_plus_products e crawl term fs).2)).
Proof.
  split; [|split; [intros cards Hc; by apply ah_page_call|]].
  { intros fetch l fs' Hc Heq.
    destruct (ah_fresh_call _ _ _ _ _ _ Hc Heq) as (Hs & Hp & Hsave).
    split; [done|]. split; [done|]. intros Hl.
    destruct (Hsave Hl) as (-> & Hhit). split; [done|].
    split; [apply save_to_cache_result|]. split; [apply save_to_cache_result|done]. }
  split; [|split; [intros raws Hc; by apply jumbo_page_call|]].
  { intros crawl l fs' Hc Heq.
    destruct (jumbo_fresh_call _ _ _ _ _ _ Hc Heq) as (Hs & Hp & Hsave).
    split; [done|]. split; [done|]. intros Hl.
    destruct (Hsave Hl) as (-> & Hhit). split; [done|].
    split; [apply save_to_cache_result|]. split; [apply save_to_cache_result|done]. }
  split; [intros fetch l fs'; apply ah_any_call|].
  split; [intros crawl l fs'; apply jumbo_any_call|].
  intros s Hfs. split; [|split].
  - intros fetch Hs. eapply (store_cache_price_sorted_frame s AH term); [done| |done].
    intros file. apply scrape_ah_frame.
  - intros crawl Hs. eapply (store_cache_price_sorted_frame s Jumbo term); [done| |done].
    intros file. apply scrape_jumbo_frame.
  - intros crawl Hs. eapply (store_cache_price_sorted_frame s Plus term); [done| |done].
    intros file. apply scrape_plus_frame.
Qed.

Lemma C10_fresh_scrape_price_sorted_witness :
  (price_sorted ah_example_products /\
   ah_example_products ≡ₚ omap AhScraper.card_product ah_example_cards /\
   Cache.load_from_cache "ah" "kaas"
     (AhScraper.scrape_ah_products example_env (Ok ah_example_cards) "kaas" ∅).2
   = Some ah_example_products) /\
  (price_sorted jumbo_example_products /\
   jumbo_example_products ≡ₚ omap JumboScraper.format_product jumbo_example_raws /\
   Cache.load_from_cache "jumbo" "kaas"
     (JumboScraper.scrape_jumbo_products example_env (Ok (Items jumbo_example_raws))
        "kaas" ∅).2
   = Some jumbo_example_products).
Proof.
  pose proof (C10_fresh_scrape_price_sorted example_env "kaas" ∅)
    as (Ha & _ & Hj & _).
  split.
  - destruct (Ha (Ok ah_example_cards) ah_example_products
                 (AhScraper.scrape_ah_products example_env (Ok ah_example_cards) "kaas" ∅).2)
      as (Hs & (cards & Hcards & Hp) & Hw); [reflexivity|reflexivity|].
    injection Hcards as <-.
    split; [exact Hs|]. split; [exact Hp|].
    destruct Hw as (_ & Hload & _); [discriminate|].
    apply Hload. reflexivity.
  - destruct (Hj (Ok (Items jumbo_example_raws)) jumbo_example_products
                 (JumboScraper.scrape_jumbo_products example_env
                    (Ok (Items jumbo_example_raws)) "kaas" ∅).2)
      as (Hs & [[Hno _]|(raws & Hraws & Hp)] & Hw);
      [reflexivity|reflexivity|discriminate Hno|].
    injection Hraws as <-.
    split; [exact Hs|]. split; [exact Hp|].
    destruct Hw as (_ & Hload & _); [discriminate|].
    apply Hload. reflexivity.
Defined.

(** X3. Staleness only grows with time and shrinks with the jitter: an
    entry that is stale at one reading of the clock is stale at every
    later reading with the same or a smaller jitter, and an entry that is
    fresh is fresh at every earlier reading with the same or a larger
    jitter.  An entry without a timestamp counts as written on 1 January
    2000: with a jitter within the variance it is stale at every time
    later than 16 hours after that date. *)
Theorem X3_staleness_monotone
    (file : option Cache.cache_file) (now now' jitter jitter' : Z) :
  (now <= now')%Z -> (jitter' <= jitter)%Z ->
  (Cache.should_update_cache file now jitter = true ->
   Cache.should_update_cache file now' jitter' = true) /\
  (Cache.should_update_cache file now' jitter' = false ->
   Cache.should_update_cache file now jitter = false) /\
  (forall products,
     (jitter <= Cache.CACHE_DURATION_VARIANCE)%Z ->
     (Cache.default_time + Cache.hours 16 < now)%Z ->
     Cache.should_update_cache
       (Some (Cache.CacheData Cache.TsDefault products)) now jitter = true).
Proof.
  intros Hn Hj.
  assert (Hmono : Cache.should_update_cache file now jitter = true ->
                  Cache.should_update_cache file now' jitter' = true).
  { destruct file as [[|[| |t] ps]|]; simpl; try done.
    all: rewrite !Z.ltb_lt; lia. }
  split; [exact Hmono|]. split.
  - intros H'. destruct (Cache.should_update_cache file now jitter); [|done].
    by rewrite Hmono in H'.
  - intros products Hv Hlate. simpl. apply Z.ltb_lt.
    unfold Cache.CACHE_DURATION, Cache.CACHE_DURATION_VARIANCE, Cache.hours in *. lia.
Qed.

Lemma X3_staleness_monotone_witness :
  Cache.should_update_cache
    (Some (Cache.CacheData (Cache.TsAt 0) [])) (Cache.hours 20) 0 = true /\
  Cache.should_update_cache
    (Some (Cache.CacheData Cache.TsDefault []))
    (Cache.default_time + Cache.hours 17) (Cache.hours 4) = true.
Proof.
  split.
  - apply (X3_staleness_monotone
             (Some (Cache.CacheData (Cache.TsAt 0) []))
             (Cache.hours 13) (Cache.hours 20) 0 0); [| |reflexivity];
      unfold Cache.hours; lia.
  - apply (X3_staleness_monotone
             (Some (Cache.CacheData Cache.TsDefault []))
             (Cache.default_time + Cache.hours 17) (Cache.default_time + Cache.hours 17)
             (Cache.hours 4) (Cache.hours 4)); try lia.
    + unfold Cache.CACHE_DURATION_VARIANCE. lia.
    + unfold Cache.hours. lia.
Defined.

Section CacheWindow.
Import Cache.

Lemma saved_entry_fresh prefix term term2 l time fs e2 :
  slug term = slug term2 ->
  writable (get_cache_file prefix term) fs = true ->
  (- CACHE_DURATION_VARIANCE <= jitter e2 <= CACHE_DURATION_VARIANCE)%Z ->
  (now e2 - time < CACHE_DURATION - CACHE_DURATION_VARIANCE)%Z ->
  cached_products prefix term2 e2 (save_to_cache prefix term l time fs) = Some l.
Proof.
  intros Hs Hfile Hj Hw. apply (get_cache_file_inj prefix) in Hs.
  unfold cached_products, load_from_cache.
  rewrite <- Hs, save_to_cache_lookup by done. simpl.
  assert ((CACHE_DURATION + jitter e2 <? now e2 - time)%Z = false) as ->; [|done].
  apply Z.ltb_ge. lia.
Qed.

(** After a save that failed, the term has no entry. *)
Lemma failed_save_miss prefix term term2 l time fs e2 :
  slug term = slug term2 ->
  writable (get_cache_file prefix term) fs = false ->
  save_to_cache prefix term l time fs = fs /\
  cached_products prefix term2 e2 (save_to_cache prefix term l time fs) = None.
Proof.
  intros Hs Hfile. apply (get_cache_file_inj prefix) in Hs.
  rewrite save_to_cache_failed by done. split; [done|].
  unfold cached_products. by rewrite <- Hs, writable_absent.
Qed.

Lemma plus_fresh_call e crawl term fs l fs' :
  (forall c cached, cached_products "plus" term e fs <> Some (c :: cached)) ->
  PlusScraper.scrape_plus_products e crawl term fs = (Ok l, fs') ->
  l <> [] ->
  fs' = save_to_cache "plus" term l (save_time e) fs.
Proof.
  intros Hc. unfold PlusScraper.scrape_plus_products.
  destruct (cached_products "plus" term e fs) as [[|c cached]|];
    [| by destruct (Hc c cached) |].
  all: destruct (PlusScraper.scrape_try crawl) as [[products [saved|]]|x] eqn:Ht.
  all: try (intros [= <- <-]; done).
  all: try (apply plus_scrape_try_unsaved in Ht as ->; by intros [= <- <-]).
  all: apply plus_scrape_try_saved in Ht as (-> & _ & _); by intros [= <- <-].
Qed.

Lemma empty_entry_hit prefix term e fs ts :
  fs !! get_cache_file prefix term = Some (CacheData ts []) ->
  should_update_cache (fs !! get_cache_file prefix term) (now e) (jitter e) = false ->
  cached_products prefix term e fs = Some [].
Proof.
  intros Hf Hs. unfold cached_products, load_from_cache. by rewrite Hs, Hf.
Qed.

Lemma save_keeps_cache_nonempty prefix term l time fs :
  l <> [] -> cache_nonempty fs -> cache_nonempty (save_to_cache prefix term l time fs).
Proof.
  intros Hl Hfs file ts ps.
  destruct (decide (file = get_cache_file prefix term)) as [->|Hne].
  - rewrite save_to_cache_own. destruct (writable _ fs); [|done].
    by intros [= <- <-].
  - rewrite save_to_cache_other by done. apply Hfs.
Qed.
End CacheWindow.

(** X4. What a scraper saved is served for at least eight hours.  After a
    call that did not answer from the cache and returned a non-empty list,
    when the cache file of the term could be written, every call at a time
    less than 12h - 4h after the save, for the same search term up to the
    case of ASCII letters and spaces written as underscores, returns that
    list and leaves the cache as it is, whatever the jitter within the
    variance and whatever the fetch would give, a failure included.  When
    the file could not be written (a term with a slash, for one), the
    first call left the cache as it was and the later call finds no
    entry, so that it fetches again. *)
Theorem X4_saved_list_served_within_window
    (e e2 : Cache.env) (term term2 : string) (fs fs' : gmap string Cache.cache_file)
    (l : list product) :
  slug term = slug term2 ->
  (- Cache.CACHE_DURATION_VARIANCE <= Cache.jitter e2 <= Cache.CACHE_DURATION_VARIANCE)%Z ->
  (Cache.now e2 - Cache.save_time e < Cache.CACHE_DURATION - Cache.CACHE_DURATION_VARIANCE)%Z ->
  l <> [] ->
  (forall fetch fetch2,
     Cache.cached_products "ah" term e fs = None ->
     AhScraper.scrape_ah_products e fetch term fs = (Ok l, fs') ->
     (Cache.writable (Cache.get_cache_file "ah" term) fs = true ->
      AhScraper.scrape_ah_products e2 fetch2 term2 fs' = (Ok l, fs')) /\
     (Cache.writable (Cache.get_cache_file "ah" term) fs = false ->
      fs' = fs /\ Cache.cached_products "ah" term2 e2 fs' = None)) /\
  (forall crawl crawl2,
     Cache.cached_products "jumbo" term e fs = None ->
     JumboScraper.scrape_jumbo_products e crawl term fs = (Ok l, fs') ->
     (Cache.writable (Cache.get_cache_file "jumbo" term) fs = true ->
      JumboScraper.scrape_jumbo_products e2 crawl2 term2 fs' = (Ok l, fs')) /\
     (Cache.writable (Cache.get_cache_file "jumbo" term) fs = false ->
      fs' = fs /\ Cache.cached_products "jumbo" term2 e2 fs' = None)) /\
  (forall crawl crawl2,
     (forall c cached, Cache.cached_products "plus" term e fs <> Some (c :: cached)) ->
     PlusScraper.scrape_plus_products e crawl term fs = (Ok l, fs') ->
     (Cache.writable (Cache.get_cache_file "plus" term) fs = true ->
      PlusScraper.scrape_plus_products e2 crawl2 term2 fs' = (Ok l, fs')) /\
     (Cache.writable (Cache.get_cache_file "plus" term) fs = false ->
      fs' = fs /\ Cache.cached_products "plus" term2 e2 fs' = None)).
Proof.
  intros Hs Hj Hw Hl. split; [|split].
  - intros fetch fetch2 Hc Heq.
    destruct (ah_fresh_call _ _ _ _ _ _ Hc Heq) as (_ & _ & Hsave).
    destruct (Hsave Hl) as (-> & _). split; intros Hfile.
    + unfold AhScraper.scrape_ah_products.
      by rewrite (saved_entry_fresh "ah" term term2 l _ fs e2 Hs Hfile Hj Hw).
    + by apply failed_save_miss.
  - intros crawl crawl2 Hc Heq.
    destruct (jumbo_fresh_call _ _ _ _ _ _ Hc Heq) as (_ & _ & Hsave).
    destruct (Hsave Hl) as (-> & _). split; intros Hfile.
    + unfold JumboScraper.scrape_jumbo_products.
      by rewrite (saved_entry_fresh "jumbo" term term2 l _ fs e2 Hs Hfile Hj Hw).
    + by apply failed_save_miss.
  - intros crawl crawl2 Hc Heq.
    rewrite (plus_fresh_call _ _ _ _ _ _ Hc Heq Hl). split; intros Hfile.
    + unfold PlusScraper.scrape_plus_products.
      rewrite (saved_entry_fresh "plus" term term2 l _ fs e2 Hs Hfile Hj Hw).
      by destruct l.
    + by apply failed_save_miss.
Qed.

Lemma X4_saved_list_served_within_window_witness :
  AhScraper.scrape_ah_products
    {| Cache.now := Cache.hours 107; Cache.jitter := Cache.hours (-4);
       Cache.save_time := Cache.hours 107 |}
    (Raise (OtherError "FetchTimeout")) "KAAS"
    (AhScraper.scrape_ah_products example_env (Ok ah_example_cards) "kaas" ∅).2
  = (Ok ah_example_products,
     (AhScraper.scrape_ah_products example_env (Ok ah_example_cards) "kaas" ∅).2) /\
  (AhScraper.scrape_ah_products example_env (Ok ah_example_cards) "kaas/ham" ∅).2 = ∅.
Proof.
  split.
  - refine (proj1 (proj1 (X4_saved_list_served_within_window example_env _ "kaas" "KAAS" ∅ _
                     ah_example_products _ _ _ _) (Ok ah_example_cards) _ _ _) _);
      try reflexivity; done.
  - refine (proj1 (proj2 (proj1 (X4_saved_list_served_within_window example_env example_env
                     "kaas/ham" "kaas/ham" ∅ _
                     ah_example_products _ _ _ _) (Ok ah_example_cards) (Ok []) _ _) _));
      try reflexivity; done.
Defined.

(** X5. A cache entry that is fresh and holds an empty list (a file
    without a ['products'] key is read as one) is answered differently:
    the AH and the Jumbo scraper return the empty list without fetching,
    the Plus scraper takes the empty list for a miss and returns what a
    call without any cache returns.  The scrapers themselves never store
    an empty list: a cache directory without empty lists stays so under
    every call. *)
Theorem X5_empty_cached_list
    (e : Cache.env) (term : string) (fs : gmap string Cache.cache_file) :
  (forall ts fetch,
     fs !! Cache.get_cache_file "ah" term = Some (Cache.CacheData ts []) ->
     Cache.should_update_cache (fs !! Cache.get_cache_file "ah" term)
       (Cache.now e) (Cache.jitter e) = false ->
     AhScraper.scrape_ah_products e fetch term fs = (Ok [], fs)) /\
  (forall ts crawl,
     fs !! Cache.get_cache_file "jumbo" term = Some (Cache.CacheData ts []) ->
     Cache.should_update_cache (fs !! Cache.get_cache_file "jumbo" term)
       (Cache.now e) (Cache.jitter e) = false ->
     JumboScraper.scrape_jumbo_products e crawl term fs = (Ok [], fs)) /\
  (forall ts crawl,
     fs !! Cache.get_cache_file "plus" term = Some (Cache.CacheData ts []) ->
     (PlusScraper.scrape_plus_products e crawl term fs).1 =
     (PlusScraper.scrape_plus_products e crawl term ∅).1) /\
  (cache_nonempty fs ->
   (forall fetch, cache_nonempty (AhScraper.scrape_ah_products e fetch term fs).2) /\
   (forall crawl, cache_nonempty (JumboScraper.scrape_jumbo_products e crawl term fs).2) /\
   (forall crawl, cache_nonempty (PlusScraper.scrape_plus_products e crawl term fs).2)).
Proof.
  split; [|split; [|split]].
  - intros ts fetch Hf Hs. unfold AhScraper.scrape_ah_products.
    by rewrite (empty_entry_hit _ _ _ _ _ Hf Hs).
  - intros ts crawl Hf Hs. unfold JumboScraper.scrape_jumbo_products.
    by rewrite (empty_entry_hit _ _ _ _ _ Hf Hs).
  - intros ts crawl Hf. unfold PlusScraper.scrape_plus_products.
    assert (Cache.cached_products "plus" term e fs = None \/
            Cache.cached_products "plus" term e fs = Some []) as [-> | ->].
    { unfold Cache.cached_products, Cache.load_from_cache. rewrite Hf.
      destruct (Cache.should_update_cache _ _ _); [by left|by right]. }
    all: unfold Cache.cached_products; rewrite lookup_empty; simpl.
    all: by destruct (PlusScraper.scrape_try crawl) as [[? [?|]]|].
  - intros Hfs. split; [|split].
    + intros fetch. destruct (scrape_ah_outcome e fetch term fs); try done.
      by apply save_keeps_cache_nonempty.
    + intros crawl. destruct (scrape_jumbo_outcome e crawl term fs); try done.
      by apply save_keeps_cache_nonempty.
    + intros crawl.
      destruct (scrape_plus_outcome e crawl term fs) as (l & _ & [->|[? ->]]);
        [done|by apply save_keeps_cache_nonempty].
Qed.

Lemma X5_empty_cached_list_witness :
  AhScraper.scrape_ah_products example_env (Ok ah_example_cards) "kaas"
    {[ "ah_kaas_cache.json" := Cache.CacheData (Cache.TsAt (Cache.hours 99)) [] ]}
  = (Ok [], {[ "ah_kaas_cache.json" := Cache.CacheData (Cache.TsAt (Cache.hours 99)) [] ]}).
Proof.
  refine (proj1 (X5_empty_cached_list example_env "kaas" _)
            (Cache.TsAt (Cache.hours 99)) (Ok ah_example_cards) _ _);
    reflexivity.
Defined.

(** ** Digits and numbers *)

Section Digits.

Lemma digits_val_from_acc acc s :
  digits_val_from acc s = (acc * 10 ^ N.of_nat (String.length s) + digits_val s)%N.
Proof.
  unfold digits_val. revert acc. induction s as [|c s IH]; intros acc.
  - cbn [digits_val_from String.length]. change (N.of_nat 0) with 0%N.
    rewrite N.pow_0_r. lia.
  - cbn [digits_val_from String.length]. rewrite IH, (IH (10 * 0 + digit_val c)%N).
    rewrite Nat2N.inj_succ, N.pow_succ_r'. ring.
Qed.

Lemma digits_val_append a b :
  digits_val (a +:+ b) =
  (digits_val a * 10 ^ N.of_nat (String.length b) + digits_val b)%N.
Proof.
  unfold digits_val at 1 2. generalize 0%N as acc.
  induction a as [|c a IH]; intros acc.
  - rewrite append_nil. simpl digits_val_from at 2. apply digits_val_from_acc.
  - rewrite append_cons. cbn [digits_val_from]. apply IH.
Qed.

Lemma digit_val_bound c : is_digit c = true -> (digit_val c < 10)%N.
Proof.
  unfold is_digit, digit_val. intros [H1 H2]%andb_true_iff.
  apply N.leb_le in H1, H2. lia.
Qed.

Lemma digits_val_bound s :
  all_chars is_digit s = true -> (digits_val s < 10 ^ N.of_nat (String.length s))%N.
Proof.
  induction s as [|c s IH]; [done|].
  cbn [all_chars String.length]. intros [Hc Hs]%andb_true_iff.
  unfold digits_val. cbn [digits_val_from]. rewrite digits_val_from_acc.
  rewrite Nat2N.inj_succ, N.pow_succ_r'.
  pose proof (digit_val_bound c Hc). specialize (IH Hs). nia.
Qed.

Lemma string_of_uint_digits d : all_chars is_digit (NilEmpty.string_of_uint d) = true.
Proof. induction d; simpl; by rewrite ?IHd. Qed.

Lemma digits_val_from_uint d acc :
  digits_val_from (N.pos acc) (NilEmpty.string_of_uint d) = N.pos (Pos.of_uint_acc d acc).
Proof.
  revert acc. induction d; intros acc; cbn [NilEmpty.string_of_uint digits_val_from Pos.of_uint_acc];
    [done|..]; rewrite <- IHd; f_equal; unfold digit_val; simpl; lia.
Qed.

Lemma digits_val_uint d : digits_val (NilEmpty.string_of_uint d) = N.of_uint d.
Proof.
  unfold digits_val, N.of_uint.
  induction d; cbn [NilEmpty.string_of_uint digits_val_from Pos.of_uint]; [done|..].
  1: exact IHd.
  all: by rewrite <- digits_val_from_uint.
Qed.

(** [int(str(n)) == n] *)
Lemma digits_val_str_of_N n : digits_val (str_of_N n) = n.
Proof.
  unfold str_of_N. rewrite digits_val_uint. apply DecimalN.Unsigned.of_to.
Qed.

Lemma str_of_N_digits n : all_chars is_digit (str_of_N n) = true.
Proof. apply string_of_uint_digits. Qed.

Lemma str_of_N_truthy n : truthy (str_of_N n) = true.
Proof.
  unfold str_of_N. destruct n as [|p]; [done|]. simpl.
  pose proof (DecimalPos.Unsigned.to_uint_nonnil p).
  by destruct (Pos.to_uint p).
Qed.

Lemma str_of_N_isdigit n : isdigit (str_of_N n) = true.
Proof.
  pose proof (str_of_N_truthy n). pose proof (str_of_N_digits n).
  unfold isdigit. by destruct (str_of_N n).
Qed.

Lemma isdigit_all_chars s : isdigit s = true -> all_chars is_digit s = true.
Proof. by destruct s. Qed.

Lemma isdigit_truthy s : isdigit s = true -> truthy s = true.
Proof. by destruct s. Qed.

(** The value of the decimal [a.b]. *)
Lemma decimal_val_eq a b :
  decimal_val a b ==
  inject_Z (Z.of_N (digits_val a)) +
  (Z.of_N (digits_val b) # Z.to_pos (10 ^ Z.of_nat (String.length b))).
Proof.
  unfold decimal_val. rewrite Qred_correct, digits_val_append.
  assert (Hpow : (0 < 10 ^ Z.of_nat (String.length b))%Z) by (apply Z.pow_pos_nonneg; lia).
  unfold Qeq, Qplus, inject_Z. simpl.
  rewrite Pos.mul_1_l, !Z2Pos.id by done.
  rewrite N2Z.inj_add, N2Z.inj_mul, N2Z.inj_pow, nat_N_Z. simpl Z.of_N. ring.
Qed.

Lemma decimal_val_nonneg a b : (0 <= decimal_val a b)%Q.
Proof.
  unfold decimal_val. rewrite Qred_correct. unfold Qle. simpl. lia.
Qed.
End Digits.

(** ** The prices of the Jumbo scraper *)

Ltac invert_matches :=
  repeat match goal with
  | H : matches ?r _ _ _ _ _ _ |- _ =>
      lazymatch r with
      | Re.Seq _ _ => idtac
      | Re.Alt _ _ => idtac
      | Re.Grp _ _ => idtac
      | Re.Chr _ => idtac
      | Re.Lit _ => idtac
      | Re.Star _ => idtac
      | Re.Upto _ _ => idtac
      | Re.Eps => idtac
      end;
      inversion H; subst; clear H
  end.

Section JumboPrices.
Import Re.

Lemma jumbo_re_price_cents prev s prev' s' m :
  matches JumboScraper.re_price prev s [] prev' s' m ->
  exists g1 g2, m = [(2, g2); (1, g1)] /\
                isdigit g1 = true /\ all_chars is_digit g2 = true /\
                String.length g2 <= 2.
Proof.
  unfold JumboScraper.re_price, seqs, Rep1, Opt. simpl. intros H.
  invert_matches; rewrite take_append_cons, take_append;
    do 2 eexists; (split; [reflexivity|]); simpl; (split; [by apply andb_true_iff|]);
    by split.
Qed.

Lemma jumbo_re_unit_price_cents prev s prev' s' m :
  matches JumboScraper.re_unit_price prev s [] prev' s' m ->
  exists g1 g2 g3, m = [(3, g3); (2, g2); (1, g1)] /\
                   isdigit g1 = true /\ all_chars is_digit g2 = true /\
                   String.length g2 <= 2.
Proof.
  unfold JumboScraper.re_unit_price, seqs, Rep1, Opt. simpl. intros H.
  invert_matches.
  all: repeat match goal with
       | |- context [take (String.length (String ?c (?x +:+ ?y)) - String.length ?y) _] =>
           rewrite (take_append_cons c x y)
       | |- context [take (String.length (?x +:+ ?y) - String.length ?y) _] =>
           rewrite (take_append x y)
       end.
  all: do 3 eexists; (split; [reflexivity|]); simpl; (split; [by apply andb_true_iff|]);
    by split.
Qed.

Lemma decimal_val_cents a b :
  1 <= String.length b <= 2 ->
  exists cents : N, decimal_val a b == Z.of_N cents # 100.
Proof.
  intros Hb. destruct b as [|c1 [|c2 [|c3 b]]]; simpl in Hb; try lia.
  - exists (10 * digits_val (a +:+ String c1 ""))%N.
    unfold decimal_val. rewrite Qred_correct. unfold Qeq. simpl. lia.
  - exists (digits_val (a +:+ String c1 (String c2 ""))).
    unfold decimal_val. rewrite Qred_correct. unfold Qeq. simpl. lia.
Qed.

Lemma euros_cents_whole g1 g2 (m : captures) q :
  group 1 m = Some g1 -> group 2 m = Some g2 ->
  isdigit g1 = true -> all_chars is_digit g2 = true -> String.length g2 <= 2 ->
  JumboScraper.euros_cents m = Some q ->
  exists cents : N, q == Z.of_N cents # 100.
Proof.
  intros H1 H2 Hd1 Hd2 Hl. unfold JumboScraper.euros_cents, grp. rewrite H1, H2. simpl.
  destruct g2 as [|c g2]; simpl truthy; cbv iota.
  - rewrite py_float_digits by done. intros [= <-]. apply decimal_val_cents.
    simpl. lia.
  - rewrite py_float_digits by done. intros [= <-]. apply decimal_val_cents.
    simpl in *. lia.
Qed.

Lemma jumbo_price_cents text m q :
  search JumboScraper.re_price text = Some m ->
  JumboScraper.euros_cents m = Some q ->
  exists cents : N, q == Z.of_N cents # 100.
Proof.
  intros (? & ? & ? & ? & H)%search_from_sound.
  apply jumbo_re_price_cents in H as (g1 & g2 & -> & ? & ? & ?).
  by eapply euros_cents_whole.
Qed.

Lemma jumbo_unit_price_cents text m q :
  search JumboScraper.re_unit_price text = Some m ->
  JumboScraper.euros_cents m = Some q ->
  exists cents : N, q == Z.of_N cents # 100.
Proof.
  intros (? & ? & ? & ? & H)%search_from_sound.
  apply jumbo_re_unit_price_cents in H as (g1 & g2 & g3 & -> & ? & ? & ?).
  by eapply euros_cents_whole.
Qed.
End JumboPrices.

(** X6. Every product that the Jumbo loop keeps has the store "jumbo",
    the name of the raw product, a unit size (possibly empty) and a price
    that is a whole, non-negative number of cents; its pre-computed price
    per unit, when it has one, is a whole, non-negative number of cents as
    well and comes with its unit.  The key ['price_per_unit'] is not yet
    set. *)
Theorem X6_jumbo_prices_whole_cents (r : JumboScraper.raw_product) (p : product) :
  JumboScraper.format_product r = Some p ->
  store p = Jumbo /\
  (exists n, JumboScraper.raw_name r = Some n /\ name p = Some n) /\
  (exists u, unit_size p = Has u) /\
  (exists (cents : N) q, price p = Has (PFloat q) /\ q == Z.of_N cents # 100) /\
  (forall v, price_per_unit_value p = Some v ->
             (exists cents : N, v == Z.of_N cents # 100) /\
             exists unit, price_per_unit_unit p = Some unit) /\
  (price_per_unit_value p = None -> price_per_unit_unit p = None) /\
  price_per_unit p = None.
Proof.
  unfold JumboScraper.format_product. intros H.
  destruct (JumboScraper.raw_price r) as [text|]; simpl in H; [|done].
  destruct (Re.search _ text) as [m|] eqn:Hm; simpl in H; [|done].
  destruct (JumboScraper.euros_cents m) as [q|] eqn:Hq; simpl in H; [|done].
  destruct (jumbo_price_cents _ _ _ Hm Hq) as [cents Hcents].
  set (unit_price := default "" (JumboScraper.raw_unit_price r)) in H.
  assert (Hpu : forall pu,
    (match (if truthy unit_price
            then Re.search JumboScraper.re_unit_price unit_price else None) with
     | Some m => v ← JumboScraper.euros_cents m; Some (Some v, Some (Re.grp 3 m))
     | None => Some (None, None)
     end) = Some pu ->
    (forall v, pu.1 = Some v ->
               (exists cents : N, v == Z.of_N cents # 100) /\ exists unit, pu.2 = Some unit) /\
    (pu.1 = None -> pu.2 = None)).
  { intros pu. destruct (truthy unit_price); [|by intros [= <-]].
    destruct (Re.search JumboScraper.re_unit_price unit_price) as [um|] eqn:Hum;
      [|by intros [= <-]].
    destruct (JumboScraper.euros_cents um) as [v|] eqn:Hv; [|done].
    simpl. intros [= <-]. simpl. split; [|done]. intros ? [= <-].
    split; [by eapply jumbo_unit_price_cents|by eexists]. }
  destruct (match (if truthy unit_price then _ else _) with
            | Some _ => _ | None => _ end) as [pu|]; simpl in H; [|done].
  specialize (Hpu pu eq_refl) as [Hpu1 Hpu2].
  destruct (JumboScraper.raw_name r) as [n|]; simpl in H; [|done].
  repeat match type of H with
         | context [mbind _ ?o] => destruct o; simpl in H; [|done]
         end.
  simplify_eq. simpl.
  split; [done|]. split; [by eexists|]. split; [by eexists|].
  split; [by exists cents, q|]. by split; [|split].
Qed.

Lemma X6_jumbo_prices_whole_cents_witness :
  exists (cents : N) q,
    price (example_product Jumbo "Gratis tasje" 0 (Has "")) = Has (PFloat q) /\
    q == Z.of_N cents # 100.
Proof.
  refine (proj1 (proj2 (proj2 (proj2
    (X6_jumbo_prices_whole_cents jumbo_free_product
       (example_product Jumbo "Gratis tasje" 0 (Has "")) _))))).
  reflexivity.
Defined.

(** ** The prices of the Plus scraper *)

Section PlusPrices.
Import PlusFields.

Lemma filter_chars_all p s : all_chars p (filter_chars p s) = true.
Proof.
  induction s as [|c s IH]; [done|]. simpl.
  destruct (p c) eqn:Hc; [|done]. simpl. by rewrite Hc.
Qed.

Lemma digits_val_zero_head s : digits_val (String "0" s) = digits_val s.
Proof. reflexivity. Qed.

Lemma str_of_N_02d_digits n : all_chars is_digit (str_of_N_02d n) = true.
Proof.
  unfold str_of_N_02d. destruct (n <? 10)%N; simpl; apply str_of_N_digits.
Qed.

Lemma str_of_N_02d_truthy n : truthy (str_of_N_02d n) = true.
Proof.
  unfold str_of_N_02d. destruct (n <? 10)%N; [done|apply str_of_N_truthy].
Qed.

Lemma digits_val_str_of_N_02d n : digits_val (str_of_N_02d n) = n.
Proof.
  unfold str_of_N_02d. destruct (n <? 10)%N.
  - rewrite digits_val_zero_head. apply digits_val_str_of_N.
  - apply digits_val_str_of_N.
Qed.

Lemma str_of_N_02d_length n : (n < 100)%N -> String.length (str_of_N_02d n) = 2.
Proof.
  intros Hn.
  assert (H : forallb (fun k => Nat.eqb (String.length (str_of_N_02d (N.of_nat k))) 2)
                (seq 0 100) = true) by by vm_compute.
  rewrite forallb_forall in H. specialize (H (N.to_nat n)).
  rewrite N2Nat.id in H. apply Nat.eqb_eq, H, in_seq. lia.
Qed.

(** The digits that [parse_price] reads from a text are a number. *)
Lemma digits_text_value s :
  all_chars is_digit s = true ->
  (if truthy s then or_raise ValueError (py_int s) else Ok 0%Z)
  = Ok (Z.of_N (digits_val s)).
Proof.
  intros Hs. destruct s as [|c s]; [done|].
  cbn [truthy]. unfold py_int, isdigit. by rewrite Hs.
Qed.

Lemma parse_price_try_digits i d :
  all_chars is_digit (integer_text i) = true ->
  PlusScraper.parse_price_try (Some i) (Some d) =
  Ok (decimal_val (str_of_N (digits_val (integer_text i)))
                  (str_of_N_02d (digits_val (decimal_text d)))).
Proof.
  intros Hi. unfold PlusScraper.parse_price_try. simpl.
  fold (integer_text i). fold (decimal_text d).
  rewrite (digits_text_value _ Hi). simpl.
  rewrite (digits_text_value (decimal_text d)) by apply filter_chars_all. simpl.
  rewrite !N2Z.id.
  rewrite py_float_digits;
    [done|apply str_of_N_isdigit|apply str_of_N_02d_truthy|apply str_of_N_02d_digits].
Qed.

Lemma parse_price_try_dotted i d :
  truthy (integer_text i) = true ->
  all_chars is_digit (integer_text i) = false ->
  PlusScraper.parse_price_try (Some i) (Some d) = Raise ValueError.
Proof.
  intros Ht Hi. unfold PlusScraper.parse_price_try. simpl.
  fold (integer_text i). rewrite Ht. unfold py_int, isdigit.
  destruct (integer_text i); [done|]. by rewrite Hi.
Qed.

Lemma parse_price_nonneg i d : (0 <= PlusScraper.parse_price i d)%Q.
Proof.
  unfold PlusScraper.parse_price.
  destruct (PlusScraper.parse_price_try i d) as [q|] eqn:H; [|done].
  destruct i as [i|]; [|done]. destruct d as [d|].
  - destruct (all_chars is_digit (integer_text i)) eqn:Hi.
    + rewrite parse_price_try_digits in H by done. injection H as <-.
      apply decimal_val_nonneg.
    + destruct (truthy (integer_text i)) eqn:Ht.
      * by rewrite parse_price_try_dotted in H.
      * destruct (integer_text i); done.
  - unfold PlusScraper.parse_price_try in H. simpl in H.
    by destruct (if truthy _ then _ else _).
Qed.

Lemma parse_price_integer_digits i :
  all_chars is_digit (integer_text i) = true ->
  parse_price_integer (Some i) = Z.of_N (digits_val (integer_text i)).
Proof.
  intros Hi. unfold parse_price_integer.
  destruct i as [|c i]; [done|]. cbn [truthy negb]. cbv zeta.
  by rewrite (digits_text_value _ Hi).
Qed.

Lemma parse_price_decimal_digits d :
  parse_price_decimal (Some d) = Z.of_N (digits_val (decimal_text d)).
Proof.
  unfold parse_price_decimal.
  destruct d as [|c d]; [done|]. cbn [truthy negb]. cbv zeta.
  by rewrite (digits_text_value _ (filter_chars_all _ _)).
Qed.
End PlusPrices.

(** X7. [parse_price] of the Plus scraper never gives a negative price.
    When the integer text, reduced to digits and dots and without trailing
    dots, still holds a dot, the price is 0.0 whatever the decimals are.
    Otherwise the price is the number of [parse_price_integer] plus a
    fraction below one made of the number of [parse_price_decimal]; that
    number counts hundredths when it is below 100, so that the decimals
    text "5" stands for five cents. *)
Theorem X7_plus_parse_price (i d : string) :
  (forall i' d', (0 <= PlusScraper.parse_price i' d')%Q) /\
  (truthy (PlusFields.integer_text i) = true ->
   all_chars is_digit (PlusFields.integer_text i) = false ->
   PlusScraper.parse_price (Some i) (Some d) = 0%Q) /\
  (all_chars is_digit (PlusFields.integer_text i) = true ->
   let whole := PlusFields.parse_price_integer (Some i) in
   let decimals := PlusFields.parse_price_decimal (Some d) in
   (0 <= whole)%Z /\ (0 <= decimals)%Z /\
   (inject_Z whole <= PlusScraper.parse_price (Some i) (Some d))%Q /\
   (PlusScraper.parse_price (Some i) (Some d) < inject_Z whole + 1)%Q /\
   ((decimals < 100)%Z ->
    PlusScraper.parse_price (Some i) (Some d) == inject_Z whole + (decimals # 100))).
Proof.
  split; [exact parse_price_nonneg|]. split.
  - intros Ht Hi. unfold PlusScraper.parse_price.
    by rewrite parse_price_try_dotted.
  - intros Hi whole decimals. subst whole decimals.
    rewrite (parse_price_integer_digits _ Hi), parse_price_decimal_digits.
    unfold PlusScraper.parse_price. rewrite (parse_price_try_digits _ _ Hi).
    set (iv := digits_val (PlusFields.integer_text i)).
    set (dv := digits_val (PlusFields.decimal_text d)).
    pose proof (decimal_val_eq (str_of_N iv) (str_of_N_02d dv)) as Heq.
    rewrite digits_val_str_of_N, digits_val_str_of_N_02d in Heq.
    pose proof (digits_val_bound _ (str_of_N_02d_digits dv)) as Hb.
    rewrite digits_val_str_of_N_02d in Hb.
    assert (Hpow : (0 < 10 ^ Z.of_nat (String.length (str_of_N_02d dv)))%Z)
      by (apply Z.pow_pos_nonneg; lia).
    assert (Hb' : (Z.of_N dv < 10 ^ Z.of_nat (String.length (str_of_N_02d dv)))%Z).
    { rewrite <- nat_N_Z, <- (N2Z.inj_pow 10). lia. }
    split; [lia|]. split; [lia|]. split; [|split].
    + rewrite Heq. unfold Qle, Qplus, inject_Z. simpl.
      rewrite Pos.mul_1_l, !Z2Pos.id by done. nia.
    + rewrite Heq. unfold Qlt, Qplus, inject_Z. simpl.
      rewrite Pos.mul_1_l, !Z2Pos.id by done. nia.
    + intros Hd. rewrite Heq. rewrite str_of_N_02d_length by lia. done.
Qed.

Lemma X7_plus_parse_price_witness :
  PlusScraper.parse_price (Some "1.5") (Some "99") = 0%Q /\
  PlusScraper.parse_price (Some "3,-") (Some "5") == inject_Z 3 + (5 # 100).
Proof.
  split.
  - by apply (proj1 (proj2 (X7_plus_parse_price "1.5" "99"))).
  - apply (proj2 (proj2 (X7_plus_parse_price "3,-" "5"))); reflexivity.
Defined.

(** ** Matches that are found and matches that cannot be *)

Section Finding.
Import Re.

Lemma is_suffix_refl s : is_suffix s s.
Proof. by exists "". Qed.

Lemma append_assoc x y z : (x +:+ y) +:+ z = x +:+ (y +:+ z).
Proof. induction x as [|c x IH]; [done|]. rewrite !append_cons. by f_equal. Qed.

Lemma is_suffix_trans s1 s2 s3 : is_suffix s1 s2 -> is_suffix s2 s3 -> is_suffix s1 s3.
Proof.
  intros [p1 ->] [p2 ->]. exists (p2 +:+ p1). by rewrite append_assoc.
Qed.

Lemma is_suffix_tail c s : is_suffix s (String c s).
Proof. by exists (String c ""). Qed.

Lemma is_suffix_append pre s : is_suffix s (pre +:+ s).
Proof. by exists pre. Qed.

(** A repetition followed by text outside the class takes the whole run. *)
Lemma star_greedy {R} p (k : cont (R:=R)) prev pre post caps x :
  all_chars p pre = true -> head_sat p post = false ->
  k (last_of prev pre) post caps = Some x ->
  star p k prev (pre +:+ post) caps = Some x.
Proof.
  intros Hpre Hpost. revert prev. induction pre as [|c pre IH]; intros prev Hk.
  - rewrite append_nil. simpl in Hk. destruct post as [|d post]; [done|].
    simpl in *. by rewrite Hpost.
  - rewrite append_cons. simpl in Hpre. apply andb_true_iff in Hpre as [Hc Hpre].
    simpl. rewrite Hc. by rewrite (IH Hpre (Some c) Hk).
Qed.

Lemma run_grp_rep1 {R} i p (k : cont (R:=R)) prev c pre post caps x :
  p c = true -> all_chars p pre = true -> head_sat p post = false ->
  k (last_of (Some c) pre) post ((i, String c pre) :: caps) = Some x ->
  run (Grp i (Rep1 p)) k prev (String c pre +:+ post) caps = Some x.
Proof.
  intros Hc Hpre Hpost Hk. rewrite append_cons.
  cbn [run Rep1]. rewrite Hc. apply star_greedy; [done..|].
  by rewrite take_append_cons.
Qed.

(** The pattern for a decimal number at a whole number that no decimal
    separator follows. *)
Lemma run_decimal_whole {R} i q (k : cont (R:=R)) prev c pre post caps x :
  is_digit c = true -> all_chars is_digit pre = true ->
  head_sat is_digit post = false -> head_sat q post = false ->
  k (last_of (Some c) pre) post ((i, String c pre) :: caps) = Some x ->
  run (Grp i (Seq (Rep1 is_digit) (Opt (Seq (Chr q) (Rep1 is_digit)))))
      k prev (String c pre +:+ post) caps = Some x.
Proof.
  intros Hc Hpre Hpost Hq Hk. rewrite append_cons.
  cbn [run Rep1 Opt]. rewrite Hc. apply star_greedy; [done..|].
  rewrite take_append_cons.
  destruct post as [|d post]; [done|]. simpl in Hq. by rewrite Hq.
Qed.

Lemma run_seq {R} a b (k : cont (R:=R)) prev s caps :
  run (Seq a b) k prev s caps = run a (run b k) prev s caps.
Proof. reflexivity. Qed.

Lemma search_match_here r s caps rest :
  match_here r None s = Some (caps, rest) -> search r s = Some caps.
Proof. intros H. unfold search. destruct s; simpl; by rewrite H. Qed.

Lemma star_none {R} p (k : cont (R:=R)) s :
  (forall prev' s' caps', is_suffix s' s -> k prev' s' caps' = None) ->
  forall prev caps, star p k prev s caps = None.
Proof.
  induction s as [|c s IH]; intros Hk prev caps; simpl.
  - apply Hk, is_suffix_refl.
  - rewrite IH.
    + destruct (p c); apply Hk, is_suffix_refl.
    + intros prev' s' caps' Hs. apply Hk.
      eapply is_suffix_trans; [done|apply is_suffix_tail].
Qed.

Lemma upto_none {R} n p (k : cont (R:=R)) s :
  (forall prev' s' caps', is_suffix s' s -> k prev' s' caps' = None) ->
  forall prev caps, upto n p k prev s caps = None.
Proof.
  revert s. induction n as [|n IH]; intros s Hk prev caps; simpl.
  - apply Hk, is_suffix_refl.
  - destruct s as [|c s]; [apply Hk, is_suffix_refl|].
    rewrite IH.
    + destruct (p c); apply Hk, is_suffix_refl.
    + intros prev' s' caps' Hs. apply Hk.
      eapply is_suffix_trans; [done|apply is_suffix_tail].
Qed.

(** A continuation that fails at every later position makes the match
    fail. *)
Lemma run_none {R} r : forall (k : cont (R:=R)) s,
  (forall prev' s' caps', is_suffix s' s -> k prev' s' caps' = None) ->
  forall prev caps, run r k prev s caps = None.
Proof.
  induction r as [|p|l|a IHa b IHb|a IHa b IHb|p|n p|i a IHa| | |];
    intros k s Hk prev caps; simpl.
  - apply Hk, is_suffix_refl.
  - destruct s as [|c s]; [done|]. destruct (p c); [|done].
    apply Hk, is_suffix_tail.
  - destruct (lit l prev s) as [[prev' s']|] eqn:Hl; [|done].
    apply lit_sound in Hl as [-> _]. apply Hk, is_suffix_append.
  - apply IHa. intros prev1 s1 caps1 H1. apply IHb.
    intros prev2 s2 caps2 H2. apply Hk. by eapply is_suffix_trans.
  - by rewrite IHa, IHb.
  - by apply star_none.
  - by apply upto_none.
  - apply IHa. intros prev' s' caps' Hs. by apply Hk.
  - destruct prev; [done|]. apply Hk, is_suffix_refl.
  - destruct (at_eol s); [|done]. apply Hk, is_suffix_refl.
  - destruct (at_word_boundary prev s); [|done]. apply Hk, is_suffix_refl.
Qed.

Lemma any_char_suffix p s' s :
  is_suffix s' s -> any_char p s = false -> any_char p s' = false.
Proof.
  intros [pre ->]. rewrite any_char_append. by intros [_ ?]%orb_false_elim.
Qed.

(** A pattern that needs a character finds no match in a text without
    it. *)
Lemma run_requires {R} x r : forall (k : cont (R:=R)) prev s caps,
  requires x r = true -> any_char (Ascii.eqb x) s = false ->
  run r k prev s caps = None.
Proof.
  induction r as [|p|l|a IHa b IHb|a IHa b IHb|p|n p|i a IHa| | |];
    intros k prev s caps Hr Hs; simpl in Hr; try done.
  - simpl. destruct (lit l prev s) as [[prev' s']|] eqn:Hl; [|done].
    apply lit_sound in Hl as [-> _]. rewrite any_char_append, Hr in Hs. done.
  - simpl. destruct (requires x a) eqn:Ha.
    + by apply IHa.
    + simpl in Hr. apply run_none. intros prev1 s1 caps1 H1.
      apply IHb; [done|]. by eapply any_char_suffix.
  - apply andb_true_iff in Hr as [Ha Hb]. simpl. by rewrite IHa, IHb.
  - simpl. by apply IHa.
Qed.

Lemma search_requires x r s :
  requires x r = true -> any_char (Ascii.eqb x) s = false -> search r s = None.
Proof.
  intros Hr. unfold search. generalize (@None ascii) as prev.
  induction s as [|c s IH]; intros prev Hs; simpl.
  - unfold match_here. by rewrite (run_requires x r).
  - unfold match_here. rewrite (run_requires x r) by done.
    apply IH. simpl in Hs. by apply orb_false_elim in Hs as [_ ?].
Qed.

(** Texts of digits. *)
Lemma digits_no_char x s :
  is_digit x = false -> all_chars is_digit s = true ->
  any_char (Ascii.eqb x) s = false.
Proof.
  intros Hx. induction s as [|c s IH]; [done|]. simpl.
  intros [Hc Hs]%andb_true_iff. rewrite IH by done.
  destruct (Ascii.eqb x c) eqn:E; [|done].
  apply Ascii.eqb_eq in E as ->. congruence.
Qed.

Lemma contains_needs_head c sub s :
  any_char (Ascii.eqb c) s = false -> contains (String c sub) s = false.
Proof.
  induction s as [|d s IH]; [done|]. cbn [any_char contains String.prefix].
  intros [Hd Hs]%orb_false_elim. rewrite IH by done.
  destruct (ascii_dec c d) as [->|]; [|done]. by rewrite Ascii.eqb_refl in Hd.
Qed.

Lemma lower_digits s : all_chars is_digit s = true -> lower s = s.
Proof.
  induction s as [|c s IH]; [done|]. simpl. intros [Hc Hs]%andb_true_iff.
  rewrite IH by done. f_equal. unfold lower_char.
  assert (is_upper_az c = false) as ->; [|done].
  unfold is_digit, is_upper_az in *. apply andb_true_iff in Hc as [H1 H2].
  apply N.leb_le in H1, H2. apply andb_false_iff. left. apply N.leb_gt. lia.
Qed.

Lemma lower_append x y : lower (x +:+ y) = lower x +:+ lower y.
Proof. induction x as [|c x IH]; [done|]. rewrite !append_cons. simpl. by rewrite IH. Qed.

Lemma replace_no_char c new s :
  any_char (Ascii.eqb c) s = false -> replace (String c "") new s = s.
Proof.
  unfold replace. induction s as [|d s IH]; [done|]. cbn [any_char replace_from].
  intros [Hd Hs]%orb_false_elim. rewrite prefix_one_char, Hd. by rewrite IH.
Qed.

(** The first and the last character of a text that [strip] leaves as it
    is. *)
Lemma strip_fixed c s d :
  is_space c = false -> last_of None (String c s) = Some d -> is_space d = false ->
  strip (String c s) = String c s.
Proof.
  intros Hc Hl Hd. unfold strip, rstrip.
  assert (lstrip (String c s) = String c s) as ->.
  { simpl. by rewrite Hc. }
  destruct (rev_onto_head None (String c s) "" d eq_refl Hl) as [t Ht].
  fold (rev (String c s)) in Ht.
  assert (lstrip (rev (String c s)) = rev (String c s)) as ->.
  { rewrite Ht. simpl. by rewrite Hd. }
  apply rev_rev.
Qed.

Lemma split_dot_whole a :
  all_chars is_digit a = true -> split_dot a = (a, None).
Proof.
  induction a as [|c a IH]; [done|]. simpl.
  intros [Hc Ha]%andb_true_iff. rewrite IH by done.
  destruct (Ascii.eqb c ".") eqn:E; [|done].
  apply Ascii.eqb_eq in E as ->. done.
Qed.

Lemma Qred_whole z : Qred (z # 1) = z # 1.
Proof.
  unfold Qred. pose proof (Z.ggcd_gcd z 1) as Hg.
  pose proof (Z.ggcd_correct_divisors z 1) as Hd.
  destruct (Z.ggcd z 1) as [g [aa bb]]. simpl in Hg. destruct Hd as [Ha Hb].
  rewrite Z.gcd_1_r in Hg. subst g. rewrite Z.mul_1_l in Ha, Hb. by subst.
Qed.

(** [float] reads a text of digits as their value. *)
Lemma py_float_whole a :
  isdigit a = true -> py_float a = Some (inject_Z (Z.of_N (digits_val a))).
Proof.
  intros Ha. destruct a as [|c a]; [done|]. simpl in Ha.
  pose proof Ha as Hall. apply andb_true_iff in Ha as [Hc Ha].
  destruct (last_of_digits None (String c a) eq_refl Hall) as (d & Hl & Hd).
  unfold py_float. rewrite (strip_digits c a d Hc Hl Hd).
  assert (Hu : unsigned_decimal (String c a)
               = Some (inject_Z (Z.of_N (digits_val (String c a))))).
  { unfold unsigned_decimal. rewrite split_dot_whole by done.
    unfold isdigit. cbn [all_chars]. rewrite Hall. f_equal. unfold decimal_val.
    rewrite append_empty. apply Qred_whole. }
  rewrite <- Hu. clear -Hc.
  destruct c as [[] [] [] [] [] [] [] []]; try done.
Qed.

Lemma qlt_0_inject n : qlt 0 (inject_Z (Z.of_N n)) = negb (n =? 0)%N.
Proof.
  unfold qlt, Qle_bool, inject_Z. simpl. rewrite Z.mul_1_r.
  destruct n; simpl; done.
Qed.
End Finding.

(** ** Gram amounts in the Plus scraper *)

Section PlusGrams.
Import Re.

Lemma prefix_append sub y : String.prefix sub (sub +:+ y) = true.
Proof.
  induction sub as [|c sub IH]; [by destruct y|].
  rewrite append_cons. simpl. by destruct (ascii_dec c c).
Qed.

Lemma contains_prefix sub s : String.prefix sub s = true -> contains sub s = true.
Proof. intros H. destruct s; cbn [contains]; by rewrite H. Qed.

Lemma contains_append sub x y : contains sub (x +:+ sub +:+ y) = true.
Proof.
  induction x as [|c x IH].
  - rewrite append_nil. apply contains_prefix, prefix_append.
  - rewrite append_cons. simpl. rewrite IH. apply orb_true_r.
Qed.

Lemma contains_end sub x : contains sub (x +:+ sub) = true.
Proof.
  rewrite <- (append_empty (x +:+ sub)), append_assoc. apply contains_append.
Qed.

Lemma is_digit_not_lower c : is_digit c = true -> is_lower_az c = false.
Proof.
  unfold is_digit, is_lower_az. intros [H1 H2]%andb_true_iff.
  apply N.leb_le in H1, H2. apply andb_false_iff. left. apply N.leb_gt. lia.
Qed.

Lemma digits_g_no_char x n :
  is_digit x = false -> x <> "g"%char -> all_chars is_digit n = true ->
  any_char (Ascii.eqb x) (n +:+ "g") = false.
Proof.
  intros Hx Hg Hn. rewrite any_char_append, (digits_no_char x n) by done. simpl.
  rewrite orb_false_r. by apply Ascii.eqb_neq.
Qed.

Lemma lower_digits_g n : all_chars is_digit n = true -> lower (n +:+ "g") = n +:+ "g".
Proof. intros Hn. by rewrite lower_append, lower_digits. Qed.

Lemma plus_re_grams_found c n :
  is_digit c = true -> all_chars is_digit n = true ->
  search PlusScraper.re_grams (String c n +:+ "g") = Some [(1, String c n)].
Proof.
  intros Hc Hn. apply (search_match_here _ _ _ "").
  unfold match_here, PlusScraper.re_grams, seqs. cbn [foldr]. rewrite run_seq.
  by apply run_grp_rep1.
Qed.

(** The function [calculate_price_per_unit] of the Plus scraper finds no
    quantity in a unit size made of digits and the letter g. *)
Lemma plus_calculate_price_per_unit_none price c n :
  is_digit c = true -> all_chars is_digit n = true ->
  PlusScraper.calculate_price_per_unit price (Some (String c n +:+ "g")) = Ok None.
Proof.
  intros Hc Hn.
  assert (Hall : all_chars is_digit (String c n) = true) by (simpl; by rewrite Hc).
  unfold PlusScraper.calculate_price_per_unit. rewrite append_cons at 1. cbn [truthy negb].
  cbv zeta. rewrite (lower_digits_g _ Hall).
  unfold PlusScraper.per_piece, PlusScraper.per_gram, PlusScraper.per_kg.
  rewrite (search_requires "s" PlusScraper.re_stuk) by (by try apply digits_g_no_char).
  simpl.
  rewrite (search_requires "p" PlusScraper.re_per_gram) by (by try apply digits_g_no_char).
  simpl.
  by rewrite (search_requires "p" PlusScraper.re_per_kg) by (by try apply digits_g_no_char).
Qed.

Lemma plus_unit_price_fields_grams price n :
  isdigit n = true -> digits_val n <> 0%N ->
  PlusScraper.unit_price_fields price (n +:+ "g") = Raise TypeError.
Proof.
  intros Hd Hv. destruct n as [|c n]; [done|]. simpl in Hd.
  pose proof Hd as Hall. apply andb_true_iff in Hd as [Hc Hn].
  unfold PlusScraper.unit_price_fields.
  rewrite contains_end.
  rewrite (plus_re_grams_found c n Hc Hn).
  unfold grp. simpl group. simpl default.
  rewrite py_float_whole by (simpl; by rewrite Hall).
  unfold or_raise, mbind, res_mbind, res_bind.
  rewrite qlt_0_inject. apply N.eqb_neq in Hv. rewrite Hv. cbn [negb].
  by rewrite plus_calculate_price_per_unit_none.
Qed.

Lemma plus_clean_product_grams r n :
  isdigit n = true -> digits_val n <> 0%N ->
  PlusScraper.raw_unit_size r = Has (n +:+ "g") ->
  PlusScraper.clean_product r = Raise TypeError.
Proof.
  intros Hd Hv Hu. unfold PlusScraper.clean_product. rewrite Hu. simpl.
  assert (truthy (n +:+ "g") = true) as ->.
  { destruct n; [done|]. by rewrite append_cons. }
  by rewrite plus_unit_price_fields_grams.
Qed.

Lemma clean_products_raise r raws x :
  r ∈ raws -> PlusScraper.clean_product r = Raise x ->
  exists y, PlusScraper.clean_products raws = Raise y.
Proof.
  intros Hin Hr. induction raws as [|r' raws IH]; [by apply elem_of_nil in Hin|].
  simpl. apply elem_of_cons in Hin as [<-|Hin].
  - rewrite Hr. by eexists.
  - destruct (PlusScraper.clean_product r'); [|by eexists]. simpl.
    destruct (IH Hin) as [y ->]. by eexists.
Qed.

Lemma plus_extract_unit_size_grams n :
  isdigit n = true -> PlusScraper.extract_unit_size (n +:+ "g") = Ok (n +:+ "g").
Proof.
  intros Hd. destruct n as [|c n]; [done|]. simpl in Hd.
  pose proof Hd as Hall. apply andb_true_iff in Hd as [Hc Hn].
  unfold PlusScraper.extract_unit_size. rewrite append_cons at 1. cbn [truthy negb].
  rewrite lower_digits_g by (simpl; by rewrite Hall).
  assert (strip (String c n +:+ "g") = String c n +:+ "g") as ->.
  { rewrite append_cons. apply (strip_fixed _ _ "g"); [by apply is_digit_not_space| |done].
    rewrite <- append_cons, last_of_append. done. }
  assert (sub_anchored PlusScraper.re_per_prefix (String c n +:+ "g")
          = String c n +:+ "g") as ->.
  { unfold sub_anchored, match_here, PlusScraper.re_per_prefix, seqs.
    rewrite append_cons. cbn [foldr run lit].
    destruct (Ascii.eqb "p" c) eqn:E; [|done].
    apply Ascii.eqb_eq in E as <-. by vm_compute in Hc. }
  assert (search PlusScraper.re_per (String c n +:+ "g")
          = Some [(2, "g"); (1, String c n)]) as ->.
  { apply (search_match_here _ _ _ "").
    unfold match_here, PlusScraper.re_per, PlusScraper.re_decimal, seqs.
    cbn [foldr]. rewrite run_seq. by apply run_decimal_whole. }
  unfold grp. simpl group. simpl default.
  rewrite replace_no_char by (apply digits_no_char; [done|simpl; by rewrite Hall]).
  done.
Qed.
End PlusGrams.

(** X8. A gram amount empties the result of the Plus scraper.  For every
    text of digits [n] with a value other than zero, the unit size [n]
    followed by the letter g is the form that [extract_unit_size] itself
    gives to that amount, and [calculate_price_per_unit] finds no quantity
    in it; a page on which one product has such a unit size makes the
    loop fail on the missing value, so that the scraper, when it does not
    answer from the cache, returns the empty list and leaves the cache as
    it is, whatever the other products of the page are. *)
Theorem X8_plus_gram_unit_size_empties_scrape
    (e : Cache.env) (term : string) (fs : gmap string Cache.cache_file)
    (raws : list PlusScraper.raw_product) (r : PlusScraper.raw_product) (n : string) :
  isdigit n = true ->
  digits_val n <> 0%N ->
  r ∈ raws ->
  PlusScraper.raw_unit_size r = Has (n +:+ "g") ->
  (forall c cached, Cache.cached_products "plus" term e fs <> Some (c :: cached)) ->
  PlusScraper.extract_unit_size (n +:+ "g") = Ok (n +:+ "g") /\
  (forall price,
     PlusScraper.calculate_price_per_unit price (Some (n +:+ "g")) = Ok None) /\
  PlusScraper.clean_product r = Raise TypeError /\
  PlusScraper.scrape_plus_products e (Ok (Items raws)) term fs = (Ok [], fs).
Proof.
  intros Hd Hv Hin Hu Hc.
  split; [by apply plus_extract_unit_size_grams|]. split; [|split].
  - intros price. destruct n as [|c n]; [done|]. simpl in Hd.
    apply andb_true_iff in Hd as [? ?].
    by apply plus_calculate_price_per_unit_none.
  - by eapply plus_clean_product_grams.
  - destruct (clean_products_raise r raws TypeError Hin) as [y Hy];
      [by eapply plus_clean_product_grams|].
    unfold PlusScraper.scrape_plus_products, PlusScraper.scrape_try.
    destruct raws as [|r0 raws]; [by apply elem_of_nil in Hin|].
    unfold mbind, res_mbind, res_bind. rewrite Hy.
    destruct (Cache.cached_products "plus" term e fs) as [[|c cached]|]; try done.
    by destruct (Hc c cached).
Qed.

Lemma X8_plus_gram_unit_size_empties_scrape_witness :
  PlusScraper.scrape_plus_products example_env
    (Ok (Items [plus_free_product;
                {| PlusScraper.raw_name := Has "Goudse kaas";
                   PlusScraper.raw_image := Has "https://www.plus.nl/goudse.jpg";
                   PlusScraper.raw_price_integer := Has "4";
                   PlusScraper.raw_price_decimal := Has "99";
                   PlusScraper.raw_price := Absent;
                   PlusScraper.raw_unit_size := Has "500g" |}]))
    "kaas" ∅
  = (Ok [], ∅).
Proof.
  eapply (X8_plus_gram_unit_size_empties_scrape example_env "kaas" ∅ _ _ "500").
  - reflexivity.
  - discriminate.
  - apply elem_of_cons. right. apply elem_of_cons. by left.
  - reflexivity.
  - discriminate.
Defined.

(** ** The unit sizes of the AH scraper *)

Section AhUnits.
Import Re.

Lemma head_sat_spaces p ws post :
  all_chars is_space ws = true -> (forall c, is_space c = true -> p c = false) ->
  head_sat p post = false -> head_sat p (ws +:+ post) = false.
Proof.
  intros Hws Hp Hpost. destruct ws as [|c ws]; [done|].
  rewrite append_cons. simpl in *. apply andb_true_iff in Hws as [Hc _]. by apply Hp.
Qed.

Lemma is_space_not_digit c : is_space c = true -> is_digit c = false.
Proof.
  intros Hc. destruct (is_digit c) eqn:Hd; [|done].
  apply is_digit_not_space in Hd. congruence.
Qed.

(** The pattern of the AH loop at digits, white space and a unit that
    ends the text. *)
Lemma ah_re_unit_found c n ws unit :
  is_digit c = true -> all_chars is_digit n = true -> all_chars is_space ws = true ->
  unit ∈ ["g"; "k"; "kg"; "gram"; "stuk"] ->
  search AhScraper.re_unit (String c n +:+ ws +:+ unit)
  = Some [(2, unit); (1, String c n)].
Proof.
  intros Hc Hn Hws Hunit. apply (search_match_here _ _ _ "").
  unfold match_here, AhScraper.re_unit, seqs. cbn [foldr]. rewrite run_seq.
  assert (Hhead : head_sat is_digit unit = false /\ head_sat is_space unit = false).
  { repeat (apply elem_of_cons in Hunit as [->|Hunit]; [done|]).
    by apply elem_of_nil in Hunit. }
  destruct Hhead as [Hd Hs].
  apply run_grp_rep1;
    [done|done|apply head_sat_spaces; [done|apply is_space_not_digit|done]|].
  rewrite run_seq. cbn [run]. apply star_greedy; [done|done|].
  repeat (apply elem_of_cons in Hunit as [->|Hunit]; [done|]).
  by apply elem_of_nil in Hunit.
Qed.

Lemma ah_convert_unit_size_found u c n ws unit :
  is_digit c = true -> all_chars is_digit n = true -> all_chars is_space ws = true ->
  unit ∈ ["g"; "k"; "kg"; "gram"; "stuk"] ->
  lower u = String c n +:+ ws +:+ unit ->
  AhScraper.convert_unit_size u =
    if bool_decide (unit ∈ ["g"; "gram"]) then String c n +:+ "g"
    else if bool_decide (unit ∈ ["k"; "kg"])
         then str_of_N (digits_val (String c n) * 1000) +:+ "g"
         else String c n +:+ " stuk".
Proof.
  intros Hc Hn Hws Hunit Hu. unfold AhScraper.convert_unit_size.
  rewrite Hu, (ah_re_unit_found c n ws unit Hc Hn Hws Hunit).
  unfold grp. simpl group. simpl default.
  repeat (apply elem_of_cons in Hunit as [->|Hunit]; [done|]).
  by apply elem_of_nil in Hunit.
Qed.
End AhUnits.

(** X9. The AH loop brings unit sizes to a standard form.  A text that
    is, up to letter case, a whole number [n], optional white space and a
    unit becomes [n] with "g" for the units g and gram, the number
    [1000 * n] with "g" for the units k and kg, and [n] with " stuk" for the
    unit stuk.  The standard forms are fixed points: converting a converted
    text changes nothing. *)
Theorem X9_ah_unit_size_standard_form (u n ws : string) :
  isdigit n = true ->
  all_chars is_space ws = true ->
  (lower u = n +:+ ws +:+ "g" \/ lower u = n +:+ ws +:+ "gram" ->
   AhScraper.convert_unit_size u = n +:+ "g") /\
  (lower u = n +:+ ws +:+ "k" \/ lower u = n +:+ ws +:+ "kg" ->
   AhScraper.convert_unit_size u = str_of_N (digits_val n * 1000) +:+ "g") /\
  (lower u = n +:+ ws +:+ "stuk" ->
   AhScraper.convert_unit_size u = n +:+ " stuk") /\
  (forall unit,
     unit ∈ ["g"; "k"; "kg"; "gram"; "stuk"] ->
     lower u = n +:+ ws +:+ unit ->
     AhScraper.convert_unit_size (AhScraper.convert_unit_size u)
     = AhScraper.convert_unit_size u).
Proof.
  intros Hd Hws. destruct n as [|c n]; [done|]. simpl in Hd.
  pose proof Hd as Hall. apply andb_true_iff in Hd as [Hc Hn].
  assert (Hfound := fun unit => ah_convert_unit_size_found u c n ws unit Hc Hn Hws).
  assert (Hg : forall c' n', is_digit c' = true -> all_chars is_digit n' = true ->
             AhScraper.convert_unit_size (String c' n' +:+ "g") = String c' n' +:+ "g").
  { intros c' n' Hc' Hn'.
    rewrite (ah_convert_unit_size_found _ c' n' "" "g"); try done.
    - set_solver.
    - apply lower_digits_g. simpl. by rewrite Hc'. }
  assert (Hstuk : AhScraper.convert_unit_size (String c n +:+ " stuk")
                  = String c n +:+ " stuk").
  { rewrite (ah_convert_unit_size_found (String c n +:+ " stuk") c n " " "stuk"
               Hc Hn eq_refl ltac:(set_solver)); [done|].
    rewrite lower_append, lower_digits; [done|]. simpl. by rewrite Hall. }
  split; [|split; [|split]].
  - intros [Hu|Hu].
    + by rewrite (Hfound "g" ltac:(set_solver) Hu).
    + by rewrite (Hfound "gram" ltac:(set_solver) Hu).
  - intros [Hu|Hu].
    + by rewrite (Hfound "k" ltac:(set_solver) Hu).
    + by rewrite (Hfound "kg" ltac:(set_solver) Hu).
  - intros Hu. by rewrite (Hfound "stuk" ltac:(set_solver) Hu).
  - intros unit Hunit Hu. rewrite (Hfound _ Hunit Hu).
    repeat (apply elem_of_cons in Hunit as [->|Hunit];
            [cbn [bool_decide decide_rel]|]).
    6: by apply elem_of_nil in Hunit.
    1,4: by apply Hg.
    1,2: pose proof (str_of_N_isdigit (digits_val (String c n) * 1000)) as Hs;
         destruct (str_of_N _) as [|c' n'] eqn:E; [done|];
         simpl in Hs; apply andb_true_iff in Hs as [? ?]; by apply Hg.
    by apply Hstuk.
Qed.

Lemma X9_ah_unit_size_standard_form_witness :
  AhScraper.convert_unit_size "2 KG" = "2000g" /\
  AhScraper.convert_unit_size "400 gram" = "400g".
Proof.
  split.
  - apply (X9_ah_unit_size_standard_form "2 KG" "2" " "); [reflexivity..|].
    by right.
  - apply (X9_ah_unit_size_standard_form "400 gram" "400" " "); [reflexivity..|].
    by right.
Defined.

(** ** From the unit size of a card to the price per unit *)

Section PricePerUnit.
Import Re.

Lemma strip_digits_g c n : is_digit c = true ->
  strip (String c n +:+ "g") = String c n +:+ "g".
Proof.
  intros Hc. rewrite append_cons.
  apply (strip_fixed _ _ "g"); [by apply is_digit_not_space| |done].
  by rewrite <- append_cons, last_of_append.
Qed.

Lemma app_re_gram_found c n :
  is_digit c = true -> all_chars is_digit n = true ->
  search App.re_gram (String c n +:+ "g") = Some [(1, String c n)].
Proof.
  intros Hc Hn. apply (search_match_here _ _ _ "").
  unfold match_here, App.re_gram, App.re_decimal, seqs. cbn [foldr]. rewrite run_seq.
  by apply run_decimal_whole.
Qed.

Lemma app_re_stuk_found c n :
  is_digit c = true -> all_chars is_digit n = true ->
  search App.re_stuk (String c n +:+ " stuk") = Some [(1, String c n)].
Proof.
  intros Hc Hn. apply (search_match_here _ _ _ "").
  unfold match_here, App.re_stuk, seqs. cbn [foldr]. rewrite run_seq.
  by apply run_grp_rep1.
Qed.

(** [calculate_price_per_unit] of [app.py] at a whole number of grams. *)
Lemma app_calculate_grams p x n :
  price_per_unit_value p = None -> price p = Has (PFloat x) ->
  unit_size p = Has (n +:+ "g") -> isdigit n = true ->
  App.calculate_price_per_unit p =
    Ok (Fin (if (digits_val n =? 0)%N then x
             else qmul (qdiv x (inject_Z (Z.of_N (digits_val n)))) 1000)).
Proof.
  intros Hv Hp Hu Hd. destruct n as [|c n]; [done|]. simpl in Hd.
  pose proof Hd as Hall. apply andb_true_iff in Hd as [Hc Hn].
  assert (Hall' : all_chars is_digit (String c n) = true) by (simpl; by rewrite Hall).
  unfold App.calculate_price_per_unit, App.calculate_price_per_unit_try.
  rewrite Hv. unfold App.price_number, App.unit_text. rewrite Hp, Hu.
  rewrite (lower_digits_g _ Hall'), (strip_digits_g c n Hc).
  unfold mbind, res_mbind, res_bind.
  rewrite (contains_needs_head "s") by (by apply digits_g_no_char).
  rewrite (contains_needs_head "p") by (by apply digits_g_no_char).
  rewrite !(contains_needs_head "k") by (by apply digits_g_no_char).
  rewrite contains_end. cbn [orb].
  rewrite (app_re_gram_found c n Hc Hn).
  unfold grp. simpl group. simpl default.
  rewrite replace_no_char by (by apply digits_no_char).
  rewrite py_float_whole by (simpl; by rewrite Hall).
  unfold or_raise. rewrite qlt_0_inject.
  by destruct (digits_val (String c n) =? 0)%N.
Qed.

(** [calculate_price_per_unit] of [app.py] at a number of pieces. *)
Lemma app_calculate_stuk p x n :
  price_per_unit_value p = None -> price p = Has (PFloat x) ->
  unit_size p = Has (n +:+ " stuk") -> isdigit n = true ->
  App.calculate_price_per_unit p =
    Ok (Fin (if (digits_val n =? 0)%N then x
             else qdiv x (inject_Z (Z.of_N (digits_val n))))).
Proof.
  intros Hv Hp Hu Hd. destruct n as [|c n]; [done|]. simpl in Hd.
  pose proof Hd as Hall. apply andb_true_iff in Hd as [Hc Hn].
  assert (Hall' : all_chars is_digit (String c n) = true) by (simpl; by rewrite Hall).
  unfold App.calculate_price_per_unit, App.calculate_price_per_unit_try.
  rewrite Hv. unfold App.price_number, App.unit_text. rewrite Hp, Hu.
  rewrite lower_append, (lower_digits _ Hall').
  assert (strip (String c n +:+ lower " stuk") = String c n +:+ " stuk") as ->.
  { rewrite append_cons. apply (strip_fixed _ _ "k"); [by apply is_digit_not_space| |done].
    by rewrite <- append_cons, last_of_append. }
  assert (contains "stuk" (String c n +:+ " stuk") = true) as ->.
  { replace (String c n +:+ " stuk") with ((String c n +:+ " ") +:+ "stuk")
      by (by rewrite append_assoc).
    apply contains_end. }
  rewrite (app_re_stuk_found c n Hc Hn).
  unfold grp. simpl group. simpl default.
  unfold App.per_count, py_int, isdigit. cbn [all_chars]. rewrite Hall.
  unfold or_raise, mbind, res_mbind, res_bind, fmap, res_fmap.
  destruct (digits_val (String c n)) as [|k]; done.
Qed.

Lemma qmul_qdiv_grams x n :
  n <> 0%N ->
  qmul (qdiv x (inject_Z (Z.of_N n))) 1000 == x * 1000 / inject_Z (Z.of_N n).
Proof.
  intros Hn. unfold qmul, qdiv. rewrite !Qred_correct. field.
  intros H. apply Hn. unfold Qeq, inject_Z in H. simpl in H. lia.
Qed.

Lemma qmul_qdiv_kilograms x n :
  n <> 0%N ->
  qmul (qdiv x (inject_Z (Z.of_N (n * 1000)))) 1000 == x / inject_Z (Z.of_N n).
Proof.
  intros Hn. unfold qmul, qdiv. rewrite !Qred_correct.
  rewrite N2Z.inj_mul, inject_Z_mult. change (inject_Z (Z.of_N 1000)) with 1000%Q.
  field. intros H. apply Hn. unfold Qeq, inject_Z in H. simpl in H. lia.
Qed.

(** The unit size of the product that the AH loop makes of a card. *)
Lemma ah_card_unit_size c p t :
  AhScraper.card_product c = Some p -> AhScraper.unit_size_text c = Some t ->
  price_per_unit_value p = None /\
  unit_size p =
    Has (if truthy (strip t) then AhScraper.convert_unit_size (strip t) else strip t).
Proof.
  unfold AhScraper.card_product. intros H Ht. rewrite Ht in H.
  repeat match type of H with
         | context [mbind _ ?o] => destruct o; simpl in H; [|done]
         | context [if negb ?b then _ else _] => destruct b; simpl in H; [|done]
         end.
  by simplify_eq.
Qed.
Lemma ah_card_unit_size_found c p t c0 n0 ws unit :
  AhScraper.card_product c = Some p -> AhScraper.unit_size_text c = Some t ->
  is_digit c0 = true -> all_chars is_digit n0 = true -> all_chars is_space ws = true ->
  unit ∈ ["g"; "k"; "kg"; "gram"; "stuk"] ->
  lower (strip t) = String c0 n0 +:+ ws +:+ unit ->
  price_per_unit_value p = None /\
  unit_size p =
    Has (if bool_decide (unit ∈ ["g"; "gram"]) then String c0 n0 +:+ "g"
         else if bool_decide (unit ∈ ["k"; "kg"])
              then str_of_N (digits_val (String c0 n0) * 1000) +:+ "g"
              else String c0 n0 +:+ " stuk").
Proof.
  intros Hcard Ht Hc Hn Hws Hunit Hu.
  destruct (ah_card_unit_size c p t Hcard Ht) as [Hnone ->]. split; [done|].
  rewrite <- (ah_convert_unit_size_found (strip t) c0 n0 ws unit) by done.
  destruct (strip t); [|done]. by rewrite append_cons in Hu.
Qed.

Lemma set_price_per_unit_calculated p v :
  price_per_unit_value p = None -> App.calculate_price_per_unit p = Ok v ->
  price_per_unit (App.set_price_per_unit p) = Some v.
Proof. intros Hnone Hcalc. unfold App.set_price_per_unit. simpl. by rewrite Hnone, Hcalc. Qed.
End PricePerUnit.



(** ** The response of the aggregator *)

Section Response.
Import App PySort.

Lemma keys_of_Raise {A} (key : A -> res Q) l :
  (exists x, keys_of key l = Raise x) <-> exists p x, p ∈ l /\ key p = Raise x.
Proof.
  induction l as [|a l IH]; simpl.
  - split; [by intros [? ?]|]. by intros (? & ? & ?%elem_of_nil & _).
  - destruct (key a) as [q|x] eqn:Ha; simpl.
    + destruct (keys_of key l) as [ks|y]; simpl.
      * split; [by intros [? ?]|]. intros (p & x & [->|Hp]%elem_of_cons & Hx).
        -- congruence.
        -- destruct (proj2 IH) as [? ?]; [by exists p, x|done].
      * split; [|by eexists]. intros _.
        destruct (proj1 IH) as (p & x & Hp & Hx); [by eexists|].
        exists p, x. split; [|done]. by apply elem_of_cons; right.
    + split; [|by eexists]. intros _. exists a, x. split; [|done].
      by apply elem_of_cons; left.
Qed.

Lemma sort_by_key_Raise {A} (key : A -> res Q) l :
  (exists x, sort_by_key key l = Raise x) <-> exists p x, p ∈ l /\ key p = Raise x.
Proof.
  rewrite <- keys_of_Raise. unfold sort_by_key.
  destruct (keys_of key l) as [ks|y]; simpl; split; intros [x H]; by eauto.
Qed.

Lemma product_key_set_price_per_unit p :
  product_key (set_price_per_unit p) = product_key p.
Proof. reflexivity. Qed.

Lemma merged_NoDup results :
  NoDup (product_key <$> (set_price_per_unit <$> merge_results results)).
Proof.
  assert (H : forall l : list product,
             product_key <$> (set_price_per_unit <$> l) = product_key <$> l).
  { induction l as [|p l IH]; [done|]. by rewrite !fmap_cons, IH. }
  rewrite H, merge_results_added. apply added_NoDup.
Qed.

Lemma merged_price_per_unit results :
  Forall (fun p => price_per_unit p <> None) (set_price_per_unit <$> merge_results results).
Proof. apply Forall_fmap, Forall_true. done. Qed.

Lemma search_products_cases sort_by results :
  let merged := set_price_per_unit <$> merge_results results in
  (sort_by = "price" /\ (exists x, sort_by_key key_price merged = Raise x) /\
   search_products sort_by results = RespError 500) \/
  (exists ps,
     search_products sort_by results =
       RespProducts ps (length ps)
         (match ps with [] => Some no_products_message | _ => None end) /\
     ps ≡ₚ merged /\
     (sort_by = "price" -> sort_by_key key_price merged = Ok ps) /\
     (sort_by <> "price_per_unit" -> sort_by <> "price" -> ps = merged)).
Proof.
  intros merged. unfold search_products. fold merged.
  destruct (String.eqb sort_by "price_per_unit") eqn:E1.
  { apply String.eqb_eq in E1 as ->. right.
    exists (py_sort flt key_price_per_unit merged).
    split; [by destruct (py_sort _ _ _)|]. split; [apply py_sort_perm|]. done. }
  destruct (String.eqb sort_by "price") eqn:E2.
  { apply String.eqb_eq in E2 as ->.
    destruct (sort_by_key key_price merged) as [ps|x] eqn:Hs.
    - right. exists ps. split; [by destruct ps|].
      split; [by apply (sort_by_key_spec key_price)|]. done.
    - left. split; [done|]. split; [by eexists|done]. }
  right. exists merged. split; [by destruct merged|]. split; [done|].
  apply String.eqb_neq in E2. done.
Qed.
End Response.



Section Gather.
Import App.

Lemma gather_same stores stores' ah jumbo plus :
  (forall s, s ∈ ["ah"; "jumbo"; "plus"] -> s ∈ stores <-> s ∈ stores') ->
  gather stores' ah jumbo plus = gather stores ah jumbo plus.
Proof.
  intros H. unfold gather.
  rewrite (bool_decide_ext ("ah" ∈ stores) ("ah" ∈ stores') (H "ah" ltac:(set_solver))).
  rewrite (bool_decide_ext ("jumbo" ∈ stores) ("jumbo" ∈ stores')
             (H "jumbo" ltac:(set_solver))).
  by rewrite (bool_decide_ext ("plus" ∈ stores) ("plus" ∈ stores')
                (H "plus" ltac:(set_solver))).
Qed.

Lemma gather_sublist stores ah jumbo plus :
  gather stores ah jumbo plus `sublist_of` [ah; jumbo; plus].
Proof.
  unfold gather. repeat case_bool_decide; simpl;
    repeat first [apply sublist_nil_l | apply sublist_skip | by apply sublist_cons
                 | apply sublist_cons ].
Qed.
End Gather.



Section PerUnitErrors.
Import App.

Lemma or_raise_value_error {A} (o : option A) x :
  or_raise ValueError o = Raise x -> x = ValueError.
Proof. destruct o; [done|]. by intros [= <-]. Qed.

Lemma per_count_raises price digits x :
  Fin <$> per_count price digits = Raise x -> x = ValueError.
Proof.
  unfold per_count. destruct (py_int digits); simpl; [done|]. by intros [= <-].
Qed.

Lemma price_number_raises p x :
  price_number p = Raise x ->
  x = ValueError \/ (x = KeyError /\ price p = Absent).
Proof.
  unfold price_number. destruct (price p) as [| |[q|s]]; try done.
  - intros [= <-]. by right.
  - intros ->%or_raise_value_error. by left.
  - intros ->%or_raise_value_error. by left.
Qed.

Lemma calculate_try_raises p x :
  calculate_price_per_unit_try p = Raise x ->
  x = ValueError \/ (x = KeyError /\ price p = Absent /\ price_per_unit_value p = None).
Proof.
  unfold calculate_price_per_unit_try.
  destruct (price_per_unit_value p) as [v|]; [done|].
  destruct (price_number p) as [q|y] eqn:Hq; simpl.
  2: { intros [= <-]. apply price_number_raises in Hq as [->|[-> ?]]; [by left|by right]. }
  intros H. left.
  repeat (first
    [ discriminate H
    | by injection H as <-
    | by apply per_count_raises in H
    | match type of H with
      | context [Re.search ?r ?s] => destruct (Re.search r s)
      | context [py_float ?s] => destruct (py_float s)
      | context [contains ?a ?b] => destruct (contains a b)
      | context [isdigit ?a] => destruct (isdigit a)
      | context [qlt 0 ?g] => destruct (qlt 0 g)
      end
    | progress cbn [mbind res_mbind res_bind or_raise orb] in H ]).
Qed.
End PerUnitErrors.

(** X13. The errors of [calculate_price_per_unit] of [app.py].  With a
    pre-computed value the function returns it without looking at the
    price.  Without one it raises exactly when the product has no
    ['price'] key, and then [KeyError], which its own handler does not
    catch; every other failure (a price or a quantity that does not read
    as a number) gives infinity.  The loop of [search_products] catches
    the [KeyError] as well: the product gets infinity as
    ['price_per_unit']. *)
Theorem X13_price_per_unit_errors (p : product) :
  (forall v, price_per_unit_value p = Some v ->
             App.calculate_price_per_unit p = Ok (Fin v)) /\
  (forall x, App.calculate_price_per_unit p = Raise x ->
             x = KeyError /\ price p = Absent /\ price_per_unit_value p = None) /\
  (price p = Absent -> price_per_unit_value p = None ->
   App.calculate_price_per_unit p = Raise KeyError /\
   price_per_unit (App.set_price_per_unit p) = Some PInf) /\
  (forall s, price p = Has (PStr s) -> price_per_unit_value p = None ->
             py_float (replace "," "." (replace "€" "" s)) = None ->
             App.calculate_price_per_unit p = Ok PInf).
Proof.
  split; [|split; [|split]].
  - intros v Hv. unfold App.calculate_price_per_unit, App.calculate_price_per_unit_try.
    by rewrite Hv.
  - intros x. unfold App.calculate_price_per_unit.
    destruct (App.calculate_price_per_unit_try p) as [v|y] eqn:Ht; [done|].
    apply calculate_try_raises in Ht as [->|(-> & ? & ?)]; [done|].
    by intros [= <-].
  - intros Hp Hv.
    assert (App.calculate_price_per_unit p = Raise KeyError) as H.
    { unfold App.calculate_price_per_unit, App.calculate_price_per_unit_try,
        App.price_number. by rewrite Hv, Hp. }
    split; [done|]. unfold App.set_price_per_unit. simpl. by rewrite Hv, H.
  - intros s Hp Hv Hs.
    unfold App.calculate_price_per_unit, App.calculate_price_per_unit_try,
      App.price_number. by rewrite Hv, Hp, Hs.
Qed.

Lemma X13_price_per_unit_errors_witness :
  App.calculate_price_per_unit
    {| store := Plus; name := Some "Proefpakket"; price := Absent;
       unit_size := Has "500g"; price_per_unit_value := None;
       price_per_unit_unit := None; price_per_unit := None |}
  = Raise KeyError.
Proof.
  by apply (proj1 (proj2 (proj2 (X13_price_per_unit_errors _)))).
Defined.

(** ** The grocery list *)

Section Grocery.
Import GroceryList.

Lemma truthy_nonempty s : truthy s = true <-> s <> "".
Proof. by destruct s. Qed.

Lemma remove_first_sublist x l : remove_first x l `sublist_of` l.
Proof.
  induction l as [|y l IH]; simpl; [done|].
  destruct (String.eqb y x); [by apply sublist_cons|by apply sublist_skip].
Qed.

Lemma filter_absent (x : string) (l : list string) :
  x ∉ l -> filter (fun y => y <> x) l = l.
Proof.
  induction l as [|y l IH]; [done|]. intros [Hy Hl]%not_elem_of_cons.
  rewrite filter_cons_True by done. by rewrite IH.
Qed.

Lemma remove_first_filter x (l : list string) :
  NoDup l -> remove_first x l = filter (fun y => y <> x) l.
Proof.
  induction 1 as [|y l Hy Hl IH]; simpl; [done|].
  destruct (String.eqb y x) eqn:E.
  - apply String.eqb_eq in E as ->. rewrite filter_cons_False by (by intros ?).
    by rewrite filter_absent.
  - apply String.eqb_neq in E. rewrite filter_cons_True by done. by rewrite IH.
Qed.

Lemma dict_set_nonempty k v o : dict_set k v o <> [].
Proof. destruct o as [|[k' v'] o]; simpl; [done|]. by destruct (String.eqb k' k). Qed.

Lemma set_compared_with_truthy product cw product' :
  set_compared_with product cw = Ok product' -> json_truthy product' = true.
Proof.
  destruct product; simpl; try done. intros [= <-]. simpl.
  pose proof (dict_set_nonempty "comparedWith" cw o). by destruct (dict_set _ _ _).
Qed.

Lemma initial_ok : grocery_ok initial.
Proof.
  unfold grocery_ok, initial. simpl.
  split; [constructor|]. split; [by intros ?%elem_of_nil|].
  split; [set_solver|]. apply map_Forall_empty.
Qed.

Lemma handle_ok st r : grocery_ok st -> grocery_ok (handle st r).1.
Proof.
  intros (Hnd & Hne & Hsel & Htrue). destruct r as [item|item| |item product cw|item]; simpl.
  - destruct item as [i|]; [|done]. simpl.
    destruct (truthy i) eqn:Hi; [|done]. simpl.
    case_bool_decide as Hin; [done|]. simpl. unfold grocery_ok. simpl.
    apply truthy_nonempty in Hi.
    split; [|split; [|done]].
    + apply NoDup_app. split; [done|]. split; [|apply NoDup_singleton].
      intros x Hx ->%list_elem_of_singleton. done.
    + rewrite elem_of_app, list_elem_of_singleton. intros [?|?]; done.
  - destruct item as [i|]; [|done]. simpl.
    case_bool_decide as Hin; [|done]. unfold grocery_ok. simpl.
    pose proof (remove_first_sublist i (grocery_list st)) as Hsub.
    split; [by eapply sublist_NoDup|]. split; [|split].
    + intros H. apply Hne. by eapply elem_of_sublist.
    + rewrite dom_delete. set_solver.
    + by apply map_Forall_delete.
  - apply initial_ok.
  - unfold select_product. destruct item as [i|]; [|done].
    destruct (truthy i) eqn:Hi; [|done]. simpl.
    destruct (json_truthy product) eqn:Hp; [|done].
    apply truthy_nonempty in Hi.
    assert (Hins : forall product', json_truthy product' = true ->
              grocery_ok {| grocery_list := grocery_list st;
                            selected_products := <[i:=product']> (selected_products st) |}).
    { intros product' Hp'. unfold grocery_ok. simpl.
      split; [done|]. split; [done|]. split.
      - rewrite dom_insert. set_solver.
      - by apply map_Forall_insert_2. }
    destruct (json_truthy cw); [|by apply Hins].
    destruct (set_compared_with product cw) as [product'|x] eqn:Hset; [|done].
    apply Hins. by eapply set_compared_with_truthy.
  - unfold delete_product. destruct item as [i|]; [|done].
    destruct (truthy i && _); [|done]. unfold grocery_ok. simpl.
    split; [done|]. split; [done|]. split.
    + rewrite dom_delete. set_solver.
    + by apply map_Forall_delete.
Qed.

Lemma run_ok requests st : grocery_ok st -> grocery_ok (run requests st).
Proof.
  revert st. induction requests as [|r requests IH]; intros st Hst; [done|].
  apply IH. by apply handle_ok.
Qed.
End Grocery.

(** X14. The grocery list never holds an item twice and never holds the
    empty text; no product is selected under the empty text, and every
    selected product counts as true.  This holds at the start, every
    request to one of the five routes keeps it, and so it holds after
    every sequence of requests. *)
Theorem X14_grocery_list_invariant :
  grocery_ok GroceryList.initial /\
  (forall st r, grocery_ok st -> grocery_ok (GroceryList.handle st r).1) /\
  (forall requests, grocery_ok (GroceryList.run requests GroceryList.initial)) /\
  (forall requests,
     NoDup (GroceryList.grocery_list (GroceryList.run requests GroceryList.initial))).
Proof.
  split; [apply initial_ok|]. split; [apply handle_ok|]. split.
  - intros requests. apply run_ok, initial_ok.
  - intros requests. apply (run_ok requests _ initial_ok).
Qed.

Lemma X14_grocery_list_invariant_witness :
  grocery_ok
    (GroceryList.run
       [GroceryList.AddItem (Some "melk"); GroceryList.AddItem (Some "melk");
        GroceryList.AddItem (Some ""); GroceryList.AddItem None]
       GroceryList.initial).
Proof. apply (proj1 (proj2 (proj2 X14_grocery_list_invariant))). Defined.

Section GroceryRemove.
Import GroceryList.

Lemma remove_first_absent x l : x ∉ l -> remove_first x l = l.
Proof.
  induction l as [|y l IH]; [done|]. intros [Hy Hl]%not_elem_of_cons. simpl.
  destruct (String.eqb y x) eqn:E; [|by rewrite IH].
  apply String.eqb_eq in E. congruence.
Qed.

Lemma remove_first_app_new x l : x ∉ l -> remove_first x (l ++ [x]) = l.
Proof.
  induction l as [|y l IH]; simpl.
  - intros _. by rewrite String.eqb_refl.
  - intros [Hy Hl]%not_elem_of_cons.
    destruct (String.eqb y x) eqn:E; [|by rewrite IH].
    apply String.eqb_eq in E. congruence.
Qed.
End GroceryRemove.

(** X15. Removing an item.  In a state that the routes can reach,
    [remove_item] leaves a list without the item, in which every other
    item keeps its place, and it deletes the selected product of the item
    only when the item was on the list; the selected products of the other
    items stay.  Adding an item that is not on the list and removing it
    again gives back the list. *)
Theorem X15_remove_item (st : GroceryList.state) (i : string) :
  grocery_ok st ->
  let st' := (GroceryList.remove_item (Some i) st).1 in
  (i ∉ GroceryList.grocery_list st') /\
  GroceryList.grocery_list st' =
    filter (fun j => j <> i) (GroceryList.grocery_list st) /\
  (forall j, j <> i ->
     GroceryList.selected_products st' !! j = GroceryList.selected_products st !! j) /\
  (i ∈ GroceryList.grocery_list st -> GroceryList.selected_products st' !! i = None) /\
  (i ∉ GroceryList.grocery_list st -> st' = st) /\
  (i ∉ GroceryList.grocery_list st -> i <> "" ->
   GroceryList.grocery_list
     (GroceryList.remove_item (Some i) (GroceryList.add_item (Some i) st).1).1
   = GroceryList.grocery_list st).
Proof.
  intros (Hnd & Hne & _) st'. subst st'. unfold GroceryList.remove_item. simpl.
  case_bool_decide as Hin; simpl.
  - rewrite (remove_first_filter _ _ Hnd).
    split; [|split; [done|split; [|split; [|split]]]].
    + rewrite list_elem_of_filter. by intros [? _].
    + intros j Hj. by rewrite lookup_delete_ne.
    + intros _. apply lookup_delete_eq.
    + done.
    + intros Hn. by destruct Hn.
  - split; [done|]. split; [by rewrite filter_absent|].
    split; [done|]. split; [done|]. split; [done|].
    intros _ Hi. apply truthy_nonempty in Hi.
    rewrite Hi. simpl. rewrite bool_decide_eq_true_2 by set_solver. simpl.
    by apply remove_first_app_new.
Qed.

Lemma X15_remove_item_witness :
  GroceryList.grocery_list
    (GroceryList.remove_item (Some "melk")
       (GroceryList.run [GroceryList.AddItem (Some "brood");
                         GroceryList.AddItem (Some "melk");
                         GroceryList.AddItem (Some "kaas")] GroceryList.initial)).1
  = filter (fun j => j <> "melk") ["brood"; "melk"; "kaas"].
Proof.
  refine (proj1 (proj2 (X15_remove_item _ "melk" _))).
  apply run_ok, initial_ok.
Defined.



(** ** Brands and links of the Plus scraper *)

Section PlusNames.
Import PlusFields.

Lemma lstrip_empty_iff s : lstrip s = "" <-> all_chars is_space s = true.
Proof.
  induction s as [|c s IH]; simpl; [done|].
  destruct (is_space c); simpl; [done|]. split; done.
Qed.

Lemma prefix_until_space w : String.prefix (until_space w) w = true.
Proof.
  induction w as [|c w IH]; simpl; [done|].
  destruct (is_space c); simpl; [done|]. by destruct (ascii_dec c c).
Qed.

Lemma until_space_no_space w : any_char is_space (until_space w) = false.
Proof.
  induction w as [|c w IH]; simpl; [done|].
  destruct (is_space c) eqn:E; simpl; [done|]. by rewrite E.
Qed.

Lemma first_word_spec name :
  match first_word name with
  | Raise x => x = OtherError "IndexError" /\ all_chars is_space name = true
  | Ok w => all_chars is_space name = false /\ truthy w = true /\
            String.prefix w (lstrip name) = true /\ any_char is_space w = false
  end.
Proof.
  unfold first_word. destruct (lstrip name) as [|c w] eqn:E.
  - split; [done|]. by apply lstrip_empty_iff.
  - split.
    + destruct (all_chars is_space name) eqn:Hs; [|done].
      apply lstrip_empty_iff in Hs. congruence.
    + assert (is_space c = false) as Hc.
      { clear -E. induction name as [|d name IH]; [done|]. simpl in E.
        destruct (is_space d) eqn:Hd; [by apply IH|]. by injection E as <- _. }
      rewrite <- E at 1. rewrite E.
      split; [by simpl; rewrite Hc|]. split; [apply prefix_until_space|].
      apply until_space_no_space.
Qed.

Lemma first_brand_spec brands name brand :
  first_brand brands name = Some brand ->
  brand ∈ brands /\ String.prefix brand name = true.
Proof.
  induction brands as [|b brands IH]; simpl; [done|].
  destruct (String.prefix b name) eqn:E.
  - intros [= <-]. split; [by apply elem_of_cons; left|done].
  - intros [? ?]%IH. split; [by apply elem_of_cons; right|done].
Qed.

Lemma known_brand_found brand rest :
  brand ∈ known_brands -> first_brand known_brands (brand +:+ rest) = Some brand.
Proof.
  unfold known_brands. intros H.
  repeat (apply elem_of_cons in H as [->|H];
          [rewrite !append_cons, append_nil; cbn [first_brand String.prefix];
           repeat (destruct (ascii_dec _ _) as [?|?]; [try discriminate|try done]);
           by destruct rest|]).
  by apply elem_of_nil in H.
Qed.
End PlusNames.

(** X17. [extract_brand] of the Plus scraper raises exactly for a name
    that is not empty and holds white space only, and then [IndexError]
    from taking the first of no words.  For every other name it returns a
    text that the name, without leading white space, starts with: the
    empty text for the empty name, and otherwise a known brand or the
    first word, which is not empty and holds no white space.  A name that
    starts with a known brand gets that brand, also when the first word
    goes on after it. *)
Theorem X17_plus_extract_brand (name : string) :
  (forall x, PlusFields.extract_brand name = Raise x <->
             x = OtherError "IndexError" /\ truthy name = true /\
             all_chars is_space name = true) /\
  (forall brand, PlusFields.extract_brand name = Ok brand ->
     String.prefix brand (lstrip name) = true /\
     (truthy brand = truthy name) /\
     (brand ∈ PlusFields.known_brands \/ any_char is_space brand = false)) /\
  (forall brand rest, brand ∈ PlusFields.known_brands ->
     PlusFields.extract_brand (brand +:+ rest) = Ok brand).
Proof.
  split; [|split].
  - intros x. unfold PlusFields.extract_brand.
    destruct name as [|c name]; [by split; [|intros (_ & ? & _)]|].
    cbn [truthy negb].
    destruct (PlusFields.first_brand _ _) as [b|] eqn:Hb.
    + split; [done|]. intros (_ & _ & Hs).
      apply first_brand_spec in Hb as [Hin Hp]. exfalso.
      unfold PlusFields.known_brands in Hin. simpl in Hs.
      apply andb_true_iff in Hs as [Hc _].
      repeat (apply elem_of_cons in Hin as [->|Hin];
              [cbn [String.prefix] in Hp; destruct (ascii_dec _ c) as [<-|];
               [by vm_compute in Hc|done]|]).
      by apply elem_of_nil in Hin.
    + pose proof (first_word_spec (String c name)) as Hw.
      destruct (PlusFields.first_word (String c name)) as [w|y].
      * split; [done|]. intros (_ & _ & Hs). destruct Hw as [Hw _]. congruence.
      * destruct Hw as [-> Hs]. split; [by intros [= <-]|by intros (-> & _)].
  - intros brand. unfold PlusFields.extract_brand.
    destruct name as [|c name]; [by intros [= <-]; split; [|split; [|right]]|].
    cbn [truthy negb].
    destruct (PlusFields.first_brand _ _) as [b|] eqn:Hb.
    + intros [= <-]. apply first_brand_spec in Hb as [Hin Hp].
      assert (Hc : is_space c = false /\ truthy b = true).
      { unfold PlusFields.known_brands in Hin.
        repeat (apply elem_of_cons in Hin as [->|Hin];
                [cbn [String.prefix] in Hp; destruct (ascii_dec _ c) as [<-|]; done|]).
        by apply elem_of_nil in Hin. }
      destruct Hc as [Hc Ht]. simpl. rewrite Hc. split; [done|]. split; [done|by left].
    + pose proof (first_word_spec (String c name)) as Hw.
      destruct (PlusFields.first_word (String c name)) as [w|y]; [|done].
      intros [= <-]. destruct Hw as (_ & Ht & Hp & Hs).
      split; [done|]. split; [done|by right].
  - intros brand rest Hin. unfold PlusFields.extract_brand.
    rewrite (known_brand_found _ _ Hin).
    assert (truthy (brand +:+ rest) = true) as ->; [|done].
    unfold PlusFields.known_brands in Hin.
    repeat (apply elem_of_cons in Hin as [->|Hin]; [by rewrite append_cons|]).
    by apply elem_of_nil in Hin.
Qed.

Lemma X17_plus_extract_brand_witness :
  PlusFields.extract_brand "   " = Raise (OtherError "IndexError") /\
  PlusFields.extract_brand "Jumbolino kaas" = Ok "Jumbo".
Proof.
  split.
  - by apply (proj1 (X17_plus_extract_brand "   ")).
  - apply (proj2 (proj2 (X17_plus_extract_brand "")) "Jumbo" "lino kaas").
    unfold PlusFields.known_brands. set_solver.
Defined.

Section PlusLinks.
Import PlusFields.

Lemma all_chars_append p x y :
  all_chars p (x +:+ y) = all_chars p x && all_chars p y.
Proof.
  induction x as [|c x IH]; [done|]. rewrite append_cons. simpl.
  by rewrite IH, andb_assoc.
Qed.

Lemma all_chars_impl (p q : ascii -> bool) s :
  (forall c, p c = true -> q c = true) -> all_chars p s = true -> all_chars q s = true.
Proof.
  intros Hpq. induction s as [|c s IH]; [done|]. simpl.
  intros [Hc Hs]%andb_true_iff. by rewrite (Hpq c Hc), IH.
Qed.

Lemma all_chars_lstrip p s : all_chars p s = true -> all_chars p (lstrip s) = true.
Proof.
  induction s as [|c s IH]; [done|]. simpl. intros [Hc Hs]%andb_true_iff.
  destruct (is_space c); [by apply IH|]. simpl. by rewrite Hc, Hs.
Qed.

Lemma all_chars_rev_onto p s acc :
  all_chars p (rev_onto s acc) = all_chars p s && all_chars p acc.
Proof.
  revert acc. induction s as [|c s IH]; intros acc; [done|]. simpl.
  rewrite IH. simpl. by destruct (p c), (all_chars p s).
Qed.

Lemma all_chars_rev p s : all_chars p (rev s) = all_chars p s.
Proof. unfold rev. rewrite all_chars_rev_onto. simpl. apply andb_true_r. Qed.

Lemma all_chars_strip p s : all_chars p s = true -> all_chars p (strip s) = true.
Proof.
  intros Hs. unfold strip, rstrip. rewrite all_chars_rev.
  apply all_chars_lstrip. rewrite all_chars_rev. by apply all_chars_lstrip.
Qed.

(** Replacing the runs of a class by a text leaves the characters
    outside the class and the characters of the text. *)
Lemma all_chars_squeeze_from (p q keep : ascii -> bool) rep b s :
  (forall c, keep c = true -> p c = false -> q c = true) ->
  all_chars q rep = true -> all_chars keep s = true ->
  all_chars q (squeeze_from b p rep s) = true.
Proof.
  intros Hq Hrep. revert b. induction s as [|c s IH]; intros b; [done|]. simpl.
  intros [Hc Hs]%andb_true_iff. destruct (p c) eqn:Hp.
  - destruct b; [by apply IH|]. rewrite all_chars_append, Hrep. by apply IH.
  - simpl. rewrite (Hq c Hc Hp). by apply IH.
Qed.

(** After a run is replaced by one character of the class, no two
    characters of the class are side by side. *)
Lemma squeeze_from_hyphens b s :
  contains "--" (squeeze_from b (Ascii.eqb "-") "-" s) = false /\
  (b = true -> head_sat (Ascii.eqb "-") (squeeze_from b (Ascii.eqb "-") "-" s) = false).
Proof.
  revert b. induction s as [|c s IH]; intros b; [done|].
  cbn [squeeze_from]. destruct (Ascii.eqb "-" c) eqn:Hc.
  - destruct b; [apply IH|]. split; [|done].
    destruct (IH true) as [Hno Hhead]. specialize (Hhead eq_refl).
    rewrite append_cons, append_nil. cbn [contains]. rewrite Hno, orb_false_r.
    destruct (squeeze_from true _ _ s) as [|d r]; [done|].
    simpl in Hhead. cbn [String.prefix].
    destruct (ascii_dec "-" "-") as [_|]; [|done].
    destruct (ascii_dec "-" d) as [<-|]; [|done]. done.
  - destruct (IH false) as [Hno _]. split.
    + cbn [contains String.prefix]. rewrite Hno, orb_false_r.
      destruct (ascii_dec "-" c) as [<-|]; [|done]. done.
    + intros _. cbn [head_sat]. by rewrite Hc.
Qed.

Lemma url_keep_not_space c : url_keep c = true -> is_space c = false -> url_char c = true.
Proof.
  unfold url_keep, url_char. intros H Hs. rewrite Hs, orb_false_r in H. done.
Qed.

Lemma url_base_chars name : all_chars url_char (url_base name) = true.
Proof.
  unfold url_base, squeeze.
  apply (all_chars_squeeze_from _ _ url_char); [done|done|].
  apply (all_chars_squeeze_from _ _ url_keep); [apply url_keep_not_space|done|].
  apply all_chars_strip, filter_chars_all.
Qed.
End PlusLinks.

(** X18. The link of a Plus product.  The part of the path that is made
    of the product name holds only lower-case letters, digits and hyphens,
    whatever the name is; before the product type "-tray" is added it never
    holds two hyphens side by side.  The link is the address of the shop,
    that part, a hyphen and the product id. *)
Theorem X18_plus_product_link (name product_id : string) :
  all_chars url_char (PlusFields.url_name name) = true /\
  contains "--" (PlusFields.url_base name) = false /\
  (contains "plakken" (lower name) = true ->
   PlusFields.url_name name = PlusFields.url_base name +:+ "-tray") /\
  (contains "plakken" (lower name) = false ->
   PlusFields.url_name name = PlusFields.url_base name) /\
  PlusFields.product_link name product_id =
    "https://www.plus.nl/product/" +:+ PlusFields.url_name name +:+ "-" +:+ product_id.
Proof.
  split; [|split; [|split; [|split]]].
  - unfold PlusFields.url_name. destruct (contains _ _); [|apply url_base_chars].
    by rewrite all_chars_append, url_base_chars.
  - apply squeeze_from_hyphens.
  - intros H. unfold PlusFields.url_name. by rewrite H.
  - intros H. unfold PlusFields.url_name. by rewrite H.
  - done.
Qed.

Lemma X18_plus_product_link_witness :
  PlusFields.product_link "PLUS Goudse Kaas 48+ - Plakken (200g)" "140299"
  = "https://www.plus.nl/product/plus-goudse-kaas-48-plakken-200g-tray-140299".
Proof.
  rewrite (proj2 (proj2 (proj2 (proj2
    (X18_plus_product_link "PLUS Goudse Kaas 48+ - Plakken (200g)" "140299"))))).
  reflexivity.
Defined.

(** ** The products of a fresh AH scrape *)

Section AhFresh.
Import Cache.

Lemma ah_card_product_shape c p :
  AhScraper.card_product c = Some p ->
  store p = AH /\
  (exists t, AhScraper.title c = Some t /\ name p = Some (strip t)) /\
  (exists q, price p = Has (PFloat q)) /\
  (unit_size p = Null <-> AhScraper.unit_size_text c = None) /\
  unit_size p <> Absent /\
  price_per_unit_value p = None /\ price_per_unit_unit p = None /\
  price_per_unit p = None.
Proof.
  unfold AhScraper.card_product. intros H.
  destruct (AhScraper.title c) as [t|]; simpl in H; [|done].
  repeat match type of H with
         | context [mbind _ ?o] => destruct o; simpl in H; [|done]
         | context [if negb ?b then _ else _] => destruct b; simpl in H; [|done]
         end.
  simplify_eq. simpl. split; [done|]. split; [by eexists|]. split; [by eexists|].
  destruct (AhScraper.unit_size_text c); simpl; by repeat split.
Qed.

Lemma omap_length_le {A B} (f : A -> option B) l : length (omap f l) <= length l.
Proof.
  induction l as [|a l IH]; simpl; [done|].
  change (list_omap A B f l) with (omap f l). destruct (f a); simpl; lia.
Qed.
End AhFresh.

(** X19. The products of a fresh AH scrape.  A call that does not answer
    from the cache and returns a list was given the cards of the page; the
    list holds, in another order, the products of the cards that the loop
    keeps, so that it is not longer than the page.  Every product in it
    has the store "ah", the stripped title of its card as name, a float
    price, a unit size that is [None] exactly when the card shows none, and
    no price per unit yet. *)
Theorem X19_ah_fresh_products
    (e : Cache.env) (fetch : res (list AhScraper.card)) (term : string)
    (fs fs' : gmap string Cache.cache_file) (l : list product) :
  Cache.cached_products "ah" term e fs = None ->
  AhScraper.scrape_ah_products e fetch term fs = (Ok l, fs') ->
  exists cards,
    fetch = Ok cards /\
    l ≡ₚ omap AhScraper.card_product cards /\
    length l <= length cards /\
    Forall (fun p =>
              exists c, c ∈ cards /\ AhScraper.card_product c = Some p /\
                store p = AH /\
                (exists t, AhScraper.title c = Some t /\ name p = Some (strip t)) /\
                (exists q, price p = Has (PFloat q)) /\
                (unit_size p = Null <-> AhScraper.unit_size_text c = None) /\
                unit_size p <> Absent /\
                price_per_unit_value p = None /\ price_per_unit_unit p = None /\
                price_per_unit p = None) l.
Proof.
  intros Hc Heq. pose proof (scrape_ah_outcome e fetch term fs) as H.
  rewrite Heq in H. simpl in H.
  assert (Hperm : exists cards, fetch = Ok cards /\ l ≡ₚ omap AhScraper.card_product cards).
  { inversion H as [cached Hc'|x|cards ? ? Hnil|cards l' ? ? Hne Hp Hs]; simplify_eq.
    - exists cards. by rewrite Hnil.
    - by exists cards. }
  destruct Hperm as (cards & -> & Hperm). exists cards.
  split; [done|]. split; [done|]. split.
  - rewrite Hperm. apply omap_length_le.
  - rewrite Hperm. apply Forall_forall. intros p (c & Hin & Hp)%list_elem_of_omap.
    exists c. split; [done|]. split; [done|]. by apply ah_card_product_shape.
Qed.

Lemma X19_ah_fresh_products_witness :
  exists cards,
    Ok ah_example_cards = Ok cards /\
    ah_example_products ≡ₚ omap AhScraper.card_product cards /\
    length ah_example_products <= length cards.
Proof.
  destruct (X19_ah_fresh_products example_env (Ok ah_example_cards) "kaas" ∅
              (AhScraper.scrape_ah_products example_env (Ok ah_example_cards) "kaas" ∅).2
              ah_example_products)
    as (cards & H1 & H2 & H3 & _); [reflexivity|reflexivity|].
  by exists cards.
Defined.

(** X20. A cache file that cannot be used is never served and is
    replaced by the next scrape with products.  With a file that cannot be
    read, or whose timestamp is not a date, each scraper fetches whatever
    the clock says; when the fetch gives a non-empty list, the file holds
    that list afterwards, with the time of the save, and can be loaded;
    when the scraper returns the empty list, the file stays as it is. *)
Theorem X20_unusable_cache_file_replaced
    (e : Cache.env) (term : string) (fs : gmap string Cache.cache_file) :
  (forall prefix,
     unusable (fs !! Cache.get_cache_file prefix term) ->
     Cache.cached_products prefix term e fs = None) /\
  (unusable (fs !! Cache.get_cache_file "ah" term) ->
   forall fetch l fs',
     AhScraper.scrape_ah_products e fetch term fs = (Ok l, fs') ->
     (l <> [] ->
      fs' !! Cache.get_cache_file "ah" term
      = Some (Cache.CacheData (Cache.TsAt (Cache.save_time e)) l)) /\
     (l = [] -> fs' = fs)) /\
  (unusable (fs !! Cache.get_cache_file "jumbo" term) ->
   forall crawl l fs',
     JumboScraper.scrape_jumbo_products e crawl term fs = (Ok l, fs') ->
     (l <> [] ->
      fs' !! Cache.get_cache_file "jumbo" term
      = Some (Cache.CacheData (Cache.TsAt (Cache.save_time e)) l)) /\
     (l = [] -> fs' = fs)) /\
  (unusable (fs !! Cache.get_cache_file "plus" term) ->
   forall crawl l fs',
     PlusScraper.scrape_plus_products e crawl term fs = (Ok l, fs') ->
     (l <> [] ->
      fs' !! Cache.get_cache_file "plus" term
      = Some (Cache.CacheData (Cache.TsAt (Cache.save_time e)) l)) /\
     (l = [] -> fs' = fs)).
Proof.
  assert (Hmiss : forall prefix,
    unusable (fs !! Cache.get_cache_file prefix term) ->
    Cache.cached_products prefix term e fs = None).
  { intros prefix Hfile. unfold Cache.cached_products.
    by destruct Hfile as [->|[ps ->]]. }
  assert (Hfile : forall prefix,
    unusable (fs !! Cache.get_cache_file prefix term) ->
    Cache.writable (Cache.get_cache_file prefix term) fs = true).
  { intros prefix Hfile. apply writable_present.
    by destruct Hfile as [->|[ps ->]]. }
  split; [done|]. split; [|split].
  - intros Hu fetch l fs' Heq. pose proof (Hmiss _ Hu) as Hc. split.
    + intros Hl. destruct (ah_fresh_call _ _ _ _ _ _ Hc Heq) as (_ & _ & Hsave).
      destruct (Hsave Hl) as (-> & _). by apply save_to_cache_lookup, Hfile.
    + intros ->. pose proof (scrape_ah_outcome e fetch term fs) as H.
      rewrite Heq in H. simpl in H. by inversion H.
  - intros Hu crawl l fs' Heq. pose proof (Hmiss _ Hu) as Hc. split.
    + intros Hl. destruct (jumbo_fresh_call _ _ _ _ _ _ Hc Heq) as (_ & _ & Hsave).
      destruct (Hsave Hl) as (-> & _). by apply save_to_cache_lookup, Hfile.
    + intros ->. pose proof (scrape_jumbo_outcome e crawl term fs) as H.
      rewrite Heq in H. simpl in H. by inversion H.
  - intros Hu crawl l fs' Heq. pose proof (Hmiss _ Hu) as Hc. split.
    + intros Hl. rewrite (plus_fresh_call e crawl term fs l fs'); [| |done|done].
      * by apply save_to_cache_lookup, Hfile.
      * intros c cached. by rewrite Hc.
    + intros ->. destruct (scrape_plus_outcome e crawl term fs) as (l & Hl & Hfs).
      rewrite Heq in Hl, Hfs. simpl in *. simplify_eq.
      by destruct Hfs as [?|[? _]].
Qed.

Lemma X20_unusable_cache_file_replaced_witness :
  (AhScraper.scrape_ah_products example_env (Ok ah_example_cards) "kaas"
     {[ "ah_kaas_cache.json" := Cache.Unreadable ]}).2 !! "ah_kaas_cache.json"
  = Some (Cache.CacheData (Cache.TsAt (Cache.hours 100)) ah_example_products).
Proof.
  refine (proj1 (proj1 (proj2 (X20_unusable_cache_file_replaced example_env "kaas"
            {[ "ah_kaas_cache.json" := Cache.Unreadable ]})) _
            (Ok ah_example_cards) ah_example_products _ _) _).
  - left. reflexivity.
  - reflexivity.
  - discriminate.
Defined.

(** ** What the patterns capture *)

Ltac invert_outer :=
  repeat match goal with
  | H : matches (Re.Seq _ _) _ _ _ _ _ _ |- _ => inversion H; subst; clear H
  | H : matches (Re.Lit _) _ _ _ _ _ _ |- _ => inversion H; subst; clear H
  | H : matches (Re.Star _) _ _ _ _ _ _ |- _ => inversion H; subst; clear H
  | H : matches (Re.Chr _) _ _ _ _ _ _ |- _ => inversion H; subst; clear H
  | H : matches Re.Eps _ _ _ _ _ _ |- _ => inversion H; subst; clear H
  end.

Section Captures.
Import Re.

Lemma matches_digits i prev s caps prev' s' m :
  matches (Grp i (Rep1 is_digit)) prev s caps prev' s' m ->
  exists g, m = (i, g) :: caps /\ isdigit g = true.
Proof.
  unfold Rep1. intros H. inversion H; subst; clear H. invert_outer.
  rewrite take_append_cons. eexists. split; [done|]. simpl. by apply andb_true_iff.
Qed.

Lemma matches_decimal i prev s caps prev' s' m :
  matches (Grp i (Seq (Rep1 is_digit) (Opt (Seq (Chr (one_of ".,")) (Rep1 is_digit)))))
          prev s caps prev' s' m ->
  exists g, m = (i, g) :: caps /\ decimal_number g.
Proof.
  unfold Rep1, Opt. intros H. inversion H; subst; clear H.
  match goal with H : matches (Seq _ _) _ _ _ _ _ _ |- _ => inversion H; subst; clear H end.
  match goal with H : matches (Alt _ _) _ _ _ _ _ _ |- _ => inversion H; subst; clear H end.
  - invert_outer.
    match goal with
    | |- context [take _ (String ?c (?pre +:+ String ?sep (String ?c' (?pre' +:+ ?rest))))] =>
        replace (String c (pre +:+ String sep (String c' (pre' +:+ rest))))
          with ((String c pre +:+ String sep (String c' pre')) +:+ rest)
          by (by rewrite append_assoc);
        rewrite take_append;
        exists (String c pre +:+ String sep (String c' pre')); split; [done|];
        exists (String c pre); split; [simpl; by apply andb_true_iff|];
        right; exists sep, (String c' pre')
    end.
    split; [|split; [simpl; by apply andb_true_iff|done]].
    match goal with H : one_of _ _ = true |- _ => unfold one_of in H; simpl in H end.
    match goal with
    | H : _ || (_ || false) = true |- _ =>
        apply orb_true_iff in H as [H|H];
        [left|right; rewrite orb_false_r in H]; by apply Ascii.eqb_eq in H
    end.
  - invert_outer. rewrite take_append_cons. eexists. split; [done|].
    eexists. split; [|by left]. simpl. by apply andb_true_iff.
Qed.

Lemma replace_comma_digits a rest :
  all_chars is_digit a = true ->
  replace "," "." (a +:+ rest) = a +:+ replace "," "." rest.
Proof.
  unfold replace. induction a as [|c a IH]; [done|]. simpl all_chars.
  intros [Hc Ha]%andb_true_iff. rewrite !append_cons. cbn [replace_from].
  rewrite prefix_one_char.
  destruct (Ascii.eqb "," c) eqn:E; [|by rewrite IH].
  apply Ascii.eqb_eq in E as <-. by vm_compute in Hc.
Qed.

(** A captured decimal number reads as a float that is not negative. *)
Lemma py_float_decimal_number g :
  decimal_number g -> exists q, py_float (replace "," "." g) = Some q /\ (0 <= q)%Q.
Proof.
  intros (a & Ha & [->|(sep & b & Hsep & Hb & ->)]).
  - rewrite replace_no_char by (apply digits_no_char; [done|by apply isdigit_all_chars]).
    rewrite py_float_whole by done. eexists. split; [done|].
    unfold Qle, inject_Z. simpl. lia.
  - rewrite replace_comma_digits by by apply isdigit_all_chars.
    assert (replace "," "." (String sep b) = "." +:+ b) as ->.
    { unfold replace. cbn [replace_from]. rewrite prefix_one_char.
      fold (replace "," "." b).
      rewrite (replace_no_char "," "." b)
        by (apply digits_no_char; [done|by apply isdigit_all_chars]).
      destruct Hsep as [-> | ->]; [done|].
      change (String.length "," - 1) with 0. fold (replace "," "." b).
      by rewrite (replace_no_char "," "." b)
        by (apply digits_no_char; [done|by apply isdigit_all_chars]). }
    rewrite py_float_digits;
      [|done|by apply isdigit_truthy|by apply isdigit_all_chars].
    eexists. split; [done|]. apply decimal_val_nonneg.
Qed.

Lemma search_sound r s m :
  search r s = Some m -> exists prev0 s0 prev' s', matches r prev0 s0 [] prev' s' m.
Proof. apply search_from_sound. Qed.

Lemma plus_re_stuk_group u m :
  search PlusScraper.re_stuk u = Some m -> isdigit (grp 1 m) = true.
Proof.
  intros (? & ? & ? & ? & H)%search_sound.
  unfold PlusScraper.re_stuk, seqs in H. simpl in H.
  inversion H; subst; clear H.
  match goal with H : matches (Grp _ _) _ _ _ _ _ _ |- _ =>
    apply matches_digits in H as (g & -> & Hg) end.
  by invert_outer.
Qed.

Lemma plus_re_grams_group u m :
  search PlusScraper.re_grams u = Some m -> isdigit (grp 1 m) = true.
Proof.
  intros (? & ? & ? & ? & H)%search_sound.
  unfold PlusScraper.re_grams, seqs in H. simpl in H.
  inversion H; subst; clear H.
  match goal with H : matches (Grp _ _) _ _ _ _ _ _ |- _ =>
    apply matches_digits in H as (g & -> & Hg) end.
  by invert_outer.
Qed.

Lemma plus_re_per_gram_group u m :
  search PlusScraper.re_per_gram u = Some m -> decimal_number (grp 1 m).
Proof.
  intros (? & ? & ? & ? & H)%search_sound.
  unfold PlusScraper.re_per_gram, PlusScraper.re_decimal, seqs in H. simpl in H.
  do 3 (inversion H; subst; clear H;
        match goal with H' : matches (Seq _ _) _ _ _ _ _ _ |- _ => rename H' into H end).
  inversion H; subst; clear H.
  match goal with H : matches (Grp _ _) _ _ _ _ _ _ |- _ =>
    apply matches_decimal in H as (g & -> & Hg) end.
  by invert_outer.
Qed.

Lemma plus_re_per_kg_group u m :
  search PlusScraper.re_per_kg u = Some m -> decimal_number (grp 1 m).
Proof.
  intros (? & ? & ? & ? & H)%search_sound.
  unfold PlusScraper.re_per_kg, PlusScraper.re_decimal, seqs in H. simpl in H.
  do 3 (inversion H; subst; clear H;
        match goal with H' : matches (Seq _ _) _ _ _ _ _ _ |- _ => rename H' into H end).
  inversion H; subst; clear H.
  match goal with H : matches (Grp _ _) _ _ _ _ _ _ |- _ =>
    apply matches_decimal in H as (g & -> & Hg) end.
  by invert_outer.
Qed.
End Captures.

(** ** The failures of the Plus loop *)

Section PlusFailures.
Import Re.

Lemma py_int_digits g : isdigit g = true -> py_int g = Some (Z.of_N (digits_val g)).
Proof. intros Hg. unfold py_int. by rewrite Hg. Qed.

Lemma plus_per_piece_Ok price u : exists r, PlusScraper.per_piece price u = Ok r.
Proof.
  unfold PlusScraper.per_piece.
  destruct (search PlusScraper.re_stuk u) as [m|] eqn:Hm; [|by eexists].
  rewrite (py_int_digits _ (plus_re_stuk_group _ _ Hm)). simpl. by eexists.
Qed.

Lemma plus_per_gram_Ok price u : exists r, PlusScraper.per_gram price u = Ok r.
Proof.
  unfold PlusScraper.per_gram.
  destruct (search PlusScraper.re_per_gram u) as [m|] eqn:Hm; [|by eexists].
  destruct (py_float_decimal_number _ (plus_re_per_gram_group _ _ Hm)) as (q & -> & _).
  simpl. by eexists.
Qed.

Lemma plus_per_kg_Ok price u : exists r, PlusScraper.per_kg price u = Ok r.
Proof.
  unfold PlusScraper.per_kg.
  destruct (search PlusScraper.re_per_kg u) as [m|] eqn:Hm; [|by eexists].
  destruct (py_float_decimal_number _ (plus_re_per_kg_group _ _ Hm)) as (q & -> & _).
  simpl. by eexists.
Qed.

Lemma plus_calculate_price_per_unit_Ok price u :
  exists r, PlusScraper.calculate_price_per_unit price u = Ok r.
Proof.
  unfold PlusScraper.calculate_price_per_unit.
  destruct u as [u|]; [|by eexists]. destruct (negb (truthy u)); [by eexists|].
  destruct (plus_per_piece_Ok price (lower u)) as [[a|] ->]; simpl; [by eexists|].
  destruct (plus_per_gram_Ok price (lower u)) as [[b|] ->]; simpl; [by eexists|].
  apply plus_per_kg_Ok.
Qed.

(** The gram amount that the loop reads from a unit size. *)
Lemma plus_unit_price_fields_spec price u :
  PlusScraper.unit_price_fields price u =
    match (if contains "g" u then search PlusScraper.re_grams u else None) with
    | Some m =>
        if (digits_val (grp 1 m) =? 0)%N then Ok None
        else match PlusScraper.calculate_price_per_unit price (Some u) with
             | Ok (Some vu) => Ok (Some vu)
             | Ok None => Raise TypeError
             | Raise x => Raise x
             end
    | None => Ok None
    end.
Proof.
  unfold PlusScraper.unit_price_fields.
  destruct (contains "g" u); [|done].
  destruct (search PlusScraper.re_grams u) as [m|] eqn:Hm; [|done].
  rewrite (py_float_whole _ (plus_re_grams_group _ _ Hm)).
  unfold or_raise, mbind, res_mbind, res_bind. rewrite qlt_0_inject.
  destruct (digits_val (grp 1 m) =? 0)%N; [done|]. cbn [negb].
  by destruct (PlusScraper.calculate_price_per_unit price (Some u)) as [[?|]|].
Qed.

Lemma plus_unit_price_fields_raises price u x :
  PlusScraper.unit_price_fields price u = Raise x <->
  x = TypeError /\
  exists m, contains "g" u = true /\ search PlusScraper.re_grams u = Some m /\
            digits_val (grp 1 m) <> 0%N /\
            PlusScraper.calculate_price_per_unit price (Some u) = Ok None.
Proof.
  rewrite plus_unit_price_fields_spec.
  destruct (contains "g" u); [|by split; [|intros (_ & ? & ? & _)]].
  destruct (search PlusScraper.re_grams u) as [m|]; [|by split; [|intros (_ & ? & _ & ? & _)]].
  destruct (digits_val (grp 1 m) =? 0)%N eqn:Hz.
  { apply N.eqb_eq in Hz. split; [done|]. intros (_ & m' & _ & Hm' & ? & _).
    injection Hm' as <-. done. }
  apply N.eqb_neq in Hz.
  destruct (plus_calculate_price_per_unit_Ok price (Some u)) as [[vu|] Hr]; rewrite Hr.
  - split; [done|]. by intros (_ & ? & _ & _ & _ & ?).
  - split; [intros [= <-]; split; [done|]; by exists m|by intros [-> _]].
Qed.
End PlusFailures.

(** X21. The failures of the Plus loop.  The function
    [calculate_price_per_unit] of the Plus scraper never raises.  The body
    of the loop raises in exactly two cases: [TypeError], when the unit
    size holds digits followed by the letter g with a value other than zero
    and [calculate_price_per_unit] finds no quantity in it, and
    [AttributeError], when the image address holds a product id and the
    name is [None].  A page is turned into a product list exactly when no
    product on it is one of these; the list then has a product for every
    product of the page. *)
Theorem X21_plus_loop_failures (r : PlusScraper.raw_product) :
  let unit_size := default "" (PlusScraper.get_or_empty (PlusScraper.raw_unit_size r)) in
  let image_url := default "" (PlusScraper.get_or_empty (PlusScraper.raw_image r)) in
  let no_quantity :=
    exists m, contains "g" unit_size = true /\
              Re.search PlusScraper.re_grams unit_size = Some m /\
              digits_val (Re.grp 1 m) <> 0%N /\
              PlusScraper.calculate_price_per_unit (plus_parsed_price r) (Some unit_size)
              = Ok None in
  let no_name :=
    PlusScraper.raw_name r = Null /\
    exists m, truthy image_url = true /\
              Re.search PlusScraper.re_product_id image_url = Some m in
  (forall price u, exists v, PlusScraper.calculate_price_per_unit price u = Ok v) /\
  (forall x, PlusScraper.clean_product r = Raise x <->
             (x = TypeError /\ no_quantity) \/
             (x = AttributeError /\ ~ no_quantity /\ no_name)) /\
  (forall raws,
     (exists cleaned, PlusScraper.clean_products raws = Ok cleaned /\
                      length cleaned = length raws) <->
     Forall (fun r' => exists c, PlusScraper.clean_product r' = Ok c) raws).
Proof.
  intros unit_size image_url no_quantity no_name.
  split; [apply plus_calculate_price_per_unit_Ok|]. split.
  - intros x. unfold PlusScraper.clean_product.
    fold unit_size. fold image_url. fold (plus_parsed_price r).
    assert (Hunit : forall x',
              (if truthy unit_size
               then PlusScraper.unit_price_fields (plus_parsed_price r) unit_size
               else Ok None) = Raise x' <-> x' = TypeError /\ no_quantity).
    { intros x'. destruct (truthy unit_size) eqn:Ht;
        [apply plus_unit_price_fields_raises|].
      split; [done|]. intros (_ & m & Hg & _).
      destruct unit_size; [done|discriminate Ht]. }
    destruct (if truthy unit_size then _ else _) as [per_unit|y] eqn:Hu.
    + assert (Hnq : ~ no_quantity).
      { intros Hq. pose proof (proj2 (Hunit TypeError) (conj eq_refl Hq)). done. }
      simpl.
      destruct (if truthy image_url then _ else _) as [m|] eqn:Hm.
      * destruct (PlusScraper.get_or_empty (PlusScraper.raw_name r)) as [n|] eqn:Hn.
        -- simpl. split; [done|]. intros [[_ ?]|(_ & _ & Hname & _)]; [done|].
           subst no_name. by rewrite Hname in Hn.
        -- simpl. split.
           ++ intros [= <-]. right. split; [done|]. split; [done|].
              split; [by destruct (PlusScraper.raw_name r)|].
              exists m. destruct (truthy image_url); [done|discriminate Hm].
           ++ intros [[_ ?]|(-> & _)]; done.
      * simpl. split; [done|].
        intros [[_ ?]|(_ & _ & _ & m & Ht & Hs)]; [done|].
        rewrite Ht, Hs in Hm. done.
    + simpl. split.
      * intros [= <-]. left. by apply Hunit.
      * intros [Hx|(-> & Hnq & _)].
        -- apply Hunit in Hx. by injection Hx as <-.
        -- destruct (proj1 (Hunit y) eq_refl) as [_ ?]. done.
  - intros raws. split.
    + intros (cleaned & Hc & _). revert cleaned Hc.
      induction raws as [|r' raws IH]; intros cleaned; simpl; [by constructor|].
      destruct (PlusScraper.clean_product r') as [c|] eqn:Hr; [|done]. simpl.
      destruct (PlusScraper.clean_products raws) as [cs|]; [|done].
      intros _. constructor; [by eexists|]. by eapply IH.
    + induction 1 as [|r' raws [c Hc] _ (cleaned & Hcs & Hlen)]; simpl.
      * by exists [].
      * rewrite Hc, Hcs. simpl. exists (c :: cleaned). simpl. by rewrite Hlen.
Qed.

Lemma X21_plus_loop_failures_witness :
  PlusScraper.clean_product
    {| PlusScraper.raw_name := Null;
       PlusScraper.raw_image := Has "https://images.plus.nl/140299_M/kaas.png";
       PlusScraper.raw_price_integer := Has "4";
       PlusScraper.raw_price_decimal := Has "99";
       PlusScraper.raw_price := Absent;
       PlusScraper.raw_unit_size := Has "2 stuk" |}
  = Raise AttributeError.
Proof.
  apply (proj1 (proj2 (X21_plus_loop_failures _))). right.
  split; [reflexivity|]. split.
  - intros (m & Hg & _). discriminate Hg.
  - split; [reflexivity|]. eexists. split; reflexivity.
Defined.

(** ** Infinity as price per unit *)

Section Infinity.
Import Re.

Lemma matches_no_groups r prev s caps prev' s' caps' :
  matches r prev s caps prev' s' caps' -> no_groups r = true -> caps' = caps.
Proof.
  induction 1; simpl; try done.
  - intros [Ha Hb]%andb_true_iff. by rewrite IHmatches2, IHmatches1.
  - intros [Ha Hb]%andb_true_iff. by apply IHmatches.
  - intros [Ha Hb]%andb_true_iff. by apply IHmatches.
Qed.

Lemma search_first_digits rest u m :
  no_groups rest = true ->
  search (Seq (Grp 1 (Rep1 is_digit)) rest) u = Some m -> isdigit (grp 1 m) = true.
Proof.
  intros Hrest (? & ? & ? & ? & H)%search_sound.
  inversion H; subst; clear H.
  match goal with H : matches (Grp _ _) _ _ _ _ _ _ |- _ =>
    apply matches_digits in H as (g & -> & Hg) end.
  match goal with H : matches rest _ _ _ _ _ _ |- _ =>
    apply matches_no_groups in H as ->; [|done] end.
  done.
Qed.

Lemma search_first_decimal rest u m :
  no_groups rest = true ->
  search (Seq (Grp 1 (Seq (Rep1 is_digit) (Opt (Seq (Chr (one_of ".,")) (Rep1 is_digit)))))
              rest) u = Some m ->
  decimal_number (grp 1 m).
Proof.
  intros Hrest (? & ? & ? & ? & H)%search_sound.
  inversion H; subst; clear H.
  match goal with H : matches (Grp _ _) _ _ _ _ _ _ |- _ =>
    apply matches_decimal in H as (g & -> & Hg) end.
  match goal with H : matches rest _ _ _ _ _ _ |- _ =>
    apply matches_no_groups in H as ->; [|done] end.
  done.
Qed.

Lemma app_per_count_Ok price u r m :
  no_groups r = true ->
  search (Seq (Grp 1 (Rep1 is_digit)) r) u = Some m ->
  exists v, Fin <$> App.per_count price (grp 1 m) = Ok (Fin v).
Proof.
  intros Hr Hm. unfold App.per_count.
  rewrite (py_int_digits _ (search_first_digits _ _ _ Hr Hm)). simpl. by eexists.
Qed.

Lemma replace_space_filter s :
  replace " " "" s = filter_chars (fun c => negb (Ascii.eqb c " ")) s.
Proof.
  unfold replace. induction s as [|c s IH]; [done|]. cbn [replace_from filter_chars].
  rewrite prefix_one_char, (Ascii.eqb_sym " " c).
  destruct (Ascii.eqb c " "); simpl; by rewrite <- IH.
Qed.

Lemma digits_and_spaces s :
  isdigit (replace " " "" s) = true ->
  all_chars (fun c => is_digit c || Ascii.eqb c " ") s = true.
Proof.
  rewrite replace_space_filter. intros H%isdigit_all_chars.
  induction s as [|c s IH]; [done|]. simpl in *.
  destruct (Ascii.eqb c " ") eqn:E; simpl in *.
  - rewrite orb_true_r. by apply IH.
  - apply andb_true_iff in H as [Hc Hs]. rewrite Hc. by apply IH.
Qed.

Lemma digits_and_spaces_no_char x s :
  is_digit x = false -> x <> " "%char ->
  all_chars (fun c => is_digit c || Ascii.eqb c " ") s = true ->
  any_char (Ascii.eqb x) s = false.
Proof.
  intros Hx Hsp. induction s as [|c s IH]; [done|]. simpl.
  intros [Hc Hs]%andb_true_iff. rewrite IH by done. rewrite orb_false_r.
  apply Ascii.eqb_neq. intros <-. rewrite Hx in Hc. simpl in Hc.
  by apply Ascii.eqb_eq in Hc.
Qed.

(** The failures of the body of [calculate_price_per_unit] once the
    price is read. *)
Lemma app_calculate_try_spec p price :
  price_per_unit_value p = None -> App.price_number p = Ok price ->
  let u := App.unit_text p in
  (isdigit (replace " " "" u) = true /\ py_float u = None /\
   App.calculate_price_per_unit_try p = Raise ValueError) \/
  (~ (isdigit (replace " " "" u) = true /\ py_float u = None) /\
   exists v, App.calculate_price_per_unit_try p = Ok (Fin v)).
Proof.
  intros Hv Hp u. unfold App.calculate_price_per_unit_try. rewrite Hv, Hp. fold u.
  cbn [mbind res_mbind res_bind].
  destruct (isdigit (replace " " "" u)) eqn:Hd.
  - pose proof (digits_and_spaces u Hd) as Hall.
    rewrite (contains_needs_head "s"), (contains_needs_head "p"),
      !(contains_needs_head "k"), !(contains_needs_head "g")
      by (by apply digits_and_spaces_no_char).
    cbn [orb]. destruct (py_float u) as [q|] eqn:Hq.
    + right. split; [by intros [_ ?]|]. simpl. destruct (qlt 0 q); by eexists.
    + by left.
  - right. split; [by intros [? _]|].
    destruct (contains "stuk" u).
    { destruct (search App.re_stuk u) as [m|] eqn:Hm; [|by eexists].
      exact (app_per_count_Ok price u (seqs [Star is_space; Lit "stuk"]) m eq_refl Hm). }
    destruct (contains "plak" u).
    { destruct (search App.re_plak u) as [m|] eqn:Hm; [|by eexists].
      exact (app_per_count_Ok price u (seqs [Star is_space; Lit "plak"]) m eq_refl Hm). }
    destruct (contains "kg" u || contains "kilo" u).
    { destruct (search App.re_kilo u) as [m|] eqn:Hm.
      - destruct (py_float_decimal_number (grp 1 m)) as (q & -> & _).
        { exact (search_first_decimal
                   (seqs [Star is_space; Lit "k"; Alt (Lit "ilo") (Lit "g")])
                   u m eq_refl Hm). }
        simpl. destruct (qlt 0 _); by eexists.
      - simpl. by eexists. }
    destruct (contains "g" u || contains "gram" u).
    { destruct (search App.re_gram u) as [m|] eqn:Hm.
      - destruct (py_float_decimal_number (grp 1 m)) as (q & -> & _).
        { exact (search_first_decimal
                   (seqs [Star is_space; Lit "g"; Opt (Lit "ram")])
                   u m eq_refl Hm). }
        simpl. destruct (qlt 0 _); by eexists.
      - simpl. by eexists. }
    simpl. by eexists.
Qed.
End Infinity.

Section InfinityFamily.

Lemma filter_chars_append p x y :
  filter_chars p (x +:+ y) = filter_chars p x +:+ filter_chars p y.
Proof.
  induction x as [|c x IH]; [done|]. rewrite append_cons. simpl.
  destruct (p c); [|done]. by rewrite append_cons, IH.
Qed.

Lemma filter_chars_id p s : all_chars p s = true -> filter_chars p s = s.
Proof.
  induction s as [|c s IH]; [done|]. simpl. intros [Hc Hs]%andb_true_iff.
  by rewrite Hc, IH.
Qed.

Lemma split_dot_no_dot s :
  any_char (Ascii.eqb ".") s = false -> split_dot s = (s, None).
Proof.
  induction s as [|c s IH]; [done|]. cbn [any_char split_dot].
  intros [Hc Hs]%orb_false_elim.
  rewrite (Ascii.eqb_sym c "."), Hc. by rewrite IH.
Qed.

Lemma py_float_head_digit c s d :
  is_digit c = true -> last_of None (String c s) = Some d -> is_space d = false ->
  py_float (String c s) = unsigned_decimal (String c s).
Proof.
  intros Hc Hl Hd. unfold py_float.
  rewrite (strip_fixed c s d (is_digit_not_space c Hc) Hl Hd).
  clear -Hc. destruct c as [[] [] [] [] [] [] [] []]; try done.
Qed.

Lemma digits_not_space_char s :
  all_chars is_digit s = true ->
  all_chars (fun c => negb (Ascii.eqb c " ")) s = true.
Proof.
  apply all_chars_impl. intros c Hc. apply negb_true_iff, Ascii.eqb_neq.
  intros ->. by vm_compute in Hc.
Qed.

(** A number written with a space between its digits. *)
Lemma spaced_number a b :
  isdigit a = true -> isdigit b = true ->
  strip (lower (a +:+ " " +:+ b)) = a +:+ " " +:+ b /\
  isdigit (replace " " "" (a +:+ " " +:+ b)) = true /\
  py_float (a +:+ " " +:+ b) = None.
Proof.
  intros Ha Hb.
  pose proof (isdigit_all_chars _ Ha) as Ha'. pose proof (isdigit_all_chars _ Hb) as Hb'.
  destruct a as [|c a]; [done|]. simpl in Ha'.
  apply andb_true_iff in Ha' as [Hc Ha'].
  destruct (last_of_digits (last_of (last_of None (String c a)) " ") b
              (isdigit_truthy _ Hb) Hb') as (d & Hl & Hd).
  assert (Hlast : last_of None (String c (a +:+ " " +:+ b)) = Some d).
  { rewrite <- append_cons. by rewrite !last_of_append. }
  split; [|split].
  - rewrite !lower_append, (lower_digits (String c a)), (lower_digits b) by
      (done || (simpl; by rewrite Hc, Ha')).
    change (lower " ") with " ". rewrite append_cons.
    apply (strip_fixed _ _ d); [by apply is_digit_not_space|done|
                                 by apply is_digit_not_space].
  - rewrite replace_space_filter, !filter_chars_append.
    rewrite (filter_chars_id _ (String c a)), (filter_chars_id _ b)
      by (apply digits_not_space_char; (done || (simpl; by rewrite Hc, Ha'))).
    change (filter_chars _ " ") with "". rewrite append_nil.
    rewrite append_cons. unfold isdigit. cbn [all_chars]. rewrite Hc. simpl.
    by rewrite all_chars_append, Ha', Hb'.
  - rewrite append_cons.
    rewrite (py_float_head_digit c _ d Hc Hlast (is_digit_not_space d Hd)).
    unfold unsigned_decimal. rewrite split_dot_no_dot.
    + unfold isdigit. cbn [all_chars].
      rewrite !all_chars_append. simpl. by rewrite !andb_false_r.
    + rewrite <- append_cons, !any_char_append.
      rewrite (digits_no_char "." (String c a)), (digits_no_char "." b); try done.
Qed.
End InfinityFamily.

(** X22. Infinity as price per unit.  For a product without a
    pre-computed value whose price reads as a number,
    [calculate_price_per_unit] of [app.py] returns infinity in exactly one
    case: the unit size, in lower case and stripped, consists of digits and
    spaces and does not read as a number.  In every other case it returns
    a finite value: no quantity that one of its patterns captures fails to
    convert.  A number with a space between its digits, as in "1 000", is
    such a unit size: it passes the test on the digits and fails the
    conversion. *)
Theorem X22_infinite_price_per_unit (p : product) (x : Q) :
  price_per_unit_value p = None ->
  App.price_number p = Ok x ->
  (App.calculate_price_per_unit p = Ok PInf <->
   isdigit (replace " " "" (App.unit_text p)) = true /\
   py_float (App.unit_text p) = None) /\
  (App.calculate_price_per_unit p = Ok PInf \/
   exists v, App.calculate_price_per_unit p = Ok (Fin v)) /\
  (forall a b, isdigit a = true -> isdigit b = true ->
     unit_size p = Has (a +:+ " " +:+ b) ->
     App.calculate_price_per_unit p = Ok PInf).
Proof.
  intros Hv Hp.
  assert (Hiff : App.calculate_price_per_unit p = Ok PInf <->
                 isdigit (replace " " "" (App.unit_text p)) = true /\
                 py_float (App.unit_text p) = None).
  { unfold App.calculate_price_per_unit.
    destruct (app_calculate_try_spec p x Hv Hp) as [(Hd & Hf & ->)|(Hn & v & ->)].
    - done.
    - split; [done|]. intros H. by destruct Hn. }
  split; [done|]. split.
  - unfold App.calculate_price_per_unit.
    destruct (app_calculate_try_spec p x Hv Hp) as [(Hd & Hf & ->)|(Hn & v & ->)];
      [by left|right; by exists v].
  - intros a b Ha Hb Hu. apply Hiff. unfold App.unit_text. rewrite Hu.
    destruct (spaced_number a b Ha Hb) as (-> & Hd & Hf). done.
Qed.

Lemma X22_infinite_price_per_unit_witness :
  App.calculate_price_per_unit (example_product AH "Aardappelen" 2 (Has "1 000"))
  = Ok PInf.
Proof.
  apply (proj2 (proj2 (X22_infinite_price_per_unit
                         (example_product AH "Aardappelen" 2 (Has "1 000")) 2
                         eq_refl eq_refl)) "1" "000"); reflexivity.
Defined.

(** ** The unit-size extractors do not raise *)

Section Extractors.
Import Re.

Lemma matches_keeps_group i r prev s caps prev' s' caps' :
  matches r prev s caps prev' s' caps' -> defines i r = false ->
  group i caps' = group i caps.
Proof.
  induction 1; simpl; try done.
  - intros [Ha Hb]%orb_false_elim. by rewrite IHmatches2, IHmatches1.
  - intros [Ha Hb]%orb_false_elim. by apply IHmatches.
  - intros [Ha Hb]%orb_false_elim. by apply IHmatches.
  - intros [Hi Ha]%orb_false_elim. rewrite Hi. by apply IHmatches.
Qed.

Lemma search_decimal_then rest u m :
  defines 1 rest = false ->
  search (Seq (Grp 1 (Seq (Rep1 is_digit) (Opt (Seq (Chr (one_of ".,")) (Rep1 is_digit)))))
              rest) u = Some m ->
  decimal_number (grp 1 m).
Proof.
  intros Hrest (? & ? & ? & ? & H)%search_sound.
  inversion H; subst; clear H.
  match goal with H : matches (Grp _ _) _ _ _ _ _ _ |- _ =>
    apply matches_decimal in H as (g & -> & Hg) end.
  match goal with H : matches rest _ _ _ _ _ _ |- _ =>
    apply (matches_keeps_group 1) in H; [|done]; unfold grp; by rewrite H end.
Qed.

Lemma plus_kilos_to_grams_Ok g :
  decimal_number g -> exists u, PlusScraper.kilos_to_grams (replace "," "." g) = Ok u.
Proof.
  intros (q & Hq & _)%py_float_decimal_number.
  unfold PlusScraper.kilos_to_grams. rewrite Hq. simpl. by eexists.
Qed.

Lemma plus_extract_unit_size_Ok value :
  exists u, PlusScraper.extract_unit_size value = Ok u.
Proof.
  unfold PlusScraper.extract_unit_size.
  destruct (negb (truthy value)); [by eexists|].
  set (v := sub_anchored PlusScraper.re_per_prefix (strip (lower value))).
  destruct (search PlusScraper.re_per v) as [m|] eqn:Hper.
  { assert (Hg : decimal_number (grp 1 m)).
    { exact (search_decimal_then
               (seqs [Star is_space;
                      Grp 2 (alts [Chr (one_of "gk"); Lit "kg"; Lit "gram"])])
               v m eq_refl Hper). }
    destruct (_ || _); [by apply plus_kilos_to_grams_Ok|by eexists]. }
  destruct (search PlusScraper.re_x_stuk v); [by eexists|].
  destruct (search PlusScraper.re_x_plak v); [by eexists|].
  destruct (search PlusScraper.re_weight v) as [m|] eqn:Hw.
  { assert (Hg : decimal_number (grp 1 m)).
    { exact (search_decimal_then
               (seqs [Star is_space;
                      Grp 2 (alts [Chr (one_of "gk"); Lit "kg"; Lit "gram"]);
                      Alt (Chr (none_of is_lower_az)) Eol])
               v m eq_refl Hw). }
    destruct (_ || _).
    - destruct (py_float_decimal_number _ Hg) as (q & -> & _). simpl. by eexists.
    - destruct (_ || _); [by apply plus_kilos_to_grams_Ok|].
      destruct (_ || _); [by eexists|].
      destruct (search PlusScraper.re_numeric v); by eexists. }
  destruct (_ || _); [by eexists|].
  destruct (search PlusScraper.re_numeric v); by eexists.
Qed.
End Extractors.

(** X23. The unit-size extractors do not raise.  [extract_unit_size] of
    the Plus scraper returns a text for every value: each number that it
    converts was captured by a pattern for decimal numbers, and such a
    text always reads as a float that is not negative.  [extract_unit_size]
    of the Jumbo scraper returns a text for every name as well, so that no
    product name makes the Jumbo loop leave out a product. *)
Theorem X23_unit_size_extractors_total :
  (forall value, exists u, PlusScraper.extract_unit_size value = Ok u) /\
  (forall name, exists u, JumboScraper.extract_unit_size name = Ok u) /\
  (forall g, decimal_number g ->
     exists q, py_float (replace "," "." g) = Some q /\ (0 <= q)%Q) /\
  (forall g, decimal_number g ->
     exists u, PlusScraper.kilos_to_grams (replace "," "." g) = Ok u).
Proof.
  split; [exact plus_extract_unit_size_Ok|]. split; [exact jumbo_extract_unit_size_Ok|].
  split; [exact py_float_decimal_number|exact plus_kilos_to_grams_Ok].
Qed.

Lemma X23_unit_size_extractors_total_witness :
  exists q, py_float (replace "," "." "0,4") = Some q /\ (0 <= q)%Q.
Proof.
  apply (proj1 (proj2 (proj2 X23_unit_size_extractors_total))).
  exists "0". split; [reflexivity|]. right. exists ","%char, "4".
  split; [by right|]. split; reflexivity.
Defined.

(** ** The unit sizes that the Jumbo scraper reads from a name *)

Section JumboUnits.
Import Re.

(** The loop over the patterns, with the tests on the pattern texts
    evaluated: the branch that converts kilograms is not among the
    outcomes. *)
Lemma jumbo_try_patterns name :
  JumboScraper.try_patterns JumboScraper.patterns name =
  match search JumboScraper.re_stuks name with
  | Some m => Some (Ok (grp 1 m +:+ " stuks"))
  | None =>
  match search JumboScraper.re_plakken name with
  | Some m => Some (Ok (grp 1 m +:+ " plakken"))
  | None =>
  match search JumboScraper.re_kilo name with
  | Some m => Some (Ok (grp 1 m +:+ "g"))
  | None =>
  match search JumboScraper.re_gram name with
  | Some m => Some (Ok (grp 1 m +:+ "g"))
  | None => None
  end end end end.
Proof.
  unfold JumboScraper.patterns. cbn [JumboScraper.try_patterns].
  by repeat destruct (search _ name).
Qed.
End JumboUnits.

(** X24. The unit sizes that [extract_unit_size] of the Jumbo scraper
    returns.  The result is the empty text, one of the bread sizes "400g"
    and "800g", a whole number with " stuks" or " plakken", or a decimal
    number as it stands in the name with "g".  A kilogram amount is among
    the last: the number of kilograms is never multiplied by a thousand. *)
Theorem X24_jumbo_unit_size_shape (name u : string) :
  JumboScraper.extract_unit_size name = Ok u ->
  u = "" \/ u = "400g" \/ u = "800g" \/
  (exists n, isdigit n = true /\ (u = n +:+ " stuks" \/ u = n +:+ " plakken")) \/
  (exists g, decimal_number g /\ u = g +:+ "g" /\
             (Re.search JumboScraper.re_kilo (lower name) = Some [(1, g)] \/
              Re.search JumboScraper.re_gram (lower name) = Some [(1, g)])).
Proof.
  unfold JumboScraper.extract_unit_size.
  destruct (negb (truthy name)); [intros [= <-]; by left|].
  destruct (endswith _ _); [intros [= <-]; by right; left|].
  destruct (_ || _); [intros [= <-]; by right; right; left|].
  destruct (contains "half" _); [intros [= <-]; by right; left|].
  rewrite jumbo_try_patterns.
  destruct (Re.search JumboScraper.re_stuks (lower name)) as [m|] eqn:H1.
  { intros [= <-]. right. right. right. left. exists (Re.grp 1 m). split; [|by left].
    exact (search_first_digits
             (Re.seqs [Re.Star is_space; Re.Lit "stuk"; Re.Opt (Re.Lit "s"); Re.WordB])
             _ m eq_refl H1). }
  destruct (Re.search JumboScraper.re_plakken (lower name)) as [m|] eqn:H2.
  { intros [= <-]. right. right. right. left. exists (Re.grp 1 m). split; [|by right].
    exact (search_first_digits
             (Re.seqs [Re.Star is_space; Re.Lit "plak"; Re.Opt (Re.Lit "k");
                       Re.Opt (Re.Lit "en"); Re.WordB])
             _ m eq_refl H2). }
  assert (Hone : forall rest m,
    no_groups rest = true ->
    Re.search (Re.Seq JumboScraper.re_decimal rest) (lower name) = Some m ->
    m = [(1, Re.grp 1 m)]).
  { intros rest m Hrest (? & ? & ? & ? & H)%search_sound.
    inversion H; subst; clear H.
    match goal with H : matches JumboScraper.re_decimal _ _ _ _ _ _ |- _ =>
      apply matches_decimal in H as (g & -> & Hg) end.
    match goal with H : matches rest _ _ _ _ _ _ |- _ =>
      apply matches_no_groups in H as ->; [|done] end.
    done. }
  destruct (Re.search JumboScraper.re_kilo (lower name)) as [m|] eqn:H3.
  { intros [= <-]. do 4 right. exists (Re.grp 1 m). split; [|split; [done|left]].
    - exact (search_first_decimal
               (Re.seqs [Re.Star is_space; Re.Lit "k";
                         Re.Alt (Re.Lit "ilo") (Re.Lit "g"); Re.WordB])
               _ m eq_refl H3).
    - f_equal.
      exact (Hone (Re.seqs [Re.Star is_space; Re.Lit "k";
                            Re.Alt (Re.Lit "ilo") (Re.Lit "g"); Re.WordB])
               m eq_refl H3). }
  destruct (Re.search JumboScraper.re_gram (lower name)) as [m|] eqn:H4.
  { intros [= <-]. do 4 right. exists (Re.grp 1 m). split; [|split; [done|right]].
    - exact (search_first_decimal
               (Re.seqs [Re.Star is_space; Re.Lit "g"; Re.Opt (Re.Lit "ram"); Re.WordB])
               _ m eq_refl H4).
    - f_equal.
      exact (Hone (Re.seqs [Re.Star is_space; Re.Lit "g"; Re.Opt (Re.Lit "ram");
                            Re.WordB])
               m eq_refl H4). }
  intros [= <-]. by left.
Qed.

Lemma X24_jumbo_unit_size_shape_witness :
  "1,5g" = "" \/ "1,5g" = "400g" \/ "1,5g" = "800g" \/
  (exists n, isdigit n = true /\ ("1,5g" = n +:+ " stuks" \/ "1,5g" = n +:+ " plakken")) \/
  (exists g, decimal_number g /\ "1,5g" = g +:+ "g" /\
             (Re.search JumboScraper.re_kilo (lower "Jumbo Kaas 1,5 kilo") = Some [(1, g)] \/
              Re.search JumboScraper.re_gram (lower "Jumbo Kaas 1,5 kilo") = Some [(1, g)])).
Proof.
  apply (X24_jumbo_unit_size_shape "Jumbo Kaas 1,5 kilo" "1,5g"). reflexivity.
Defined.
